(** * lambda-deploy: action resolution and booking conflict resolution

    A shallow embedding of the request dispatcher ([src/index.js]), of the
    earlier dispatcher that carries the date repair and the pre-flight
    availability check ([src/unnamed/part_011]) and of the ECMAScript date
    arithmetic both rely on, followed by the properties of the
    specification that were checked against them.  The provider client
    ([src/unnamed/part_012]) and the configuration module ([src/config.js])
    are embedded as well, and further properties of all four follow the
    specification's. *)

From Stdlib Require Import ZArith Lia Bool List Permutation Sorted Ascii String.
From stdpp Require Import gmap strings list pretty.

Local Open Scope Z_scope.

(** [lia] treats division and remainder by literals through their
    Euclidean equations. *)
Ltac Zify.zify_post_hook ::= Z.div_mod_to_equations.

(** ** ECMAScript time values

    A [Date] is its time value: milliseconds since 1970-01-01T00:00Z, here
    an unbounded [Z] (invalid dates and the 8.64e15 range limit are left
    out).  The definitions are the abstract operations of ECMA-262,
    section "Time Values and Time Range" onwards. *)
Module JSDate.

Definition msPerDay : Z := 86400000.
Definition msPerHour : Z := 3600000.
Definition msPerMinute : Z := 60000.
Definition msPerSecond : Z := 1000.

Definition Day (t : Z) : Z := t / msPerDay.
Definition TimeWithinDay (t : Z) : Z := t mod msPerDay.

Definition isLeap (y : Z) : bool :=
  (y mod 4 =? 0) && (negb (y mod 100 =? 0) || (y mod 400 =? 0)).

Definition DaysInYear (y : Z) : Z := if isLeap y then 366 else 365.

Definition DayFromYear (y : Z) : Z :=
  365 * (y - 1970) + (y - 1969) / 4 - (y - 1901) / 100 + (y - 1601) / 400.

Definition TimeFromYear (y : Z) : Z := msPerDay * DayFromYear y.

(** ECMA-262 defines [YearFromTime t] as the largest [y] with
    [TimeFromYear y <= t]; the estimate below is off by at most one and is
    corrected by comparison (see [YearFromDay_bracket]). *)
Definition YearFromDay (d : Z) : Z :=
  let e := 1970 + (400 * d) / 146097 in
  if d <? DayFromYear e then e - 1
  else if DayFromYear (e + 1) <=? d then e + 1
  else e.

Definition YearFromTime (t : Z) : Z := YearFromDay (Day t).
Definition InLeapYear (t : Z) : Z := if isLeap (YearFromTime t) then 1 else 0.
Definition DayWithinYear (t : Z) : Z := Day t - DayFromYear (YearFromTime t).

(** Day number within the year of the first day of month [m] (0-based). *)
Definition monthStart (leap m : Z) : Z :=
  match m with
  | 0 => 0 | 1 => 31 | 2 => 59 + leap | 3 => 90 + leap | 4 => 120 + leap
  | 5 => 151 + leap | 6 => 181 + leap | 7 => 212 + leap | 8 => 243 + leap
  | 9 => 273 + leap | 10 => 304 + leap | 11 => 334 + leap
  | _ => 365 + leap
  end.

Definition monthOfYearDay (leap dwy : Z) : Z :=
  if dwy <? 31 then 0
  else if dwy <? 59 + leap then 1
  else if dwy <? 90 + leap then 2
  else if dwy <? 120 + leap then 3
  else if dwy <? 151 + leap then 4
  else if dwy <? 181 + leap then 5
  else if dwy <? 212 + leap then 6
  else if dwy <? 243 + leap then 7
  else if dwy <? 273 + leap then 8
  else if dwy <? 304 + leap then 9
  else if dwy <? 334 + leap then 10
  else 11.

Definition MonthFromTime (t : Z) : Z :=
  monthOfYearDay (InLeapYear t) (DayWithinYear t).
Definition DateFromTime (t : Z) : Z :=
  DayWithinYear t - monthStart (InLeapYear t) (MonthFromTime t) + 1.
Definition HourFromTime (t : Z) : Z := (t / msPerHour) mod 24.
Definition MinFromTime (t : Z) : Z := (t / msPerMinute) mod 60.
Definition SecFromTime (t : Z) : Z := (t / msPerSecond) mod 60.
Definition msFromTime (t : Z) : Z := t mod msPerSecond.

Definition MakeTime (hour min sec ms : Z) : Z :=
  hour * msPerHour + min * msPerMinute + sec * msPerSecond + ms.

Definition MakeDay (year month date : Z) : Z :=
  let ym := year + month / 12 in
  let mn := month mod 12 in
  DayFromYear ym + monthStart (if isLeap ym then 1 else 0) mn + date - 1.

Definition MakeDate (day time : Z) : Z := day * msPerDay + time.

Definition DaysInMonth (y m : Z) : Z :=
  let l := if isLeap y then 1 else 0 in monthStart l (m + 1) - monthStart l m.

(** The date part of [toISOString()], i.e. [toISOString().split('T')[0]]:
    the UTC calendar date, month counted from 1.  The string
    ["YYYY-MM-DD"] is its rendering. *)
Record IsoDate := { iso_year : Z; iso_month : Z; iso_day : Z }.

Definition toISODate (t : Z) : IsoDate :=
  {| iso_year := YearFromTime t;
     iso_month := MonthFromTime t + 1;
     iso_day := DateFromTime t |}.

Section LocalTime.
(** Offset of the process's local time zone from UTC in milliseconds
    (0 on AWS Lambda).  Daylight saving transitions are not modelled:
    the offset is one constant. *)
Variable LocalTZA : Z.

Definition LocalTime (t : Z) : Z := t + LocalTZA.
Definition UTC (t : Z) : Z := t - LocalTZA.

Definition getFullYear (d : Z) : Z := YearFromTime (LocalTime d).
Definition getMonth (d : Z) : Z := MonthFromTime (LocalTime d).
Definition getDate (d : Z) : Z := DateFromTime (LocalTime d).
Definition getHours (d : Z) : Z := HourFromTime (LocalTime d).
Definition getMinutes (d : Z) : Z := MinFromTime (LocalTime d).

(** [d.setFullYear(year)] *)
Definition setFullYear (d year : Z) : Z :=
  let t := LocalTime d in
  UTC (MakeDate (MakeDay year (MonthFromTime t) (DateFromTime t))
                (TimeWithinDay t)).

(** [d.setDate(date)] *)
Definition setDate (d date : Z) : Z :=
  let t := LocalTime d in
  UTC (MakeDate (MakeDay (YearFromTime t) (MonthFromTime t) date)
                (TimeWithinDay t)).

(** [d.setHours(hour, min, sec, ms)] *)
Definition setHours (d hour min sec ms : Z) : Z :=
  let t := LocalTime d in
  UTC (MakeDate (Day t) (MakeTime hour min sec ms)).

(** [new Date(year, month, date)]: local midnight; two-digit years are
    read as 19xx. *)
Definition newDate (year month date : Z) : Z :=
  let yr := if (0 <=? year) && (year <=? 99) then 1900 + year else year in
  UTC (MakeDate (MakeDay yr month date) (MakeTime 0 0 0 0)).
End LocalTime.

End JSDate.

(** ** JavaScript values and control effects *)
Module JS.

#[local] Set Warnings "-register-all".

(** JSON values as the handlers see them after [JSON.parse].  Numbers are
    the integers the API exchanges (ids, durations, status codes).
    [undefined] is the absence of a value: [option json]. *)
Inductive json :=
  | JNull
  | JBool (b : bool)
  | JNum (z : Z)
  | JStr (s : string)
  | JArr (l : list json)
  | JObj (m : gmap string json).

(** ToBoolean *)
Definition truthy (v : option json) : bool :=
  match v with
  | None | Some JNull => false
  | Some (JBool b) => b
  | Some (JNum z) => negb (z =? 0)
  | Some (JStr s) => negb (String.eqb s "")
  | Some (JArr _) | Some (JObj _) => true
  end.

(** [a || b] *)
Definition or_else (a b : option json) : option json :=
  if truthy a then a else b.

(** Truthiness of a string-valued property that may be absent. *)
Definition truthyS (v : option string) : bool :=
  match v with
  | Some s => negb (String.eqb s "")
  | None => false
  end.

(** [s.includes(sub)] *)
Definition includes (s sub : string) : bool :=
  match String.index 0 sub s with Some _ => true | None => false end.

(** An object literal: properties whose value is [undefined] are dropped
    by [JSON.stringify], so they are not entered. *)
Definition obj (fields : list (string * option json)) : gmap string json :=
  foldr (fun kv m => match kv.2 with Some v => <[kv.1 := v]> m | None => m end)
        ∅ fields.

(** Thrown values.  [details] is the payload that the provider client
    attaches to its errors. *)
Record Error := {
  err_name : string;
  message : string;
  err_statusCode : option Z;
  field : option string;
  resource : option string;
  source : option string;
  details : option json
}.

Definition mkError (name msg : string) : Error :=
  {| err_name := name; message := msg; err_statusCode := None; field := None;
     resource := None; source := None; details := None |}.

(** [new ValidationError(message, field)] of [utils/errorHandler.js] *)
Definition ValidationError (msg fld : string) : Error :=
  {| err_name := "ValidationError"; message := msg; err_statusCode := Some 400;
     field := Some fld; resource := None; source := None; details := None |}.

Definition TypeError (msg : string) : Error := mkError "TypeError" msg.

(** A computation that threads a state [S] and either returns or throws. *)
Inductive Outcome (A : Type) :=
  | Return (a : A)
  | Throw (e : Error).
Arguments Return {A} a.
Arguments Throw {A} e.

Definition M (S A : Type) : Type := S -> Outcome A * S.

Definition ret {S A} (a : A) : M S A := fun s => (Return a, s).
Definition throw {S A} (e : Error) : M S A := fun s => (Throw e, s).
Definition bind {S A B} (c : M S A) (k : A -> M S B) : M S B :=
  fun s => match c s with
           | (Return a, s') => k a s'
           | (Throw e, s') => (Throw e, s')
           end.
(** [try { c } catch (e) { h e }]: state changes made before the throw
    persist. *)
Definition try_catch {S A} (c : M S A) (h : Error -> M S A) : M S A :=
  fun s => match c s with
           | (Return a, s') => (Return a, s')
           | (Throw e, s') => h e s'
           end.
Definition get {S} : M S S := fun s => (Return s, s).
Definition modify {S} (f : S -> S) : M S unit := fun s => (Return tt, f s).
Definition liftOutcome {S A} (o : Outcome A) : M S A := fun s => (o, s).

#[global] Instance M_ret {S} : MRet (M S) := @ret S.
#[global] Instance M_bind {S} : MBind (M S) := fun A B k c => bind c k.

End JS.

(** ** The helpers of [services/calApi.js] used by the booking path *)
Module CalApi.

(** An entry of the formatted availability list: the slot's instant (the
    [time] property, as a time value) and its spoken rendering. *)
Record Slot := { time : Z; spoken : string }.

(** Modelled from the spec: [isTimeSlotAvailable] is exported by
    [services/calApi.js] but is not part of the sources at hand.  "Determine
    whether the exact requested start time appears in the returned
    availability set (exact timestamp match)." *)
Definition isTimeSlotAvailable (formattedAvailability : list Slot)
    (startTime : Z) : bool :=
  existsb (fun slot => time slot =? startTime) formattedAvailability.

Definition distance (t0 : Z) (slot : Slot) : Z := Z.abs (time slot - t0).

(** [a] ranks no later than [b]: nearer to [t0], or equally near and not
    later in time. *)
Definition closer (t0 : Z) (a b : Slot) : bool :=
  (distance t0 a <? distance t0 b)
  || ((distance t0 a =? distance t0 b) && (time a <=? time b)).

Definition ranks (t0 : Z) (a b : Slot) : Prop := closer t0 a b = true.

Fixpoint insert_slot (t0 : Z) (x : Slot) (l : list Slot) : list Slot :=
  match l with
  | [] => [x]
  | y :: l' => if closer t0 x y then x :: y :: l' else y :: insert_slot t0 x l'
  end.

(** A stable sort, as [Array.prototype.sort] is. *)
Definition sortByDistance (t0 : Z) (slots : list Slot) : list Slot :=
  foldr (insert_slot t0) [] slots.

(** Modelled from the spec: [findAlternativeTimeSlots] is exported by
    [services/calApi.js] but is not part of the sources at hand.  "Given
    requested Instant t0 and candidate set S, sort S by |slot.time - t0|
    ascending; for equal distances, the earlier timestamp sorts first;
    truncate to N." *)
Definition findAlternativeTimeSlots (slots : list Slot) (t0 : Z) (N : nat)
    : list Slot :=
  take N (sortByDistance t0 slots).

End CalApi.

(** ** The booking orchestrator with date repair ([src/unnamed/part_011])

    [createBooking] of the dispatcher that validates the legacy call shape,
    repairs past dates, checks availability before booking and computes
    alternatives on conflict.  Timestamps ([startTime], [endTime], slot
    times) stand for the time values that [new Date(...)] reads from their
    ISO strings; [toISOString()] is the inverse rendering.  A start or end
    that [new Date(...)] cannot read is [NotADate]. *)
Module Legacy.
Import JSDate JS CalApi.

(** A truthy [startTime] or [endTime] as [new Date(...)] reads it: the
    time value of a date, or no date at all ([getTime()] is [NaN] and
    [toISOString()] throws a [RangeError]). *)
Inductive DateText :=
  | Instant (t : Z)
  | NotADate.

#[global] Instance DateText_eq_dec : EqDecision DateText.
Proof. solve_decision. Defined.

Record BookingParams := {
  name : option string;
  email : option string;
  startTime : option DateText;
  endTime : option DateText;
  timeZone : option string;
  notes : option string;
  guests : list string;
  location : option string;
  eventTypeId : option string
}.

(** [params.startTime = v] and [params.endTime = v] *)
Definition set_startTime (params : BookingParams) (v : DateText)
    : BookingParams :=
  {| name := name params; email := email params; startTime := Some v;
     endTime := endTime params; timeZone := timeZone params;
     notes := notes params; guests := guests params;
     location := location params; eventTypeId := eventTypeId params |}.
Definition set_endTime (params : BookingParams) (v : DateText)
    : BookingParams :=
  {| name := name params; email := email params; startTime := startTime params;
     endTime := Some v; timeZone := timeZone params;
     notes := notes params; guests := guests params;
     location := location params; eventTypeId := eventTypeId params |}.

(** The object handed to [calApi.createBooking]. *)
Record BookingDetails := {
  bd_eventTypeId : string;
  bd_eventTypeSlug : string;
  bd_name : string;
  bd_email : string;
  bd_startTime : Z;
  bd_endTime : option DateText;
  bd_timeZone : string;
  bd_notes : option string;
  bd_guests : option (list string);
  bd_location : option string;
  bd_metadata_source : string;
  bd_metadata_created : Z
}.

(** Requests sent to the scheduling provider through [calApi]. *)
Inductive ProviderCall :=
  | GetAvailability (eventTypeId : string) (startDate endDate : IsoDate)
      (timeZone : string)
  | CreateBooking (bookingDetails : BookingDetails).

(** [responseMessage]: a fixed text, or the note about the adjustment,
    whose two dates are rendered by [toLocaleString]. *)
Inductive Message :=
  | Text (s : string)
  | AdjustedNote (originalDate : Z) (adjustedDate : option DateText).

Inductive Body :=
  | Conflict (success : bool) (error : string) (alternativeSlots : list Slot)
      (message : string)
  | Booked (success : bool) (booking : json) (message : Message)
      (dateAdjusted : bool) (originalDate : option Z)
      (adjustedDate : option DateText).

Record Response := { statusCode : Z; body : Body }.

Definition success_of (b : Body) : bool :=
  match b with Conflict s _ _ _ => s | Booked s _ _ _ _ _ => s end.
Definition alternativeSlots_of (b : Body) : option (list Slot) :=
  match b with Conflict _ _ a _ => Some a | Booked _ _ _ _ _ _ => None end.

Section CreateBooking.
Variable LocalTZA : Z.
(** [new Date()] at line 552 *)
Variable now : Z.
(** [new Date()] at line 680, when the booking request is built *)
Variable created : Z.
(** [config.cal.eventTypeId] *)
Variable config_cal_eventTypeId : string.
(** The scheduling provider behind [calApi.getAvailability] and
    [calApi.createBooking]: what it answers to a request, given the
    requests made before. *)
Variable calApi : list ProviderCall -> ProviderCall -> Error + json.
(** [calApi.formatAvailabilityForVoice] *)
Variable formatAvailabilityForVoice : json -> list Slot.

Definition call (c : ProviderCall) : M (list ProviderCall) json :=
  fun trace =>
    match calApi trace c with
    | inl e => (Throw e, trace ++ [c])
    | inr v => (Return v, trace ++ [c])
    end.

Definition isPastYear (bookingDate : Z) : bool :=
  getFullYear LocalTZA bookingDate <? getFullYear LocalTZA now.
Definition isPastDate (bookingDate : Z) : bool := bookingDate <=? now.

(** Lines 566-582. *)
Definition adjustedDate (bookingDate : Z) : Z :=
  if isPastYear bookingDate then
    let adjustedDate := setFullYear LocalTZA bookingDate (getFullYear LocalTZA now) in
    if adjustedDate <=? now
    then setFullYear LocalTZA adjustedDate (getFullYear LocalTZA now + 1)
    else adjustedDate
  else
    let adjustedDate := setDate LocalTZA now (getDate LocalTZA now + 1) in
    setHours LocalTZA adjustedDate
      (getHours LocalTZA bookingDate) (getMinutes LocalTZA bookingDate) 0 0.

(** Lines 551-629: the state of [params] after the repair block.
    [startTime] is the date read from the constant destructured from
    [params] on entry, [endTime] that constant itself.  Where the end
    time is no date, line 620 throws before it assigns. *)
Definition dateRepair (params : BookingParams) (startTime : Z)
    (endTime : option DateText) : BookingParams :=
  let bookingDate := startTime in
  if isPastYear bookingDate || isPastDate bookingDate then
    let adjustedDate := adjustedDate bookingDate in
    let bookingDate := adjustedDate in
    let adjustedStartTime := adjustedDate in
    let params := set_startTime params (Instant adjustedStartTime) in
    match Legacy.endTime params, endTime with
    | Some _, Some (Instant originalEndTime) =>
        let timeDiff := originalEndTime - bookingDate in
        let adjustedEndTime := adjustedDate + timeDiff in
        set_endTime params (Instant adjustedEndTime)
    | _, _ => params
    end
  else params.

(** [RangeError: Invalid time value], what [toISOString()] throws on a
    date whose time value is [NaN]. *)
Definition invalidTime : Error := mkError "RangeError" "Invalid time value".

(** Line 620: [adjustedEndTime.toISOString()] throws when the repair
    block runs, [params.endTime] is truthy and [new Date(endTime)] is no
    date. *)
Definition repairThrows (params : BookingParams) (startTime : Z)
    (endTime : option DateText) : bool :=
  (isPastYear startTime || isPastDate startTime)
  && match Legacy.endTime params, endTime with
     | Some _, Some (Instant _) => false
     | Some _, _ => true
     | None, _ => false
     end.

(** [new Date(y, m, d + k).toISOString().split('T')[0]] for the local
    calendar date [y, m, d] of [requestedDate]. *)
Definition dayAround (requestedDate k : Z) : IsoDate :=
  toISODate (newDate LocalTZA (getFullYear LocalTZA requestedDate)
               (getMonth LocalTZA requestedDate)
               (getDate LocalTZA requestedDate + k)).

Definition conflictResponse (alternativeSlots : list Slot) : Response :=
  {| statusCode := 409;
     body := Conflict false "Requested time slot is not available"
               alternativeSlots
               "The requested time slot is not available. Please choose from the alternative slots provided." |}.

(** Lines 637-734: the body of the [try].  [params] is the object after
    the repair block. *)
Definition attempt (params : BookingParams) (name email : string)
    (startTime : Z) (endTime : option DateText) (timeZone : string)
    (notes : option string) (guests : list string)
    (location : option string) (eventTypeId : string)
    : M (list ProviderCall) Response :=
  let requestedDate := startTime in
  let startDate := dayAround requestedDate (-1) in
  let endDate := dayAround requestedDate 1 in
  availability ← call (GetAvailability eventTypeId startDate endDate timeZone);
  let formattedAvailability := formatAvailabilityForVoice availability in
  let isAvailable := isTimeSlotAvailable formattedAvailability startTime in
  if negb isAvailable then
    let alternativeSlots :=
      findAlternativeTimeSlots formattedAvailability startTime 5 in
    mret (conflictResponse alternativeSlots)
  else
    let bookingDetails :=
      {| bd_eventTypeId := eventTypeId; bd_eventTypeSlug := "secret";
         bd_name := name; bd_email := email; bd_startTime := startTime;
         bd_endTime := endTime; bd_timeZone := timeZone; bd_notes := notes;
         bd_guests := match guests with [] => None | _ => Some guests end;
         bd_location := if truthyS location then location else None;
         bd_metadata_source := "lambda-cal-vapi-integration";
         bd_metadata_created := created |} in
    booking ← call (CreateBooking bookingDetails);
    let dateAdjusted :=
      negb (bool_decide (Some (Instant startTime) = Legacy.startTime params)) in
    let responseMessage :=
      if dateAdjusted
      then AdjustedNote startTime (Legacy.startTime params)
      else Text "Booking created successfully" in
    mret {| statusCode := 200;
            body := Booked true booking responseMessage dateAdjusted
                      (Some startTime) (Legacy.startTime params) |}.

(** [error.details?.error?.message]: [undefined] where the chain stops
    at a missing member, at [null] or at a value without that member. *)
Definition detailsMessage (error : Error) : option json :=
  match details error with
  | Some (JObj d) =>
      match d !! "error" with
      | Some (JObj e) => e !! "message"
      | _ => None
      end
  | _ => None
  end.

Definition alreadyBooked : string :=
  "already has booking at this time or is not available".

(** What calling a member that is no function throws at line 740. *)
Definition includesNotAFunction : Error :=
  TypeError "error.details?.error?.message?.includes is not a function".

(** [error.details?.error?.message?.includes(...)]: [String.prototype.includes]
    on a string, [Array.prototype.includes] on an array, [undefined] on
    [undefined] and [null]; a number, a boolean or an object has no
    function [includes], and the call throws. *)
Definition saysAlreadyBooked (error : Error) : Error + bool :=
  match detailsMessage error with
  | None | Some JNull => inr false
  | Some (JStr m) => inr (includes m alreadyBooked)
  | Some (JArr l) =>
      inr (existsb (fun v => match v with
                             | JStr s => String.eqb s alreadyBooked
                             | _ => false
                             end) l)
  | Some _ => inl includesNotAFunction
  end.

(** Lines 735-769: the [catch] of that [try]. *)
Definition onError (startTime : Z) (timeZone eventTypeId : string)
    (error : Error) : M (list ProviderCall) Response :=
  if bool_decide (source error = Some "cal")
     && bool_decide (err_statusCode error = Some 400)
  then
    match saysAlreadyBooked error with
    | inl typeError => throw typeError
    | inr true =>
        let requestedDate := startTime in
        let startDate := dayAround requestedDate (-3) in
        let endDate := dayAround requestedDate 7 in
        try_catch
          (availability ← call (GetAvailability eventTypeId startDate endDate timeZone);
           let formattedAvailability := formatAvailabilityForVoice availability in
           let alternativeSlots :=
             findAlternativeTimeSlots formattedAvailability startTime 5 in
           mret (conflictResponse alternativeSlots))
          (fun availabilityError => throw error)
    | inr false => throw error
    end
  else throw error.

Definition missingParameters : Error :=
  ValidationError "Missing required parameters" "params".

(** [createBooking(params, log)]: the outcome, the [params] object as
    the call leaves it, and the provider requests made.  Validation looks
    at truthiness only; a start that is no date then throws at line 554,
    and an end that is no date at line 620, inside the repair block. *)
Definition createBooking (params : BookingParams)
    (trace : list ProviderCall)
    : Outcome Response * BookingParams * list ProviderCall :=
  match name params, email params, startTime params, timeZone params with
  | Some name, Some email, Some startTime, Some timeZone =>
      if String.eqb name "" || String.eqb email "" || String.eqb timeZone ""
      then (Throw missingParameters, params, trace)
      else
        let endTime := endTime params in
        let notes := notes params in
        let guests := guests params in
        let location := location params in
        match startTime with
        | NotADate =>
            (* line 554: bookingDate.toISOString() *)
            (Throw invalidTime, params, trace)
        | Instant startTime =>
            let throws := repairThrows params startTime endTime in
            let params := dateRepair params startTime endTime in
            if throws then (Throw invalidTime, params, trace)
            else
              let eventTypeId :=
                if truthyS (Legacy.eventTypeId params)
                then default "" (Legacy.eventTypeId params)
                else config_cal_eventTypeId in
              let '(result, trace) :=
                try_catch
                  (attempt params name email startTime endTime timeZone notes
                     guests location eventTypeId)
                  (onError startTime timeZone eventTypeId) trace in
              (result, params, trace)
        end
  | _, _, _, _ => (Throw missingParameters, params, trace)
  end.
End CreateBooking.

End Legacy.

(** ** The request dispatcher ([src/index.js]) *)
Module Index.
Import JSDate JS.

Local Open Scope string_scope.
Local Open Scope Z_scope.

(** The part of [config.js] the handlers read.  [config.cal.apiKey] is
    also written by two of them. *)
Record Config := {
  cal_apiKey : json;
  cal_eventTypeId : json;
  cal_username : json;
  vapi_apiKey : json;
  vapi_assistantId : json;
  app_timeZone : json;
  app_defaultDuration : json
}.

(** A call of a method of [services/calApi.js] or
    [services/vapiService.js]. *)
Record ProviderCall := {
  operation : string;
  arguments : list (option json)
}.

(** What outlives a request: the shared configuration object, and the
    record of the provider methods called so far. *)
Record World := {
  config : Config;
  calls : list ProviderCall
}.

Record Event := {
  httpMethod : option string;
  path : option string;
  queryStringParameters : option (gmap string string);
  (** [event.body]: absent, or any value; a [JStr] is the raw text. *)
  body : option json
}.

Record Response := {
  statusCode : Z;
  headers : option (gmap string string);
  response_body : json
}.

Definition VALID_ACTIONS : list string :=
  [ "createBooking"; "getAvailableSlots"; "rescheduleBooking";
    "cancelBooking"; "getBookingDetails"; "checkAvailability";
    "findAvailability"; "handleVapiWebhook"; "initializeAssistant";
    "trialStarted" ].

(** [obj.key] on a value: reading a property of [undefined] or [null]
    throws; a primitive has none of the properties the handlers ask for. *)
Definition prop {S} (v : option json) (key : string) : M S (option json) :=
  match v with
  | None =>
      throw (TypeError ("Cannot read properties of undefined (reading '"
                        +:+ key +:+ "')"))
  | Some JNull =>
      throw (TypeError ("Cannot read properties of null (reading '"
                        +:+ key +:+ "')"))
  | Some (JObj m) => mret (m !! key)
  | Some _ => mret None
  end.

(** [const { key, ... } = obj], at the first property of the pattern:
    [undefined] and [null] cannot be destructured, and the error names
    that property and the variable [obj] of the source text.  The
    properties after the first are read with [prop]. *)
Definition destructure {S} (obj : string) (v : option json) (key : string)
    : M S (option json) :=
  match v with
  | None =>
      throw (TypeError ("Cannot destructure property '" +:+ key +:+ "' of '"
                        +:+ obj +:+ "' as it is undefined."))
  | Some JNull =>
      throw (TypeError ("Cannot destructure property '" +:+ key +:+ "' of '"
                        +:+ obj +:+ "' as it is null."))
  | Some (JObj m) => mret (m !! key)
  | Some _ => mret None
  end.

(** [v?.key] *)
Definition optProp (v : option json) (key : string) : option json :=
  match v with
  | Some (JObj m) => m !! key
  | _ => None
  end.

(** [a === b] between a request value and a configuration value:
    primitives compare by value, objects and arrays are distinct
    references. *)
Definition strictEq (a b : json) : bool :=
  match a, b with
  | JNull, JNull => true
  | JBool x, JBool y => Bool.eqb x y
  | JNum x, JNum y => x =? y
  | JStr x, JStr y => String.eqb x y
  | _, _ => false
  end.

Definition isStr (v : option json) (s : string) : bool :=
  match v with Some (JStr x) => String.eqb x s | _ => false end.

(** [s.split(sep)] for a one-character separator *)
Fixpoint split (sep : ascii) (s : string) : list string :=
  match s with
  | EmptyString => [EmptyString]
  | String c s' =>
      if Ascii.eqb c sep then EmptyString :: split sep s'
      else match split sep s' with
           | [] => [String c EmptyString]
           | w :: ws => String c w :: ws
           end
  end.

(** [{ ...body }]: the own enumerable properties; characters and
    elements are keyed by their index. *)
Definition indexed (l : list json) : gmap string json :=
  list_to_map (imap (fun i v => (pretty i, v)) l).
Definition chars (s : string) : list json :=
  (fun c => JStr (String c EmptyString)) <$> list_ascii_of_string s.
Definition spread (v : json) : gmap string json :=
  match v with
  | JObj m => m
  | JArr l => indexed l
  | JStr s => indexed (chars s)
  | _ => ∅
  end.

(** The three headers set on every routed result. *)
Definition withCors (result : Response) : Response :=
  let headers := default ∅ (headers result) in
  {| statusCode := statusCode result;
     headers := Some (<["Access-Control-Allow-Headers" := "Content-Type"]>
                     (<["Access-Control-Allow-Methods" := "GET, POST, OPTIONS"]>
                     (<["Access-Control-Allow-Origin" := "*"]> headers)));
     response_body := response_body result |}.

(** [handleError] of [utils/errorHandler.js] *)
Definition handleError (error : Error) : Response :=
  let statusCode :=
    match err_statusCode error with
    | Some c => if c =? 0 then 500 else c
    | None => 500
    end in
  {| statusCode := statusCode;
     headers := Some (<["Access-Control-Allow-Origin" := "*"]>
                     (<["Content-Type" := "application/json"]> ∅));
     response_body :=
       JObj (obj [ ("success", Some (JBool false));
                   ("error", Some (JStr (if String.eqb (message error) ""
                                         then "An unknown error occurred"
                                         else message error)));
                   ("type", Some (JStr (if String.eqb (err_name error) ""
                                        then "Error" else err_name error)));
                   ("field", if truthyS (field error)
                             then JStr <$> field error else None);
                   ("resource", if truthyS (resource error)
                                then JStr <$> resource error else None) ]) |}.

Definition json_response (status : Z) (fields : list (string * option json))
    : Response :=
  {| statusCode := status; headers := None; response_body := JObj (obj fields) |}.

Section Handler.
(** Built-ins of the language whose result the properties below do not
    depend on: [JSON.parse] (of a value, read as text), [parseInt(v, 10)]
    ([None] is [NaN]), [new Date(v).getTime()], [toISOString()], and the
    numeric reading of a value in [v * 60000]. *)
Variable JSON_parse : json -> Error + json.
Variable parseInt : option json -> option Z.
Variable Date_getTime : option json -> Z.
Variable toISOString : Z -> string.
Variable toNumber : option json -> Z.
(** The text a value contributes to a template literal. *)
Variable toString : option json -> string.
Variable LocalTZA : Z.
(** [new Date()] *)
Variable now : Z.
(** The services behind [calApi] and [vapiService]: the answer to a
    call, which may depend on the shared configuration and on the calls
    made before. *)
Variable provider : World -> ProviderCall -> Error + json.

Definition call (operation : string) (arguments : list (option json))
    : M World json :=
  fun w =>
    let c := {| operation := operation; arguments := arguments |} in
    let w' := {| config := config w; calls := calls w ++ [c] |} in
    match provider w c with
    | inl e => (Throw e, w')
    | inr v => (Return v, w')
    end.

Definition getConfig : M World Config := fun w => (Return (config w), w).

(** [config.cal.apiKey = v] *)
Definition set_cal_apiKey (v : json) : M World unit :=
  modify (fun w =>
    {| config :=
         {| cal_apiKey := v;
            cal_eventTypeId := cal_eventTypeId (config w);
            cal_username := cal_username (config w);
            vapi_apiKey := vapi_apiKey (config w);
            vapi_assistantId := vapi_assistantId (config w);
            app_timeZone := app_timeZone (config w);
            app_defaultDuration := app_defaultDuration (config w) |};
       calls := calls w |}).

Definition initializeAssistant (params : option json) : M World Response :=
  config ← getConfig;
  assistantId ←
    (if truthy (Some (vapi_assistantId config))
     then mret (Some (vapi_assistantId config))
     else
       assistantConfig ← call "vapiService.createDefaultAssistantConfig" [];
       assistant ← call "vapiService.createAssistant" [Some assistantConfig];
       prop (Some assistant) "id");
  mret (json_response 200
          [ ("success", Some (JBool true));
            ("assistantId", assistantId);
            ("apiKey", Some (vapi_apiKey config));
            ("message", Some (JStr "VAPI assistant ready for web integration"));
            ("instructions", Some (JStr "Use this assistantId and apiKey with the VAPI Web SDK to integrate voice interface on your website.")) ]).

Definition handleTrialStarted (body : option json) : M World Response :=
  name ← destructure "body" body "name";
  email ← prop body "email";
  phoneNumber ← prop body "phoneNumber";
  if negb (truthy name) || negb (truthy email) || negb (truthy phoneNumber)
  then mret (json_response 400
               [ ("success", Some (JBool false));
                 ("error", Some (JStr "Missing required parameters")) ])
  else
    try_catch
      (config ← getConfig;
       let assistantId := vapi_assistantId config in
       if negb (truthy (Some assistantId))
       then throw (mkError "Error" "No VAPI assistant ID configured")
       else
         let callConfig :=
           JObj (obj [ ("phoneNumber", phoneNumber);
                       ("metadata",
                        Some (JObj (obj [ ("userId", email); ("userName", name);
                                          ("userEmail", email);
                                          ("userPhone", phoneNumber) ]))) ]) in
         '(call_, error) ←
           try_catch
             (c ← call "vapiService.createSipCall" [Some assistantId; Some callConfig];
              mret (Some c, None))
             (fun sipError =>
                try_catch
                  (c ← call "vapiService.createCall" [Some assistantId; Some callConfig];
                   mret (Some c, Some sipError))
                  (fun regularError => mret (None, Some regularError)));
         if negb (truthy call_)
         then throw (default (mkError "Error" "Failed to initiate call through any method")
                       error)
         else
           callId ← prop call_ "id";
           mret (json_response 200
                   [ ("success", Some (JBool true));
                     ("callId", callId);
                     ("message", Some (JStr "Call initiated successfully")) ]))
      (fun error =>
         mret (json_response
                 (match err_statusCode error with
                  | Some c => if c =? 0 then 500 else c
                  | None => 500
                  end)
                 [ ("success", Some (JBool false));
                   ("error", Some (JStr (if String.eqb (message error) ""
                                         then "Error initiating call"
                                         else message error))) ])).

Definition checkAvailability (params : option json) : M World Response :=
  try_catch
    (startDate ← prop params "startDate";
     if negb (truthy startDate)
     then throw (ValidationError "Start date is required" "startDate")
     else
       endDate ← prop params "endDate";
       if negb (truthy endDate)
       then throw (ValidationError "End date is required" "endDate")
       else
         config ← getConfig;
         username ← prop params "username";
         eventTypeId ← prop params "eventTypeId";
         apiKey ← prop params "apiKey";
         let apiParams :=
           JObj (obj [ ("startTime", startDate);
                       ("endTime", endDate);
                       ("username", or_else username (Some (cal_username config)));
                       ("eventTypeId",
                        or_else eventTypeId (Some (cal_eventTypeId config)));
                       ("apiKey", or_else apiKey (Some (cal_apiKey config))) ]) in
         availabilityData ← call "calApi.getEventTypeAvailabilityV1" [Some apiParams];
         mret (json_response 200
                 [ ("success", Some (JBool true));
                   ("availability", Some availabilityData) ]))
    (fun error => mret (handleError error)).

Definition findAvailability (params : option json) : M World Response :=
  try_catch
    (id ← prop params "id";
     if negb (truthy id)
     then throw (ValidationError "Availability ID is required" "id")
     else
       match parseInt id with
       | None => throw (ValidationError "Invalid availability ID" "id")
       | Some availabilityId =>
           apiKey ← prop params "apiKey";
           (if truthy apiKey
            then set_cal_apiKey (default JNull apiKey)
            else mret tt);;
           availability ← call "calApi.getAvailabilityV1" [Some (JNum availabilityId)];
           mret (json_response 200
                   [ ("success", Some (JBool true));
                     ("availability", Some availability) ])
       end)
    (fun error => mret (handleError error)).

(** [apiKey.slice(-4)] in the log line: strings and arrays have
    [slice]; on another truthy value the call throws. *)
Definition sliceable (v : option json) : bool :=
  match v with
  | Some (JStr _) | Some (JArr _) => true
  | _ => false
  end.

Definition getAvailableSlots (params : option json) : M World Response :=
  try_catch
    (p_startTime ← prop params "startTime";
     p_startDate ← prop params "startDate";
     p_start ← prop params "start";
     let startTime := or_else (or_else p_startTime p_startDate) p_start in
     p_endTime ← prop params "endTime";
     p_endDate ← prop params "endDate";
     p_end ← prop params "end";
     let endTime := or_else (or_else p_endTime p_endDate) p_end in
     let startTime :=
       if negb (truthy startTime)
       then (let today := now in Some (JStr (toISOString today)))
       else startTime in
     let endTime :=
       if negb (truthy endTime)
       then (let start := Date_getTime startTime in
             let end_ := setDate LocalTZA start (getDate LocalTZA start + 14) in
             Some (JStr (toISOString end_)))
       else endTime in
     p_apiKey ← prop params "apiKey";
     p_api_key ← prop params "api_key";
     config ← getConfig;
     let apiKey := or_else (or_else p_apiKey p_api_key) (Some (cal_apiKey config)) in
     (if truthy apiKey && negb (strictEq (default JNull apiKey) (cal_apiKey config))
      then set_cal_apiKey (default JNull apiKey)
      else mret tt);;
     p_eventTypeId ← prop params "eventTypeId";
     p_event_type_id ← prop params "event_type_id";
     let eventTypeId :=
       or_else (or_else p_eventTypeId p_event_type_id)
               (Some (cal_eventTypeId config)) in
     if negb (truthy eventTypeId)
     then throw (ValidationError "Event type ID is required" "eventTypeId")
     else
       config ← getConfig;
       let apiParams :=
         JObj (obj [ ("startTime", startTime); ("endTime", endTime);
                     ("eventTypeId", eventTypeId);
                     ("apiKey", Some (cal_apiKey config)) ]) in
       if truthy apiKey && negb (sliceable apiKey)
       then throw (TypeError "apiKey.slice is not a function")
       else
         slots ← call "calApi.getSlots" [Some apiParams];
         mret {| statusCode := 200;
                 headers :=
                   Some (<["Access-Control-Allow-Headers" := "Content-Type"]>
                        (<["Access-Control-Allow-Methods" := "GET, POST, OPTIONS"]>
                        (<["Access-Control-Allow-Origin" := "*"]>
                        (<["Content-Type" := "application/json"]> ∅))));
                 response_body :=
                   JObj (obj [ ("success", Some (JBool true));
                               ("slots", Some slots) ]) |})
    (fun error => mret (handleError error)).

Definition bookingCreated (booking : json) : Response :=
  json_response 200
    [ ("success", Some (JBool true));
      ("booking", Some booking);
      ("message", Some (JStr "Booking created successfully")) ].

(** [createBooking] of [src/index.js].  The inner [catch] tests
    [error instanceof ApiError]; no [ApiError] is declared or imported in
    the file, so evaluating the test throws a [ReferenceError], which the
    outer [catch] turns into an error response. *)
Definition createBooking (params : option json) : M World Response :=
  try_catch
    (eventTypeId ← prop params "eventTypeId";
     start ← prop params "start";
     responses ← prop params "responses";
     timeZone ← prop params "timeZone";
     p_apiKey ← prop params "apiKey";
     config ← getConfig;
     if truthy eventTypeId && truthy start && truthy responses && truthy timeZone
     then
       let params :=
         JObj (<["apiKey" := default JNull (or_else p_apiKey (Some (cal_apiKey config)))]>
                 (spread (default JNull params))) in
       booking ← call "calApi.createBooking" [Some params];
       mret (bookingCreated booking)
     else
       name ← prop params "name";
       email ← prop params "email";
       startTime ← prop params "startTime";
       if negb (truthy name) then throw (ValidationError "Name is required" "name")
       else if negb (truthy email)
       then throw (ValidationError "Email is required" "email")
       else if negb (truthy startTime)
       then throw (ValidationError "Start time is required" "startTime")
       else if negb (truthy eventTypeId)
       then throw (ValidationError "Event type ID is required" "eventTypeId")
       else if negb (truthy timeZone)
       then throw (ValidationError "Time zone is required" "timeZone")
       else
         let apiKey := or_else p_apiKey (Some (cal_apiKey config)) in
         p_endTime ← prop params "endTime";
         p_duration ← prop params "duration";
         let endTime :=
           if negb (truthy p_endTime)
           then
             let duration :=
               or_else (or_else p_duration (Some (app_defaultDuration config)))
                       (Some (JNum 30)) in
             Some (JStr (toISOString
                           (Date_getTime startTime + toNumber duration * 60000)))
           else p_endTime in
         location ← prop params "location";
         notes ← prop params "notes";
         guests ← prop params "guests";
         language ← prop params "language";
         title ← prop params "title";
         description ← prop params "description";
         status ← prop params "status";
         metadata ← prop params "metadata";
         let bookingData :=
           JObj (obj
             [ ("eventTypeId",
                match eventTypeId with
                | Some (JStr _) =>
                    Some (match parseInt eventTypeId with
                          | Some n => JNum n
                          | None => JNull
                          end)
                | _ => eventTypeId
                end);
               ("start", startTime);
               ("end", endTime);
               ("responses",
                Some (JObj (obj
                  [ ("name", name); ("email", email);
                    ("location",
                     Some (JObj (obj
                       [ ("value", if truthy location then location
                                   else Some (JStr "integrations:daily")) ])));
                    ("notes", or_else notes (Some (JStr "")));
                    ("guests", or_else guests (Some (JArr []))) ])));
               ("timeZone", timeZone);
               ("language", or_else language (Some (JStr "en")));
               ("title", title);
               ("description", description);
               ("status", or_else status (Some (JStr "ACCEPTED")));
               ("metadata",
                or_else metadata
                  (Some (JObj (obj [ ("source", Some (JStr "lambda-integration")) ]))));
               ("apiKey", apiKey) ]) in
         try_catch
           (booking ← call "calApi.createBooking" [Some bookingData];
            mret (bookingCreated booking))
           (fun error => throw (mkError "ReferenceError" "ApiError is not defined")))
    (fun error => mret (handleError error)).

Definition missingParameters : Error :=
  ValidationError "Missing required parameters" "params".

Definition rescheduleBooking (params : option json) : M World Response :=
  bookingId ← destructure "params" params "bookingId";
  startTime ← prop params "startTime";
  endTime ← prop params "endTime";
  timeZone ← prop params "timeZone";
  if negb (truthy bookingId) || negb (truthy startTime) || negb (truthy timeZone)
  then throw missingParameters
  else
    config ← getConfig;
    let rescheduleDetails :=
      JObj (obj
        [ ("startTime", startTime);
          ("endTime",
           if truthy endTime then endTime
           else Some (JStr (toISOString
                              (Date_getTime startTime
                               + toNumber (Some (app_defaultDuration config)) * 60000))));
          ("timeZone", timeZone) ]) in
    booking ← call "calApi.rescheduleBooking" [bookingId; Some rescheduleDetails];
    mret (json_response 200
            [ ("success", Some (JBool true));
              ("booking", Some booking);
              ("message", Some (JStr "Booking rescheduled successfully")) ]).

Definition cancelBooking (params : option json) : M World Response :=
  bookingId ← destructure "params" params "bookingId";
  reason ← prop params "reason";
  if negb (truthy bookingId) then throw missingParameters
  else
    let cancelDetails :=
      JObj (obj [ ("reason", or_else reason (Some (JStr "Cancelled by user"))) ]) in
    booking ← call "calApi.cancelBooking" [bookingId; Some cancelDetails];
    mret (json_response 200
            [ ("success", Some (JBool true));
              ("booking", Some booking);
              ("message", Some (JStr "Booking cancelled successfully")) ]).

Definition getBookingDetails (params : option json) : M World Response :=
  bookingId ← destructure "params" params "bookingId";
  if negb (truthy bookingId) then throw missingParameters
  else
    booking ← call "calApi.getBooking" [bookingId];
    mret (json_response 200
            [ ("success", Some (JBool true)); ("booking", Some booking) ]).

(** The parameters of a function call, from the places the voice
    platform may put them (lines 306-318 and 392-405). *)
Definition extractParameters (body : option json) : option json :=
  let functionCall := optProp body "functionCall" in
  if truthy (optProp body "parameters") then optProp body "parameters"
  else if truthy (optProp functionCall "parameters")
  then optProp functionCall "parameters"
  else if truthy (optProp functionCall "arguments")
  then match JSON_parse (default JNull (optProp functionCall "arguments")) with
       | inr v => Some v
       | inl e => Some (JObj ∅)
       end
  else None.

(** [body.callId || body.call?.id || body.message?.call?.id] *)
Definition extractCallId (body : option json) : option json :=
  or_else (or_else (optProp body "callId") (optProp (optProp body "call") "id"))
          (optProp (optProp (optProp body "message") "call") "id").

Definition functionResponseEnvelope (functionName : option json)
    (key : string) (value : option json) : Response :=
  json_response 200
    [ ("response",
       Some (JObj (obj
         [ ("type", Some (JStr "function_response"));
           ("function_response",
            Some (JObj (obj [ ("name", functionName); (key, value) ]))) ]))) ].

(** Lines 415-433: the [switch] on the function name. *)
Definition callFunction (functionName parameters : option json)
    : M World Response :=
  if isStr functionName "checkAvailability" then checkAvailability parameters
  else if isStr functionName "createBooking" then createBooking parameters
  else if isStr functionName "rescheduleBooking" then rescheduleBooking parameters
  else if isStr functionName "cancelBooking" then cancelBooking parameters
  else if isStr functionName "getBookingDetails" then getBookingDetails parameters
  else throw (ValidationError
                (String.append "Unknown function: " (toString functionName))
                "function").

(** Lines 436-455: what is reported for an operation that returned
    [result]. *)
Definition functionResponse (functionName : option json) (result : Response)
    : option json :=
  let parsedResult := Some (response_body result) in
  if isStr functionName "createBooking"
     && (statusCode result =? 409)
     && truthy (optProp parsedResult "alternativeSlots")
  then Some (JObj (obj
         [ ("success", Some (JBool false));
           ("error", optProp parsedResult "error");
           ("alternativeSlots", optProp parsedResult "alternativeSlots");
           ("message", optProp parsedResult "message") ]))
  else parsedResult.

(** [handleFunctionCall(body, log)]; [body] is the object literal built
    at line 325. *)
Definition handleFunctionCall (body : gmap string json) : M World Response :=
  let body := Some (JObj body) in
  let functionName :=
    or_else (optProp body "function")
            (optProp (optProp body "functionCall") "name") in
  let parameters := extractParameters body in
  let callId := extractCallId body in
  try_catch
    (result ← callFunction functionName parameters;
     mret (functionResponseEnvelope functionName "response"
             (functionResponse functionName result)))
    (fun error =>
       mret (functionResponseEnvelope functionName "error"
               (Some (JStr (message error))))).

Definition acknowledged : Response :=
  json_response 200 [ ("success", Some (JBool true)) ].

Definition handleVapiWebhook (body : option json) : M World Response :=
  type ← prop body "type";
  try_catch
    (if isStr type "function" || isStr type "function-call" then
       let functionName :=
         or_else (optProp body "function")
                 (optProp (optProp body "functionCall") "name") in
       let parameters := extractParameters body in
       let callId := extractCallId body in
       handleFunctionCall
         (obj [ ("function", functionName); ("parameters", parameters);
                ("callId", callId) ])
     else if isStr type "tool" then
       let toolName := optProp (optProp body "tool") "name" in
       let parameters :=
         or_else (optProp (optProp body "tool") "parameters") (Some (JObj ∅)) in
       if isStr toolName "booking" then createBooking parameters
       else mret (json_response 400
                    [ ("success", Some (JBool false));
                      ("error",
                       Some (JStr (String.append "Unknown tool: "
                                     (toString toolName)))) ])
     else if isStr type "transcript" then mret acknowledged
     else if isStr type "call_ended" || isStr type "status-update"
     then mret acknowledged
     else mret acknowledged)
    (fun error =>
       mret (json_response 500
               [ ("success", Some (JBool false));
                 ("error", Some (JStr (message error))) ])).

(** Lines 39-50. *)
Definition preflightResponse : Response :=
  {| statusCode := 200;
     headers :=
       Some (<["Access-Control-Allow-Headers" := "Content-Type"]>
            (<["Access-Control-Allow-Methods" := "GET, POST, OPTIONS"]>
            (<["Access-Control-Allow-Origin" := "*"]>
            (<["Content-Type" := "application/json"]> ∅))));
     response_body := JObj (obj [ ("success", Some (JBool true)) ]) |}.

(** Lines 53-60. *)
Definition parseBody (event : Event) : json :=
  if truthy (body event) then
    match body event with
    | Some (JStr text) =>
        match JSON_parse (JStr text) with
        | inr v => v
        | inl error => JObj ∅
        end
    | Some v => v
    | None => JObj ∅
    end
  else JObj ∅.

(** Lines 63-64. *)
Definition pathParts (event : Event) : list string :=
  match path event with
  | Some p =>
      if String.eqb p "" then []
      else List.filter (fun part => negb (String.eqb part "")) (split "/" p)
  | None => []
  end.
Definition lastPathPart (event : Event) : string :=
  default "" (last (pathParts event)).

Definition knownActions : list string :=
  [ "createBooking"; "getAvailableSlots"; "rescheduleBooking";
    "cancelBooking"; "getBookingDetails"; "checkAvailability" ].

Definition includesStr (l : list string) (s : string) : bool :=
  existsb (String.eqb s) l.

(** Lines 71-99. *)
Definition resolveAction (event : Event) (body : json)
    (queryParams : gmap string string) : M World json :=
  let lastPathPart := lastPathPart event in
  if String.eqb lastPathPart "createBooking"
     || bool_decide (path event = Some "/createBooking")
  then mret (JStr "createBooking")
  else if truthyS (queryParams !! "action")
  then mret (JStr (default "" (queryParams !! "action")))
  else if negb (String.eqb lastPathPart "")
  then
    if includesStr knownActions lastPathPart
    then mret (JStr lastPathPart)
    else mret (JStr "handleVapiWebhook")
  else
    bodyAction ← prop (Some body) "action";
    if truthy bodyAction
    then mret (default JNull bodyAction)
    else mret (JStr "handleVapiWebhook").

(** The property names of [Object.prototype], which every object literal
    inherits; each holds a function or, for [__proto__], the prototype
    itself. *)
Definition objectPrototype : list string :=
  [ "constructor"; "__defineGetter__"; "__defineSetter__"; "hasOwnProperty";
    "__lookupGetter__"; "__lookupSetter__"; "isPrototypeOf";
    "propertyIsEnumerable"; "toString"; "valueOf"; "__proto__";
    "toLocaleString" ].

(** [!params[key]] for an arbitrary key: the value of an own property,
    else the member inherited from [Object.prototype], which is truthy,
    else [undefined]. *)
Definition falsyAt (params : gmap string json) (key : string) : bool :=
  match params !! key with
  | Some v => negb (truthy (Some v))
  | None => negb (includesStr objectPrototype key)
  end.

(** Lines 110-114: [Object.keys(queryParams).forEach(...)]. *)
Definition copyQueryParam (params : gmap string json) (entry : string * string)
    : gmap string json :=
  let key := entry.1 in
  if falsyAt params key
  then <[key := JStr entry.2]> params
  else params.
Definition mergeQueryParams (params : gmap string json)
    (queryParams : gmap string string) : gmap string json :=
  foldl copyQueryParam params (map_to_list queryParams).

(** Lines 101-114. *)
Definition buildParams (body action : json) (queryParams : gmap string string)
    : gmap string json :=
  let params := spread body in
  let params :=
    if negb (truthy (params !! "action"))
    then <["action" := action]> params
    else params in
  mergeQueryParams params queryParams.

(** Lines 121-154. *)
Definition route (action : json) (params : option json) : M World Response :=
  let action := Some action in
  if isStr action "initializeAssistant" then initializeAssistant params
  else if isStr action "trialStarted" then handleTrialStarted params
  else if isStr action "handleVapiWebhook" then handleVapiWebhook params
  else if isStr action "checkAvailability" then checkAvailability params
  else if isStr action "findAvailability" then findAvailability params
  else if isStr action "getAvailableSlots" then getAvailableSlots params
  else if isStr action "createBooking" then createBooking params
  else if isStr action "rescheduleBooking" then rescheduleBooking params
  else if isStr action "cancelBooking" then cancelBooking params
  else if isStr action "getBookingDetails" then getBookingDetails params
  else throw (ValidationError "Invalid action specified" "action").

(** [exports.handler] *)
Definition handler (event : Event) : M World Response :=
  try_catch
    (if bool_decide (httpMethod event = Some "OPTIONS")
     then mret preflightResponse
     else
       let body := parseBody event in
       let queryParams := default ∅ (queryStringParameters event) in
       action ← resolveAction event body queryParams;
       let params := buildParams body action queryParams in
       result ← route action (Some (JObj params));
       mret (withCors result))
    (fun error => mret (handleError error)).
End Handler.

End Index.

(** ** Concrete requests and collaborators used in the examples *)
Module Sample.
Import JSDate JS CalApi.

Local Open Scope string_scope.
Local Open Scope Z_scope.

(** 2025-06-01T00:00:00Z, the clock of the examples. *)
Definition now : Z := 1748736000000.
(** 2025-06-01T00:00:02Z, the clock when a booking request is built. *)
Definition created : Z := 1748736002000.

(** 2023-01-01T10:00:00Z and 2023-01-01T10:30:00Z: a start in a past
    year, and the end of a half-hour meeting. *)
Definition pastStart : Z := 1672567200000.
Definition pastEnd : Z := 1672569000000.
(** 2026-01-01T10:00:00Z *)
Definition repairedStart : Z := 1767261600000.
(** 2024-02-29T10:00:00Z *)
Definition leapDayStart : Z := 1709200800000.
(** 2020-02-29T10:00:00Z, and two clocks: 2024-01-15T00:00:00Z and
    2023-06-01T00:00:00Z *)
Definition leapDay2020 : Z := 1582970400000.
Definition januaryNow : Z := 1705276800000.
Definition june2023 : Z := 1685577600000.
(** 2025-06-15T10:15:00Z, and slots at 09:00, 10:00 and 11:30 that day. *)
Definition futureStart : Z := 1749982500000.
Definition slot0900 : Slot := {| time := 1749978000000; spoken := "9:00 AM" |}.
Definition slot1000 : Slot := {| time := 1749981600000; spoken := "10:00 AM" |}.
Definition slot1130 : Slot := {| time := 1749987000000; spoken := "11:30 AM" |}.

Definition legacyRequest (start : Z) (end_ : option Z) : Legacy.BookingParams :=
  {| Legacy.name := Some "Ada"; Legacy.email := Some "ada@example.com";
     Legacy.startTime := Some (Legacy.Instant start);
     Legacy.endTime := Legacy.Instant <$> end_;
     Legacy.timeZone := Some "UTC"; Legacy.notes := None; Legacy.guests := [];
     Legacy.location := None; Legacy.eventTypeId := None |}.

(** A provider with nothing on offer, and the formatting of its answer. *)
Definition nothingFree (trace : list Legacy.ProviderCall)
    (c : Legacy.ProviderCall) : Error + json := inr (JArr []).
Definition formatNone (availability : json) : list Slot := [].
Definition formatThree (availability : json) : list Slot :=
  [slot0900; slot1000; slot1130].

(** Built-ins at the values the examples use. *)
Definition JSON_parse (v : json) : Error + json :=
  match v with
  | JStr "{}" => inr (JObj ∅)
  | _ => inl (mkError "SyntaxError" "Unexpected token")
  end.
Definition parseInt (v : option json) : option Z :=
  match v with
  | Some (JNum z) => Some z
  | Some (JStr "42") => Some 42
  | _ => None
  end.
Definition Date_getTime (v : option json) : Z := 0.
Definition toISOString (t : Z) : string := "1970-01-01T00:00:00.000Z".
Definition toNumber (v : option json) : Z :=
  match v with Some (JNum z) => z | _ => 0 end.
Definition toString (v : option json) : string :=
  match v with Some (JStr s) => s | _ => "undefined" end.

(** A provider that answers every call with an empty object. *)
Definition provider (w : Index.World) (c : Index.ProviderCall) : Error + json :=
  inr (JObj ∅).

Definition config : Index.Config :=
  {| Index.cal_apiKey := JStr "cal_live_default";
     Index.cal_eventTypeId := JStr "2077162";
     Index.cal_username := JStr "ashir";
     Index.vapi_apiKey := JStr "vapi_key";
     Index.vapi_assistantId := JStr "assistant-1";
     Index.app_timeZone := JStr "UTC";
     Index.app_defaultDuration := JNum 30 |}.
Definition world : Index.World := {| Index.config := config; Index.calls := [] |}.

Definition handler : Index.Event -> M Index.World Index.Response :=
  Index.handler JSON_parse parseInt Date_getTime toISOString toNumber toString
    0 now provider.
Definition handleFunctionCall : gmap string json -> M Index.World Index.Response :=
  Index.handleFunctionCall JSON_parse parseInt Date_getTime toISOString toNumber
    toString provider.
Definition callFunction : option json -> option json -> M Index.World Index.Response :=
  Index.callFunction parseInt Date_getTime toISOString toNumber toString provider.

Definition request (method : string) (path : option string)
    (query : list (string * string)) (body : option json) : Index.Event :=
  {| Index.httpMethod := Some method; Index.path := path;
     Index.queryStringParameters := Some (list_to_map query);
     Index.body := body |}.

End Sample.

(** ** What a handler does to the shared state

    Two ways of looking at a computation over [Index.World]: it leaves the
    world alone, or it calls the provider a bounded number of times and
    changes the configuration only as a given relation allows. *)
Module Effects.
Import JS Index.

Definition pure {A} (c : M World A) : Prop := forall w, (c w).2 = w.

Definition steps (R : Config -> Config -> Prop) (n : nat) {A}
    (c : M World A) : Prop :=
  forall w,
    R (config w) (config (c w).2)
    /\ exists l, calls (c w).2 = (calls w ++ l)%list /\ (length l <= n)%nat.

(** Any change of configuration. *)
Definition anyChange (c c' : Config) : Prop := True.

(** An operation result that reports success: status 200 with
    [success: true]; and a computation that returns no other result. *)
Definition reportsSuccess (r : Response) : Prop :=
  statusCode r = 200
  /\ optProp (Some (response_body r)) "success" = Some (JBool true).
Definition succeeds (c : M World Response) : Prop :=
  forall w r w', c w = (Return r, w') -> reportsSuccess r.

(** The value an object literal gives to [key]: that of the first field
    of that name. *)
Fixpoint fieldOf (key : string) (fields : list (string * option json))
    : option json :=
  match fields with
  | [] => None
  | (k, v) :: rest => if String.eqb key k then v else fieldOf key rest
  end.

End Effects.

(** ** The requests of the booking orchestrator ([src/unnamed/part_011])

    The three requests that [Legacy.createBooking] can send, as the source
    builds them from the values destructured on entry. *)
Module LegacyCalls.
Import JSDate JS CalApi Legacy.

Local Open Scope string_scope.
Local Open Scope Z_scope.

Section Calls.
Variable LocalTZA : Z.
Variable created : Z.
Variable config_cal_eventTypeId : string.

(** Line 632: [params.eventTypeId || config.cal.eventTypeId] *)
Definition eventTypeIdOf (params : BookingParams) : string :=
  if truthyS (eventTypeId params) then default "" (eventTypeId params)
  else config_cal_eventTypeId.

(** Lines 640-645: the availability query before the booking. *)
Definition preflight (params : BookingParams) (startTime : Z)
    (timeZone : string) : ProviderCall :=
  GetAvailability (eventTypeIdOf params) (dayAround LocalTZA startTime (-1))
    (dayAround LocalTZA startTime 1) timeZone.

(** Lines 743-748: the availability query after a refused booking. *)
Definition widened (params : BookingParams) (startTime : Z)
    (timeZone : string) : ProviderCall :=
  GetAvailability (eventTypeIdOf params) (dayAround LocalTZA startTime (-3))
    (dayAround LocalTZA startTime 7) timeZone.

(** Lines 669-694: the booking request. *)
Definition booking (params : BookingParams) (name email : string)
    (startTime : Z) (timeZone : string) : ProviderCall :=
  CreateBooking
    {| bd_eventTypeId := eventTypeIdOf params; bd_eventTypeSlug := "secret";
       bd_name := name; bd_email := email; bd_startTime := startTime;
       bd_endTime := endTime params; bd_timeZone := timeZone;
       bd_notes := notes params;
       bd_guests := match guests params with [] => None | _ => Some (guests params) end;
       bd_location := if truthyS (location params) then location params else None;
       bd_metadata_source := "lambda-cal-vapi-integration";
       bd_metadata_created := created |}.
End Calls.

(** Line 739: [error.source === 'cal' && error.statusCode === 400] *)
Definition refusedByProvider (error : Error) : bool :=
  bool_decide (source error = Some "cal")
  && bool_decide (err_statusCode error = Some 400).

(** Lines 739-740: the test for the provider's refusal of a taken slot
    holds. *)
Definition slotTaken (error : Error) : bool :=
  refusedByProvider error
  && match saysAlreadyBooked error with inr true => true | _ => false end.

(** Lines 739-740: what that test throws, where it reaches a [message]
    that has no function [includes]. *)
Definition testThrows (error : Error) : option Error :=
  if refusedByProvider error
  then match saysAlreadyBooked error with inl e => Some e | inr _ => None end
  else None.

Definition dateAdjusted_of (b : Body) : option bool :=
  match b with Conflict _ _ _ _ => None | Booked _ _ _ d _ _ => Some d end.
Definition adjustedDate_of (b : Body) : option DateText :=
  match b with Conflict _ _ _ _ => None | Booked _ _ _ _ _ a => a end.
Definition originalDate_of (b : Body) : option Z :=
  match b with Conflict _ _ _ _ => None | Booked _ _ _ _ o _ => o end.

End LegacyCalls.

(** ** The provider client ([src/unnamed/part_012], [services/calApi.js])

    [callCalApi], [getSlots] and [createBooking] over an explicit [fetch]:
    what the network answers to a request, given the requests made before.
    The state threaded through a call is the list of requests sent. *)
Module CalApiService.
Import JS.

Local Open Scope string_scope.
Local Open Scope Z_scope.

(** The arguments of [fetch(url, { method, headers, body })]. *)
Record Request := {
  url : string;
  method : string;
  headers : gmap string string;
  body : option string
}.

(** A [Response]: [headers.get('content-type')] ([None] is [null]) and
    the outcomes of [json()] and [text()]. *)
Record FetchResponse := {
  status : Z;
  statusText : string;
  contentType : option string;
  json_ : Error + json;
  text : Error + string
}.

(** [response.ok] *)
Definition ok (response : FetchResponse) : bool :=
  (200 <=? status response) && (status response <=? 299).

(** [new AuthError(message)] and [new NotFoundError(message, resource)]
    of [utils/errorHandler.js] *)
Definition AuthError (msg : string) : Error :=
  {| err_name := "AuthError"; message := msg; err_statusCode := Some 401;
     field := None; resource := None; source := None; details := None |}.
Definition NotFoundError (msg res : string) : Error :=
  {| err_name := "NotFoundError"; message := msg; err_statusCode := Some 404;
     field := None; resource := Some res; source := None; details := None |}.

(** What a [try] block raised, as its [catch] tells it apart with
    [instanceof]: an instance of [ValidationError], [NotFoundError] or
    [AuthError], or anything else. *)
Inductive Raised :=
  | Custom (e : Error)
  | Other (e : Error).

(** [v.key] on a value that [json()] returned *)
Definition member (v : json) (key : string) : Raised + option json :=
  match v with
  | JNull =>
      inl (Other (TypeError ("Cannot read properties of null (reading '"
                             +:+ key +:+ "')")))
  | JObj m => inr (m !! key)
  | _ => inr None
  end.

(** [v?.key] *)
Definition optMember (v : option json) (key : string) : option json :=
  match v with
  | Some (JObj m) => m !! key
  | _ => None
  end.

(** [options] of [callCalApi] *)
Record Options := {
  opt_method : option string;
  opt_headers : option (gmap string string);
  opt_body : option json
}.

(** An error object read as a value, through its properties. *)
Definition errorObject (e : Error) : json :=
  JObj (obj [ ("name", Some (JStr (err_name e)));
              ("message", Some (JStr (message e)));
              ("statusCode", JNum <$> err_statusCode e);
              ("field", JStr <$> field e);
              ("resource", JStr <$> resource e);
              ("source", JStr <$> source e);
              ("details", details e) ]).

(** [apiKey.slice(-4)] and [apiKey.substr(0, 4)] in the log lines *)
Definition hasSlice (v : option json) : bool :=
  match v with
  | Some (JStr _) | Some (JArr _) => true
  | _ => false
  end.

(** Lines 308-321 of [createBooking]: [params.responses.location] put
    into the provider's shape.  A property set on a number or a boolean is
    dropped, and one set on an array is not serialised. *)
Definition normalizeLocation (responses : gmap string json) : gmap string json :=
  let location := responses !! "location" in
  if negb (truthy location) then
    <["location" := JObj (obj [ ("value", Some (JStr "integrations:daily"));
                                ("optionValue", Some (JStr "")) ])]> responses
  else
    match location with
    | Some (JStr s) =>
        <["location" := JObj (obj [ ("value", Some (JStr s));
                                    ("optionValue", Some (JStr "")) ])]> responses
    | Some (JObj l) =>
        if negb (truthy (l !! "optionValue"))
        then <["location" := JObj (<["optionValue" := JStr ""]> l)]> responses
        else responses
    | _ => responses
    end.

Section Service.
(** [config.cal], read when a request is built. *)
Variable config_cal_apiKey : json.
Variable config_cal_apiUrl : string.
Variable config_cal_apiVersion : string.
Variable config_cal_eventTypeId : json.
Variable config_cal_username : json.
Variable fetch : list Request -> Request -> Error + FetchResponse.
(** Built-ins: [JSON.stringify], the string conversion of an array or
    an object, [encodeURIComponent], [parseInt(s, 10)] ([None] is [NaN]),
    [new Date(v).getTime()] ([None] is [NaN]) and [toISOString()]. *)
Variable JSON_stringify : json -> string.
Variable toString : json -> string.
Variable encodeURIComponent : string -> string.
Variable parseInt : string -> option Z.
Variable Date_getTime : json -> option Z.
Variable toISOString : Z -> string.

(** [Number.MAX_SAFE_INTEGER] *)
Definition MAX_SAFE_INTEGER : Z := 9007199254740991.

(** The string conversion of a template literal.  A number up to
    [Number.MAX_SAFE_INTEGER] in size is written with all its digits;
    beyond it [Number::toString] rounds to the shortest digits that read
    back as the same number, and from [1e21] on it uses the exponent
    form. *)
Definition templ (v : option json) : string :=
  match v with
  | None => "undefined"
  | Some JNull => "null"
  | Some (JBool true) => "true"
  | Some (JBool false) => "false"
  | Some (JNum z) =>
      if Z.abs z <=? MAX_SAFE_INTEGER then pretty z else toString (JNum z)
  | Some (JStr s) => s
  | Some v => toString v
  end.

(** Lines 12-38 of [callCalApi]: the request for an endpoint. *)
Definition requestFor (endpoint : string) (options : Options) : Request :=
  let headers : gmap string string :=
    default ∅ (opt_headers options) ∪ {[ "Content-Type" := "application/json" ]} in
  let headers :=
    if truthyS (opt_headers options ≫= (.!! "Skip-Auth-Header"))
    then delete "Skip-Auth-Header" headers
    else if String.prefix "/v1/" endpoint
    then <["apiKey" := templ (Some config_cal_apiKey)]> headers
    else <["Cal-Api-Version" := config_cal_apiVersion]>
           (<["Authorization" := "Bearer " +:+ templ (Some config_cal_apiKey)]>
              headers) in
  {| url := config_cal_apiUrl +:+ endpoint;
     method := if truthyS (opt_method options)
               then default "" (opt_method options) else "GET";
     headers := headers;
     body := if truthy (opt_body options)
             then JSON_stringify <$> opt_body options else None |}.

(** Lines 43-66: what the [try] block of [callCalApi] makes of the
    response. *)
Definition readResponse (endpoint : string) (response : FetchResponse)
    : Raised + json :=
  if truthyS (contentType response)
     && includes (default "" (contentType response)) "application/json"
  then
    match json_ response with
    | inl e => inl (Other e)
    | inr data =>
        if negb (ok response) then
          if status response =? 401 then
            match member data "message" with
            | inl r => inl r
            | inr m =>
                inl (Custom (AuthError
                       ("Authentication failed: "
                        +:+ templ (or_else m (Some (JStr "Invalid API key"))))))
            end
          else if status response =? 404 then
            inl (Custom (NotFoundError ("Resource not found: " +:+ endpoint)
                           "Cal.com API"))
          else if status response =? 400 then
            match member data "message", member data "field" with
            | inl r, _ | _, inl r => inl r
            | inr m, inr f =>
                inl (Custom (ValidationError
                       ("Invalid request: " +:+ templ m)
                       (templ (or_else f (Some (JStr "unknown"))))))
            end
          else
            match member data "message" with
            | inl r => inl r
            | inr m =>
                inl (Other (mkError "Error"
                       ("Cal.com API error (" +:+ pretty (status response)
                        +:+ "): "
                        +:+ templ (or_else m (Some (JStr "Unknown error"))))))
            end
        else inr data
    end
  else
    match text response with
    | inl e => inl (Other e)
    | inr _ =>
        inl (Other (mkError "Error"
               ("Cal.com API returned non-JSON response ("
                +:+ pretty (status response) +:+ "): "
                +:+ statusText response)))
    end.

(** Lines 82-97: the [catch] of [callCalApi]. *)
Definition rethrow (r : Raised) : Error :=
  match r with
  | Custom e => e
  | Other e =>
      if String.eqb (err_name e) "AbortError" || String.eqb (err_name e) "TypeError"
      then mkError "Error" ("Connection error with Cal.com API: " +:+ message e)
      else mkError "Error" ("Error calling Cal.com API: " +:+ message e)
  end.

Definition callCalApi (endpoint : string) (options : Options)
    : M (list Request) json :=
  fun trace =>
    let request := requestFor endpoint options in
    let raised :=
      match fetch trace request with
      | inl e => inl (Other e)
      | inr response => readResponse endpoint response
      end in
    (match raised with
     | inr data => Return data
     | inl r => Throw (rethrow r)
     end, trace ++ [request])%list.

(** [getSlots(params)] *)
Definition getSlots (params : gmap string json) : M (list Request) json :=
  if negb (truthy (params !! "startTime"))
  then throw (ValidationError "Start time is required" "startTime")
  else if negb (truthy (params !! "endTime"))
  then throw (ValidationError "End time is required" "endTime")
  else
    let eventTypeId :=
      or_else (params !! "eventTypeId") (Some config_cal_eventTypeId) in
    if negb (truthy eventTypeId)
    then throw (ValidationError "Event type ID is required" "eventTypeId")
    else
      let apiKey := or_else (params !! "apiKey") (Some config_cal_apiKey) in
      if negb (truthy apiKey)
      then throw (ValidationError "API key is required" "apiKey")
      else
        let endpoint := "/v1/slots" in
        let queryParams :=
          [ ("apiKey", apiKey); ("eventTypeId", eventTypeId);
            ("startTime", params !! "startTime");
            ("endTime", params !! "endTime") ] in
        if negb (hasSlice apiKey)
        then throw (TypeError "apiKey.slice is not a function")
        else
          let queryString :=
            String.concat "&"
              ((fun kv => encodeURIComponent kv.1 +:+ "="
                          +:+ encodeURIComponent (templ kv.2)) <$> queryParams) in
          let url := endpoint +:+ "?" +:+ queryString in
          try_catch
            (callCalApi url
               {| opt_method := None;
                  opt_headers := Some {[ "Skip-Auth-Header" := "true" ]};
                  opt_body := None |})
            (fun error => throw error).

(** Lines 400-416 of [createBooking]: the [catch] wraps what is not one
    of the three classes. *)
Definition wrap (error : Error) : Error :=
  {| err_name := "Error";
     message := if String.eqb (message error) ""
                then "Error creating booking" else message error;
     err_statusCode :=
       Some (match err_statusCode error with
             | Some c => if c =? 0 then 500 else c
             | None => 500
             end);
     field := None; resource := None;
     source := Some "cal";
     details := if truthy (details error) then details error
                else Some (errorObject error) |}.

(** Lines 356-398: what the [try] block of [createBooking] makes of the
    response. *)
Definition readBookingResponse (response : FetchResponse) : Raised + json :=
  match json_ response with
  | inl _ => inl (Other (mkError "Error" "Invalid response from Cal.com API"))
  | inr data =>
      if negb (ok response) then
        if status response =? 401 then
          match member data "message" with
          | inl r => inl r
          | inr m =>
              inl (Custom (AuthError
                     ("Authentication failed: "
                      +:+ templ (or_else m (Some (JStr "Invalid API key"))))))
          end
        else if status response =? 404 then
          inl (Custom (NotFoundError "Resource not found" "Cal.com API"))
        else
          match member data "message", member data "error" with
          | inl r, _ | _, inl r => inl r
          | inr m, inr error =>
              if status response =? 400 then
                let errorMsg :=
                  or_else m (or_else (optMember error "message")
                               (Some (JStr "Validation error"))) in
                inl (Custom (ValidationError
                       ("Invalid request: " +:+ templ errorMsg)
                       (templ (or_else (optMember error "field")
                                 (Some (JStr "unknown"))))))
              else
                inl (Other
                       {| err_name := "Error";
                          message :=
                            "Cal.com API error (" +:+ pretty (status response)
                            +:+ "): "
                            +:+ templ (or_else (or_else m (optMember error "message"))
                                         (Some (JStr "Unknown error")));
                          err_statusCode := Some (status response);
                          field := None; resource := None; source := None;
                          details := Some data |})
          end
      else inr data
  end.

(** Lines 323-344: [bookingData]; [None] when [toISOString] is asked
    for the end of an invalid date. *)
Definition bookingData (params responses : gmap string json)
    : option (gmap string json) :=
  let username :=
    or_else (or_else (params !! "username") (Some config_cal_username))
      (Some (JStr "ashir-hassan-shaikh-gjcrzb")) in
  let duration := 15 in
  let startDate := Date_getTime (default JNull (params !! "start")) in
  let endDate := (fun t => t + duration * 60000) <$> startDate in
  end_ ← (if truthy (params !! "end") then Some (params !! "end")
          else (fun t => Some (JStr (toISOString t))) <$> endDate);
  Some (obj [ ("eventTypeId",
               match params !! "eventTypeId" with
               | Some (JStr s) =>
                   Some (match parseInt s with Some z => JNum z | None => JNull end)
               | v => v
               end);
              ("username", username);
              ("start", params !! "start");
              ("end", end_);
              ("responses", Some (JObj responses));
              ("timeZone", params !! "timeZone");
              ("language", or_else (params !! "language") (Some (JStr "en")));
              ("status", or_else (params !! "status") (Some (JStr "ACCEPTED")));
              ("metadata",
               or_else (params !! "metadata")
                 (Some (JObj (obj [ ("source",
                                     Some (JStr "lambda-cal-vapi-integration")) ])))) ]).

(** [createBooking(params)], called with an object. *)
Definition createBooking (params : gmap string json) : M (list Request) json :=
  if negb (truthy (params !! "start"))
  then throw (ValidationError "Start time is required" "start")
  else if negb (truthy (params !! "responses"))
  then throw (ValidationError "Responses are required" "responses")
  else if negb (truthy (optMember (params !! "responses") "name"))
  then throw (ValidationError "Name is required" "responses.name")
  else if negb (truthy (optMember (params !! "responses") "email"))
  then throw (ValidationError "Email is required" "responses.email")
  else if negb (truthy (params !! "timeZone"))
  then throw (ValidationError "Time zone is required" "timeZone")
  else if negb (truthy (params !! "eventTypeId"))
  then throw (ValidationError "Event type ID is required" "eventTypeId")
  else
    let apiKey := or_else (params !! "apiKey") (Some config_cal_apiKey) in
    if negb (truthy apiKey)
    then throw (ValidationError "API key is required" "apiKey")
    else
      let responses :=
        match params !! "responses" with
        | Some (JObj r) => normalizeLocation r
        | _ => ∅
        end in
      match bookingData params responses with
      | None => throw (mkError "RangeError" "Invalid time value")
      | Some bookingData =>
          match apiKey with
          | Some (JStr key) =>
              fun trace =>
                let request :=
                  {| url := config_cal_apiUrl +:+ "/v1/bookings?apiKey=" +:+ key;
                     method := "POST";
                     headers := {[ "Content-Type" := "application/json" ]};
                     body := Some (JSON_stringify (JObj bookingData)) |} in
                let raised :=
                  match fetch trace request with
                  | inl e => inl (Other e)
                  | inr response => readBookingResponse response
                  end in
                (match raised with
                 | inr data => Return data
                 | inl (Custom e) => Throw e
                 | inl (Other e) => Throw (wrap e)
                 end, trace ++ [request])%list
          | _ => throw (TypeError "apiKey.substr is not a function")
          end
      end.
End Service.

End CalApiService.

(** ** The configuration module ([src/config.js])

    The sections [cal] and [vapi] of the configuration object, built from
    the environment, and [validate], which reads these two. *)
Module ConfigJs.

Local Open Scope string_scope.

(** [process.env]: an absent variable is [undefined]. *)
Definition Env : Type := gmap string string.

(** [process.env[key] || defaultValue] *)
Definition getEnv (env : Env) (key defaultValue : string) : string :=
  match env !! key with
  | Some v => if String.eqb v "" then defaultValue else v
  | None => defaultValue
  end.

Record Cal := {
  cal_apiKey : string;
  cal_apiUrl : string;
  cal_eventTypeId : string;
  cal_username : string;
  cal_userId : string;
  cal_apiVersion : string
}.

Record Vapi := {
  vapi_apiKey : string;
  vapi_apiUrl : string;
  vapi_assistantId : string;
  vapi_phoneNumberId : string;
  vapi_webhookUrl : string;
  vapi_toolWebhookUrl : string
}.

Record Config := { cal : Cal; vapi : Vapi }.

Definition config (env : Env) : Config :=
  {| cal :=
       {| cal_apiKey := getEnv env "CAL_API_KEY" "";
          cal_apiUrl := getEnv env "CAL_API_URL" "https://api.cal.com";
          cal_eventTypeId := getEnv env "CAL_EVENT_TYPE_ID" "2077162";
          cal_username := getEnv env "CAL_USERNAME" "ashir-hassan-shaikh-gjcrzb";
          cal_userId := getEnv env "CAL_USER_ID" "";
          cal_apiVersion := "2023-12-25" |};
     vapi :=
       {| vapi_apiKey := getEnv env "VAPI_API_KEY" "";
          vapi_apiUrl := getEnv env "VAPI_API_URL" "https://api.vapi.ai";
          vapi_assistantId := getEnv env "VAPI_ASSISTANT_ID" "";
          vapi_phoneNumberId := getEnv env "VAPI_PHONE_NUMBER_ID" "";
          vapi_webhookUrl := getEnv env "VAPI_WEBHOOK_URL" "";
          vapi_toolWebhookUrl := getEnv env "VAPI_TOOL_WEBHOOK_URL" "" |} |}.

(** [missingVars] of [validate()], in the order of the pushes. *)
Definition missingVars (this : Config) : list string :=
  (if String.eqb (cal_apiKey (cal this)) "" then ["CAL_API_KEY"] else [])
  ++ (if String.eqb (cal_eventTypeId (cal this)) "" then ["CAL_EVENT_TYPE_ID"] else [])
  ++ (if String.eqb (cal_username (cal this)) ""
         && String.eqb (cal_userId (cal this)) ""
      then ["CAL_USERNAME or CAL_USER_ID"] else [])
  ++ (if String.eqb (vapi_apiKey (vapi this)) "" then ["VAPI_API_KEY"] else [])
  ++ (if String.eqb (vapi_phoneNumberId (vapi this)) ""
      then ["VAPI_PHONE_NUMBER_ID"] else []).

Definition validate (this : Config) : bool :=
  negb (0 <? length (missingVars this))%nat.

End ConfigJs.

(** ** Requests and providers of the examples *)
Module Scenario.
Import JSDate JS CalApi.

Local Open Scope string_scope.
Local Open Scope Z_scope.

(** A [findAvailability] request that brings its own API key. *)
Definition findRequest : Index.Event :=
  Sample.request "GET" None
    [("action", "findAvailability"); ("id", "42"); ("apiKey", "cal_live_other")]
    None.

Definition dates : gmap string json :=
  <["startDate" := JStr "2025-07-01"]> (<["endDate" := JStr "2025-07-08"]> ∅).

(** A booking in the legacy shape and one in the provider's shape. *)
Definition legacyBooking : gmap string json :=
  <["name" := JStr "Ada"]>
    (<["email" := JStr "ada@example.com"]>
    (<["startTime" := JStr "2025-07-01T10:00:00Z"]>
    (<["endTime" := JStr "2025-07-01T10:30:00Z"]>
    (<["eventTypeId" := JStr "2077162"]>
    (<["timeZone" := JStr "UTC"]> ∅))))).
Definition answers : gmap string json :=
  <["name" := JStr "Ada"]> (<["email" := JStr "ada@example.com"]> ∅).
Definition nativeBooking : gmap string json :=
  <["eventTypeId" := JNum 2077162]>
    (<["start" := JStr "2025-07-01T10:00:00Z"]>
    (<["responses" := JObj answers]>
    (<["timeZone" := JStr "UTC"]> ∅))).

Definition trialBody : gmap string json :=
  <["name" := JStr "Ada"]>
    (<["email" := JStr "ada@example.com"]>
    (<["phoneNumber" := JStr "+15551234567"]> ∅)).

(** A provider that refuses every call, and one on which only SIP calls
    fail. *)
Definition unavailable : Error := mkError "Error" "Service unavailable".
Definition refusing (w : Index.World) (c : Index.ProviderCall) : Error + json :=
  inl unavailable.
Definition sipDown (w : Index.World) (c : Index.ProviderCall) : Error + json :=
  if String.eqb (Index.operation c) "vapiService.createSipCall"
  then inl (mkError "Error" "SIP trunk unavailable")
  else inr (JObj (<["id" := JStr "call-1"]> ∅)).

(** The configuration of the examples without an assistant. *)
Definition noAssistant : Index.World :=
  {| Index.config :=
       {| Index.cal_apiKey := JStr "cal_live_default";
          Index.cal_eventTypeId := JStr "2077162";
          Index.cal_username := JStr "ashir";
          Index.vapi_apiKey := JStr "vapi_key";
          Index.vapi_assistantId := JStr "";
          Index.app_timeZone := JStr "UTC";
          Index.app_defaultDuration := JNum 30 |};
     Index.calls := [] |}.

(** Built-ins that read the text [null] and render the clock of the
    examples and the instant two weeks later. *)
Definition JSON_parse (v : json) : Error + json :=
  match v with
  | JStr "{}" => inr (JObj ∅)
  | JStr "null" => inr JNull
  | _ => inl (mkError "SyntaxError" "Unexpected token")
  end.
Definition toISOString (t : Z) : string :=
  if t =? Sample.now then "2025-06-01T00:00:00.000Z"
  else if t =? Sample.now + 14 * msPerDay then "2025-06-15T00:00:00.000Z"
  else "1970-01-01T00:00:00.000Z".
Definition Date_getTime (v : option json) : Z :=
  match v with
  | Some (JStr "2025-06-01T00:00:00.000Z") => Sample.now
  | _ => 0
  end.

(** 2025-03-10T14:30:45Z, a past start in the year of the examples'
    clock. *)
Definition marchStart : Z := 1741617045000.

(** A scheduling provider that is down, one that refuses a booking as
    taken and then fails, and one that offers and accepts everything. *)
Definition down (trace : list Legacy.ProviderCall) (c : Legacy.ProviderCall)
    : Error + json := inl unavailable.
Definition taken : Error :=
  {| err_name := "Error"; message := "Bad request"; err_statusCode := Some 400;
     field := None; resource := None; source := Some "cal";
     details :=
       Some (JObj (<["error" :=
                      JObj (<["message" :=
                               JStr "User already has booking at this time or is not available"]> ∅)]> ∅)) |}.
(** A refusal whose [details.error.message] is a number, and a provider
    that answers a booking request with it. *)
Definition garbled : Error :=
  {| err_name := "Error"; message := "Bad request"; err_statusCode := Some 400;
     field := None; resource := None; source := Some "cal";
     details :=
       Some (JObj (<["error" := JObj (<["message" := JNum 42]> ∅)]> ∅)) |}.
Definition garbles (trace : list Legacy.ProviderCall)
    (c : Legacy.ProviderCall) : Error + json :=
  match c with
  | Legacy.GetAvailability _ _ _ _ => inr (JArr [])
  | Legacy.CreateBooking _ => inl garbled
  end.
Definition refusesBooking (trace : list Legacy.ProviderCall)
    (c : Legacy.ProviderCall) : Error + json :=
  match c, trace with
  | Legacy.GetAvailability _ _ _ _, [] => inr (JArr [])
  | Legacy.GetAvailability _ _ _ _, _ => inl unavailable
  | Legacy.CreateBooking _, _ => inl taken
  end.
Definition accepting (trace : list Legacy.ProviderCall)
    (c : Legacy.ProviderCall) : Error + json :=
  inr (JObj (<["id" := JNum 1]> ∅)).
Definition formatRequested (start : Z) (availability : json) : list Slot :=
  [ {| time := start; spoken := "requested" |} ].

(** The call that books the past start of the examples, and its
    response. *)
Definition movedBooking
    : Outcome Legacy.Response * Legacy.BookingParams * list Legacy.ProviderCall :=
  Legacy.createBooking 0 Sample.now Sample.created "2077162" accepting
    (formatRequested Sample.pastStart)
    (Sample.legacyRequest Sample.pastStart (Some Sample.pastEnd)) [].
Definition movedResponse : Legacy.Response :=
  match movedBooking.1.1 with
  | Return r => r
  | Throw _ => {| Legacy.statusCode := 0; Legacy.body := Legacy.Conflict false "" [] "" |}
  end.

(** A network that answers every request with the given response, and
    one that is unreachable. *)
Definition answering (response : CalApiService.FetchResponse)
    (trace : list CalApiService.Request) (request : CalApiService.Request)
    : Error + CalApiService.FetchResponse := inr response.
Definition unreachable (trace : list CalApiService.Request)
    (request : CalApiService.Request) : Error + CalApiService.FetchResponse :=
  inl (TypeError "fetch failed").
Definition jsonResponse (status : Z) (data : json) : CalApiService.FetchResponse :=
  {| CalApiService.status := status; CalApiService.statusText := "";
     CalApiService.contentType := Some "application/json; charset=utf-8";
     CalApiService.json_ := inr data; CalApiService.text := inr "" |}.
Definition rateLimited : CalApiService.FetchResponse :=
  jsonResponse 429 (JObj (<["message" := JStr "Too many requests"]> ∅)).

Definition JSON_stringify (v : json) : string := "{}".
Definition objectToString (v : json) : string := "[object Object]".
Definition encodeURIComponent (s : string) : string := s.
Definition parseDecimal (s : string) : option Z :=
  if String.eqb s "2077162" then Some 2077162 else None.
Definition startOf (v : json) : option Z :=
  match v with
  | JStr "2025-07-01T10:00:00Z" => Some 1751364000000
  | _ => None
  end.

Definition slotsQuery : gmap string json :=
  <["startTime" := JStr "2025-07-01"]> (<["endTime" := JStr "2025-07-08"]> ∅).

(** An environment that sets the two API keys only. *)
Definition environment : ConfigJs.Env :=
  <["CAL_API_KEY" := "cal_live_default"]> (<["VAPI_API_KEY" := "vapi_key"]> ∅).

End Scenario.

(** ** Facts about the date arithmetic *)
Module DateFacts.
Import JSDate.

Lemma year_decompose y :
  exists a b c e,
    y = 400 * a + 100 * b + 4 * c + e /\ 0 <= b < 4 /\ 0 <= c < 25 /\ 0 <= e < 4.
Proof.
  exists (y / 400), ((y mod 400) / 100), (((y mod 400) mod 100) / 4),
         (((y mod 400) mod 100) mod 4).
  lia.
Qed.

Ltac split_eqb :=
  repeat match goal with
         | |- context [Z.eqb ?x ?y] => destruct (Z.eqb_spec x y)
         end.
Ltac split_ltb :=
  repeat match goal with
         | |- context [Z.ltb ?x ?y] => destruct (Z.ltb_spec x y)
         end.
Ltac month_cases m :=
  let Hc := fresh "Hc" in
  assert (m = 0 \/ m = 1 \/ m = 2 \/ m = 3 \/ m = 4 \/ m = 5 \/ m = 6
          \/ m = 7 \/ m = 8 \/ m = 9 \/ m = 10 \/ m = 11) as Hc by lia;
  repeat (destruct Hc as [-> | Hc]); try subst m.

Lemma DayFromYear_succ y : DayFromYear (y + 1) = DayFromYear y + DaysInYear y.
Proof.
  destruct (year_decompose y) as (a & b & c & e & -> & Hb & Hc & He).
  unfold DaysInYear, isLeap, DayFromYear. split_eqb; simpl; lia.
Qed.

Lemma DayFromYear_lt y1 y2 : y1 < y2 -> DayFromYear y1 < DayFromYear y2.
Proof. unfold DayFromYear. lia. Qed.

Lemma DayFromYear_le y1 y2 : y1 <= y2 -> DayFromYear y1 <= DayFromYear y2.
Proof.
  intros H. destruct (Z.eq_dec y1 y2) as [-> | Hne]; [lia |].
  apply Z.lt_le_incl, DayFromYear_lt. lia.
Qed.

(** [YearFromDay d] is the year whose days include [d]. *)
Lemma YearFromDay_bracket d :
  DayFromYear (YearFromDay d) <= d < DayFromYear (YearFromDay d + 1).
Proof.
  unfold YearFromDay.
  set (e := 1970 + 400 * d / 146097).
  destruct (Z.ltb_spec d (DayFromYear e)).
  - replace (e - 1 + 1) with e by lia. split; [| lia].
    unfold DayFromYear in *. subst e. lia.
  - destruct (Z.leb_spec (DayFromYear (e + 1)) d).
    + split; [lia |]. unfold DayFromYear in *. subst e. lia.
    + lia.
Qed.

Lemma YearFromDay_unique d y :
  DayFromYear y <= d < DayFromYear (y + 1) -> YearFromDay d = y.
Proof.
  intros H. pose proof (YearFromDay_bracket d) as B.
  destruct (Z.lt_trichotomy (YearFromDay d) y) as [L | [E | G]]; [| done |].
  - pose proof (DayFromYear_le (YearFromDay d + 1) y). lia.
  - pose proof (DayFromYear_le (y + 1) (YearFromDay d)). lia.
Qed.

(** ECMA-262's definition: the largest year that starts at or before [t]. *)
Lemma YearFromTime_largest t :
  TimeFromYear (YearFromTime t) <= t
  /\ forall y, TimeFromYear y <= t -> y <= YearFromTime t.
Proof.
  unfold TimeFromYear, YearFromTime.
  pose proof (YearFromDay_bracket (Day t)) as B. unfold Day, msPerDay in *.
  split; [lia |]. intros y Hy.
  destruct (Z.le_gt_cases y (YearFromDay (t / 86400000))) as [| G]; [done |].
  pose proof (DayFromYear_le (YearFromDay (t / 86400000) + 1) y). lia.
Qed.

Lemma DayWithinYear_range t :
  0 <= DayWithinYear t < DaysInYear (YearFromTime t).
Proof.
  unfold DayWithinYear, YearFromTime.
  pose proof (YearFromDay_bracket (Day t)) as B.
  rewrite DayFromYear_succ in B. lia.
Qed.

Lemma MonthFromTime_range t : 0 <= MonthFromTime t <= 11.
Proof. unfold MonthFromTime, monthOfYearDay. split_ltb; lia. Qed.

Lemma DateFromTime_range t :
  1 <= DateFromTime t <= DaysInMonth (YearFromTime t) (MonthFromTime t).
Proof.
  pose proof (DayWithinYear_range t) as R.
  unfold DateFromTime, DaysInMonth, MonthFromTime, monthOfYearDay, InLeapYear,
    DaysInYear in *.
  destruct (isLeap (YearFromTime t)); split_ltb; simpl; lia.
Qed.

Lemma MakeDay_in_range y m d :
  0 <= m <= 11 ->
  MakeDay y m d = DayFromYear y + monthStart (if isLeap y then 1 else 0) m + d - 1.
Proof.
  intros Hm. unfold MakeDay.
  replace (m / 12) with 0 by lia. replace (m mod 12) with m by lia.
  by rewrite Z.add_0_r.
Qed.

(** The calendar fields of a time value rebuild its day number. *)
Lemma MakeDay_fields t :
  MakeDay (YearFromTime t) (MonthFromTime t) (DateFromTime t) = Day t.
Proof.
  rewrite MakeDay_in_range by apply MonthFromTime_range.
  unfold DateFromTime, DayWithinYear, InLeapYear. lia.
Qed.

Lemma Day_MakeDate day tod :
  0 <= tod < msPerDay -> Day (MakeDate day tod) = day.
Proof. unfold Day, MakeDate, msPerDay. lia. Qed.

Lemma TimeWithinDay_MakeDate day tod :
  0 <= tod < msPerDay -> TimeWithinDay (MakeDate day tod) = tod.
Proof. unfold TimeWithinDay, MakeDate, msPerDay. lia. Qed.

Lemma TimeWithinDay_range t : 0 <= TimeWithinDay t < msPerDay.
Proof. unfold TimeWithinDay, msPerDay. lia. Qed.

Lemma MakeDate_Day t : MakeDate (Day t) (TimeWithinDay t) = t.
Proof. unfold MakeDate, Day, TimeWithinDay, msPerDay. lia. Qed.

(** A calendar date that exists is read back unchanged. *)
Lemma fields_MakeDate y m d tod :
  0 <= m <= 11 -> 1 <= d <= DaysInMonth y m -> 0 <= tod < msPerDay ->
  let t := MakeDate (MakeDay y m d) tod in
  YearFromTime t = y /\ MonthFromTime t = m /\ DateFromTime t = d.
Proof.
  intros Hm Hd Ht t.
  assert (HD : Day t = MakeDay y m d) by by apply Day_MakeDate.
  pose proof (MakeDay_in_range y m d Hm) as HMD.
  assert (HY : YearFromTime t = y).
  { unfold YearFromTime. rewrite HD, HMD. apply YearFromDay_unique.
    rewrite DayFromYear_succ. unfold DaysInMonth, DaysInYear in *.
    destruct (isLeap y); month_cases m; simpl in *; lia. }
  assert (HW : DayWithinYear t = monthStart (if isLeap y then 1 else 0) m + d - 1).
  { unfold DayWithinYear. rewrite HY, HD, HMD. lia. }
  assert (HM : MonthFromTime t = m).
  { unfold MonthFromTime, InLeapYear. rewrite HY, HW. unfold DaysInMonth in Hd.
    destruct (isLeap y); month_cases m; simpl in *; unfold monthOfYearDay;
      split_ltb; lia. }
  repeat split; try done.
  unfold DateFromTime. rewrite HM, HW. unfold InLeapYear. rewrite HY. lia.
Qed.

(** The time of day survives a change of day. *)
Lemma HourFromTime_MakeDate day tod :
  HourFromTime (MakeDate day tod) = HourFromTime tod.
Proof. unfold HourFromTime, MakeDate, msPerDay, msPerHour. lia. Qed.

Lemma MinFromTime_MakeDate day tod :
  MinFromTime (MakeDate day tod) = MinFromTime tod.
Proof. unfold MinFromTime, MakeDate, msPerDay, msPerMinute. lia. Qed.

Lemma HourFromTime_TimeWithinDay t : HourFromTime (TimeWithinDay t) = HourFromTime t.
Proof. rewrite <- (MakeDate_Day t) at 2. by rewrite HourFromTime_MakeDate. Qed.

Lemma MinFromTime_TimeWithinDay t : MinFromTime (TimeWithinDay t) = MinFromTime t.
Proof. rewrite <- (MakeDate_Day t) at 2. by rewrite MinFromTime_MakeDate. Qed.

(** Only February changes length with the year. *)
Lemma DaysInMonth_other y y' m :
  0 <= m <= 11 -> m <> 1 -> DaysInMonth y m = DaysInMonth y' m.
Proof.
  intros Hm Hne. unfold DaysInMonth.
  destruct (isLeap y), (isLeap y'); month_cases m; simpl; lia.
Qed.

Lemma DaysInMonth_feb y : DaysInMonth y 1 = if isLeap y then 29 else 28.
Proof. unfold DaysInMonth. by destruct (isLeap y). Qed.

(** The calendar date depends on the day number only. *)
Lemma toISODate_Day t1 t2 : Day t1 = Day t2 -> toISODate t1 = toISODate t2.
Proof.
  intros H.
  unfold toISODate, DateFromTime, MonthFromTime, InLeapYear, DayWithinYear,
    YearFromTime.
  by rewrite H.
Qed.

Section LocalTime.
Variable LocalTZA : Z.

Lemma LocalTime_UTC t : LocalTime LocalTZA (UTC LocalTZA t) = t.
Proof. unfold LocalTime, UTC. lia. Qed.

(** [setFullYear] keeps the time of day. *)
Lemma setFullYear_time d y :
  getHours LocalTZA (setFullYear LocalTZA d y) = getHours LocalTZA d
  /\ getMinutes LocalTZA (setFullYear LocalTZA d y) = getMinutes LocalTZA d.
Proof.
  unfold getHours, getMinutes, setFullYear. rewrite LocalTime_UTC.
  rewrite HourFromTime_MakeDate, MinFromTime_MakeDate.
  by rewrite HourFromTime_TimeWithinDay, MinFromTime_TimeWithinDay.
Qed.

(** [setFullYear] keeps month and day when the day exists in the target
    year, that is unless a 29 February meets a common year. *)
Lemma setFullYear_fields d y :
  ~ (getMonth LocalTZA d = 1 /\ getDate LocalTZA d = 29 /\ isLeap y = false) ->
  getFullYear LocalTZA (setFullYear LocalTZA d y) = y
  /\ getMonth LocalTZA (setFullYear LocalTZA d y) = getMonth LocalTZA d
  /\ getDate LocalTZA (setFullYear LocalTZA d y) = getDate LocalTZA d.
Proof.
  intros Hok. unfold getFullYear, getMonth, getDate, setFullYear in *.
  rewrite LocalTime_UTC. set (t := LocalTime LocalTZA d) in *.
  pose proof (MonthFromTime_range t) as Hm.
  pose proof (DateFromTime_range t) as Hd.
  apply fields_MakeDate; [done | | apply TimeWithinDay_range].
  split; [lia |].
  destruct (Z.eq_dec (MonthFromTime t) 1) as [E | NE].
  - rewrite E in *. rewrite DaysInMonth_feb in *.
    destruct (isLeap y) eqn:Ly; [destruct (isLeap (YearFromTime t)); lia |].
    destruct (isLeap (YearFromTime t)); [| lia].
    destruct (Z.eq_dec (DateFromTime t) 29); [| lia]. tauto.
  - rewrite (DaysInMonth_other y (YearFromTime t)) by done. lia.
Qed.

(** 29 February carried into a common year is 1 March. *)
Lemma setFullYear_feb29 d y :
  getMonth LocalTZA d = 1 -> getDate LocalTZA d = 29 -> isLeap y = false ->
  getFullYear LocalTZA (setFullYear LocalTZA d y) = y
  /\ getMonth LocalTZA (setFullYear LocalTZA d y) = 2
  /\ getDate LocalTZA (setFullYear LocalTZA d y) = 1.
Proof.
  intros Hm Hd Hy. unfold getFullYear, getMonth, getDate, setFullYear in *.
  rewrite LocalTime_UTC. set (t := LocalTime LocalTZA d) in *.
  rewrite Hm, Hd.
  replace (MakeDay y 1 29) with (MakeDay y 2 1)
    by (rewrite !MakeDay_in_range by lia; rewrite Hy; simpl; lia).
  apply fields_MakeDate; [lia | | apply TimeWithinDay_range].
  unfold DaysInMonth. rewrite Hy. simpl. lia.
Qed.

(** Whatever the day, the year is the one asked for. *)
Lemma setFullYear_year d y :
  getFullYear LocalTZA (setFullYear LocalTZA d y) = y.
Proof.
  destruct (Z.eq_dec (getMonth LocalTZA d) 1) as [Hm | Hm];
    [destruct (Z.eq_dec (getDate LocalTZA d) 29) as [Hd | Hd];
     [destruct (isLeap y) eqn:Hy |] |].
  all: try (apply setFullYear_fields; intros (? & ? & ?); congruence).
  by apply setFullYear_feb29.
Qed.

(** A date in a later local year is a later instant. *)
Lemma later_year_later d1 d2 :
  getFullYear LocalTZA d1 < getFullYear LocalTZA d2 -> d1 < d2.
Proof.
  unfold getFullYear, YearFromTime, LocalTime. intros H.
  pose proof (YearFromDay_bracket (Day (d1 + LocalTZA))) as B1.
  pose proof (YearFromDay_bracket (Day (d2 + LocalTZA))) as B2.
  pose proof (DayFromYear_le (YearFromDay (Day (d1 + LocalTZA)) + 1)
                (YearFromDay (Day (d2 + LocalTZA)))) as Hle.
  unfold Day, msPerDay in *. lia.
Qed.
End LocalTime.

End DateFacts.

(** ** Facts about the ranking of alternative slots *)
Module SlotFacts.
Import CalApi.

Section Ranking.
Variable t0 : Z.

Lemma closer_spec a b :
  closer t0 a b = true <->
  distance t0 a < distance t0 b
  \/ (distance t0 a = distance t0 b /\ time a <= time b).
Proof.
  unfold closer.
  rewrite orb_true_iff, andb_true_iff, Z.ltb_lt, Z.eqb_eq, Z.leb_le. tauto.
Qed.

Lemma closer_total a b : closer t0 a b = true \/ closer t0 b a = true.
Proof. rewrite !closer_spec. lia. Qed.

Lemma closer_false a b : closer t0 a b = false -> closer t0 b a = true.
Proof. destruct (closer_total a b); congruence. Qed.

Lemma closer_trans a b c :
  closer t0 a b = true -> closer t0 b c = true -> closer t0 a c = true.
Proof. rewrite !closer_spec. lia. Qed.

Lemma closer_antisym a b :
  closer t0 a b = true -> closer t0 b a = true -> time a = time b.
Proof. rewrite !closer_spec. lia. Qed.

Lemma closer_false_time a b : closer t0 a b = false -> time a <> time b.
Proof.
  intros H E. assert (closer t0 a b = true); [| congruence].
  apply closer_spec. unfold distance. rewrite E. lia.
Qed.

Lemma insert_slot_perm x l : Permutation (insert_slot t0 x l) (x :: l).
Proof.
  induction l as [| y l IH]; simpl; [done |].
  destruct (closer t0 x y); [done |].
  rewrite IH. apply perm_swap.
Qed.

Lemma sortByDistance_perm l : Permutation (sortByDistance t0 l) l.
Proof.
  induction l as [| x l IH]; simpl; [done |].
  rewrite insert_slot_perm. by constructor.
Qed.

Lemma sortByDistance_length l : length (sortByDistance t0 l) = length l.
Proof. apply Permutation_length, sortByDistance_perm. Qed.

Lemma insert_slot_sorted x l :
  StronglySorted (ranks t0) l -> StronglySorted (ranks t0) (insert_slot t0 x l).
Proof.
  induction 1 as [| y l Hs IH Hy]; simpl.
  - repeat constructor.
  - destruct (closer t0 x y) eqn:E.
    + constructor; [by constructor |].
      constructor; [done |].
      eapply Forall_impl; [exact Hy |]. intros z Hz.
      by apply closer_trans with y.
    + constructor; [done |].
      rewrite (insert_slot_perm x l). constructor; [| done].
      by apply closer_false.
Qed.

Lemma sortByDistance_sorted l : StronglySorted (ranks t0) (sortByDistance t0 l).
Proof.
  induction l as [| x l IH]; simpl; [constructor |].
  by apply insert_slot_sorted.
Qed.

Lemma StronglySorted_impl {A} (R R' : A -> A -> Prop) l :
  (forall a b, R a b -> R' a b) -> StronglySorted R l -> StronglySorted R' l.
Proof.
  intros HR. induction 1 as [| x l Hs IH Hx]; constructor; [done |].
  eapply Forall_impl; [exact Hx |]. intros y. apply HR.
Qed.

Lemma StronglySorted_take {A} (R : A -> A -> Prop) n l :
  StronglySorted R l -> StronglySorted R (take n l).
Proof.
  intros H. revert n. induction H as [| x l Hs IH Hx]; intros [| n]; simpl;
    try constructor; [apply IH |].
  apply Forall_forall. intros y Hy. rewrite Forall_forall in Hx.
  apply Hx. by eapply subseteq_take.
Qed.

(** Stability: the slots of one instant keep the order of the input. *)
Lemma insert_slot_stable tau x l :
  filter (fun s => time s = tau) (insert_slot t0 x l)
  = filter (fun s => time s = tau) (x :: l).
Proof.
  induction l as [| y l IH]; simpl; [done |].
  destruct (closer t0 x y) eqn:E; [done |].
  rewrite filter_cons, IH, !filter_cons.
  destruct (decide (time x = tau)) as [Hx | Hx]; [| done].
  destruct (decide (time y = tau)) as [Hy | Hy]; [| done].
  apply closer_false_time in E. congruence.
Qed.

Lemma sortByDistance_stable tau l :
  filter (fun s => time s = tau) (sortByDistance t0 l)
  = filter (fun s => time s = tau) l.
Proof.
  induction l as [| x l IH]; simpl; [done |].
  by rewrite insert_slot_stable, !filter_cons, IH.
Qed.

(** Two rankings of the same slots list the same instants. *)
Lemma sorted_times_unique l1 l2 :
  StronglySorted (ranks t0) l1 -> StronglySorted (ranks t0) l2 ->
  Permutation (time <$> l1) (time <$> l2) -> time <$> l1 = time <$> l2.
Proof.
  intros H1. revert l2. induction H1 as [| x l1 Hs1 IH Hx]; intros l2 H2 HP.
  - apply Permutation_nil in HP. by rewrite HP.
  - destruct H2 as [| y l2 Hs2 Hy].
    { symmetry in HP. by apply Permutation_nil in HP. }
    simpl in *.
    assert (Hxy : time x = time y).
    { assert (Hin1 : time x ∈ time y :: (time <$> l2))
        by (rewrite <- HP; left).
      assert (Hin2 : time y ∈ time x :: (time <$> l1))
        by (rewrite HP; left).
      apply elem_of_cons in Hin1 as [-> | Hin1]; [done |].
      apply elem_of_cons in Hin2 as [-> | Hin2]; [done |].
      apply list_elem_of_fmap in Hin1 as (b & Hb & Hbin).
      apply list_elem_of_fmap in Hin2 as (a & Ha & Hain).
      rewrite Forall_forall in Hx, Hy.
      assert (ranks t0 x a) as Hxa by by apply Hx.
      assert (ranks t0 y b) as Hyb by by apply Hy.
      unfold ranks in *. rewrite closer_spec in Hxa, Hyb.
      unfold distance in *. rewrite <- Ha in Hxa. rewrite <- Hb in Hyb. lia. }
    rewrite Hxy in *. f_equal. apply IH; [done |].
    by apply Permutation_cons_inv in HP.
Qed.

Lemma sortByDistance_input_order l l' :
  Permutation l l' ->
  time <$> sortByDistance t0 l = time <$> sortByDistance t0 l'.
Proof.
  intros HP. apply sorted_times_unique; try apply sortByDistance_sorted.
  apply fmap_Permutation. by rewrite !sortByDistance_perm.
Qed.
End Ranking.

Lemma findAlternativeTimeSlots_length slots t0 N :
  (length (findAlternativeTimeSlots slots t0 N) <= N)%nat.
Proof. unfold findAlternativeTimeSlots. rewrite length_take. lia. Qed.

Lemma findAlternativeTimeSlots_nil slots t0 N :
  findAlternativeTimeSlots slots t0 (S N) = [] <-> slots = [].
Proof.
  unfold findAlternativeTimeSlots. split.
  - intros H. apply (f_equal length) in H.
    rewrite length_take, sortByDistance_length in H.
    destruct slots; [done | simpl in H; lia].
  - by intros ->.
Qed.

(** The ranking that the orchestrator is handed: at most [N] entries,
    ascending in [|time - t0|] with the earlier instant first among equal
    distances; the first [N] of a stable ranking of the candidates; the
    same instants whatever the order of the candidates. *)
Lemma findAlternativeTimeSlots_ranking (slots : list Slot) (t0 : Z) (N : nat) :
  let result := findAlternativeTimeSlots slots t0 N in
  (length result <= N)%nat
  /\ StronglySorted
       (fun a b => Z.abs (time a - t0) < Z.abs (time b - t0)
                   \/ (Z.abs (time a - t0) = Z.abs (time b - t0)
                       /\ time a <= time b))
       result
  /\ (exists ranking,
        result = take N ranking
        /\ Permutation ranking slots
        /\ forall tau, filter (fun s => time s = tau) ranking
                       = filter (fun s => time s = tau) slots)
  /\ (forall slots', Permutation slots slots' ->
        time <$> findAlternativeTimeSlots slots' t0 N = time <$> result).
Proof.
  intros result. subst result. unfold findAlternativeTimeSlots.
  split; [rewrite length_take; lia |]. split; [| split].
  - apply StronglySorted_take.
    eapply StronglySorted_impl; [| apply sortByDistance_sorted].
    intros a b H. apply closer_spec in H. by unfold distance in H.
  - exists (sortByDistance t0 slots). split; [done |].
    split; [apply sortByDistance_perm |].
    intros tau. apply sortByDistance_stable.
  - intros slots' HP. rewrite !fmap_take. f_equal.
    symmetry. by apply sortByDistance_input_order.
Qed.

(** Slots at 09:00, 10:00 and 11:30 with a request at 10:15 and two
    alternatives: 09:00 and 11:30 are both 75 minutes away, and the rule
    puts the earlier one first, where the example beside the rule in the
    specification lists 11:30. *)
Example findAlternativeTimeSlots_tie :
  findAlternativeTimeSlots [Sample.slot0900; Sample.slot1000; Sample.slot1130]
    Sample.futureStart 2
  = [Sample.slot1000; Sample.slot0900].
Proof. reflexivity. Qed.

End SlotFacts.

(** ** Facts about the date repair and the pre-flight check *)
Module LegacyFacts.
Import JSDate JS CalApi Legacy DateFacts SlotFacts.

Local Open Scope string_scope.
Local Open Scope Z_scope.

Section Repair.
Variables LocalTZA now : Z.

Abbreviation year := (getFullYear LocalTZA).
Abbreviation adjusted := (adjustedDate LocalTZA now).

Lemma dateRepair_startTime params start e :
  isPastYear LocalTZA now start || isPastDate now start = true ->
  startTime (dateRepair LocalTZA now params start e)
  = Some (Instant (adjusted start)).
Proof.
  intros H. unfold dateRepair. rewrite H. simpl.
  by destruct (endTime params), e as [[] |].
Qed.

Lemma dateRepair_untouched params start e :
  isPastYear LocalTZA now start || isPastDate now start = false ->
  dateRepair LocalTZA now params start e = params.
Proof. intros H. unfold dateRepair. by rewrite H. Qed.

(** What the repair block leaves in [params.endTime]: the difference is
    taken against [bookingDate] after line 610 has made it the adjusted
    date, so adding it back returns the end time that came in. *)
Lemma dateRepair_endTime params start (e : Z) :
  endTime params = Some (Instant e) ->
  endTime (dateRepair LocalTZA now params start (Some (Instant e)))
  = Some (Instant e).
Proof.
  intros He. unfold dateRepair.
  destruct (isPastYear LocalTZA now start || isPastDate now start); [| done].
  simpl. rewrite He. simpl. do 2 f_equal. lia.
Qed.

(** The repair block runs to its end unless it meets an end time that
    is no date. *)
Lemma repairThrows_false params start :
  endTime params <> Some NotADate ->
  repairThrows LocalTZA now params start (endTime params) = false.
Proof.
  intros He. unfold repairThrows.
  destruct (endTime params) as [[] |]; try done; apply andb_false_r.
Qed.

Lemma repairThrows_true params start :
  isPastYear LocalTZA now start || isPastDate now start = true ->
  endTime params = Some NotADate ->
  repairThrows LocalTZA now params start (endTime params) = true.
Proof. intros H He. unfold repairThrows. by rewrite H, He. Qed.

Lemma dateRepair_frame params start e :
  let params' := dateRepair LocalTZA now params start e in
  name params' = name params /\ email params' = email params
  /\ timeZone params' = timeZone params
  /\ eventTypeId params' = eventTypeId params.
Proof.
  unfold dateRepair.
  destruct (isPastYear LocalTZA now start || isPastDate now start); [| done].
  simpl. by destruct (endTime params), e as [[] |].
Qed.

Lemma isLeap_next y : isLeap y = true -> isLeap (y + 1) = false.
Proof.
  unfold isLeap. intros [H%Z.eqb_eq _]%andb_true_iff.
  apply andb_false_iff. left. apply Z.eqb_neq. lia.
Qed.

(** The repair of a start on 29 February of a past year: the date
    survives where the current year is a leap year and its 29 February,
    at that time of day, is still to come; everywhere else the start
    lands on 1 March. *)
Lemma adjustedDate_leap_day start :
  year start < year now ->
  getMonth LocalTZA start = 1 -> getDate LocalTZA start = 29 ->
  let r := adjusted start in
  (getMonth LocalTZA r, getDate LocalTZA r)
  = if isLeap (year now) && (now <? setFullYear LocalTZA start (year now))
    then (1, 29) else (2, 1).
Proof.
  intros Hpast Hm Hd r. subst r. unfold adjustedDate, isPastYear.
  destruct (Z.ltb_spec (year start) (year now)) as [_ | ?]; [| lia].
  set (a := setFullYear LocalTZA start (year now)).
  destruct (isLeap (year now)) eqn:Hleap.
  - destruct (setFullYear_fields LocalTZA start (year now)) as (_ & Ma & Da).
    { intros (_ & _ & ?). congruence. }
    fold a in Ma, Da.
    destruct (Z.leb_spec a now) as [Hle | Hgt].
    + destruct (Z.ltb_spec now a) as [? | _]; [lia |]. simpl.
      destruct (setFullYear_feb29 LocalTZA a (year now + 1)) as (_ & -> & ->);
        [congruence | congruence | by apply isLeap_next | done].
    + destruct (Z.ltb_spec now a) as [_ | ?]; [| lia]. simpl. congruence.
  - destruct (setFullYear_feb29 LocalTZA start (year now) Hm Hd Hleap)
      as (_ & Ma & Da).
    fold a in Ma, Da. simpl.
    destruct (Z.leb_spec a now) as [Hle | Hgt]; [| congruence].
    destruct (setFullYear_fields LocalTZA a (year now + 1)) as (_ & -> & ->);
      [| congruence].
    intros (? & _). lia.
Qed.

(** The repair of a start time from a past year. *)
Lemma adjustedDate_past_year start :
  year start < year now ->
  let r := adjusted start in
  year now <= year r <= year now + 1
  /\ (year r = year now + 1 <-> setFullYear LocalTZA start (year now) <= now)
  /\ now < r
  /\ getHours LocalTZA r = getHours LocalTZA start
  /\ getMinutes LocalTZA r = getMinutes LocalTZA start
  /\ (~ (getMonth LocalTZA start = 1 /\ getDate LocalTZA start = 29) ->
      getMonth LocalTZA r = getMonth LocalTZA start
      /\ getDate LocalTZA r = getDate LocalTZA start).
Proof.
  intros Hpast r. subst r. unfold adjustedDate, isPastYear.
  destruct (Z.ltb_spec (year start) (year now)) as [_ | ?]; [| lia].
  set (a := setFullYear LocalTZA start (year now)).
  pose proof (setFullYear_year LocalTZA start (year now)) as Ya.
  pose proof (setFullYear_time LocalTZA start (year now)) as [Ha Ma].
  fold a in Ya, Ha, Ma.
  assert (Hmd : ~ (getMonth LocalTZA start = 1 /\ getDate LocalTZA start = 29) ->
                getMonth LocalTZA a = getMonth LocalTZA start
                /\ getDate LocalTZA a = getDate LocalTZA start).
  { intros Hn. apply (setFullYear_fields LocalTZA start (year now)). tauto. }
  destruct (Z.leb_spec a now) as [Hle | Hgt].
  - set (b := setFullYear LocalTZA a (year now + 1)).
    pose proof (setFullYear_year LocalTZA a (year now + 1)) as Yb.
    pose proof (setFullYear_time LocalTZA a (year now + 1)) as [Hb Mb].
    fold b in Yb, Hb, Mb.
    repeat split; try lia; try congruence.
    + apply later_year_later with LocalTZA. lia.
    + destruct (Hmd H) as [E1 E2]. rewrite <- E1.
      apply (setFullYear_fields LocalTZA a (year now + 1)). intros (? & ? & _).
      apply H. split; congruence.
    + destruct (Hmd H) as [E1 E2]. rewrite <- E2.
      apply (setFullYear_fields LocalTZA a (year now + 1)). intros (? & ? & _).
      apply H. split; congruence.
  - repeat split; try lia; try congruence; by apply Hmd.
Qed.
End Repair.

Section Window.
(** In a process whose local time is UTC, [dayAround] is the calendar
    date [k] days from the requested instant. *)
Lemma dayAround_UTC requestedDate k :
  ~ (0 <= getFullYear 0 requestedDate <= 99) ->
  dayAround 0 requestedDate k = toISODate (requestedDate + k * msPerDay).
Proof.
  intros Hy. unfold dayAround, newDate, getFullYear, getMonth, getDate, UTC,
    LocalTime in *.
  rewrite Z.add_0_r in *. rewrite Z.sub_0_r.
  set (t := requestedDate) in *.
  destruct ((0 <=? YearFromTime t) && (YearFromTime t <=? 99)) eqn:E.
  { apply andb_true_iff in E as [?%Z.leb_le ?%Z.leb_le]. lia. }
  assert (HD : MakeDay (YearFromTime t) (MonthFromTime t) (DateFromTime t + k)
               = Day t + k).
  { rewrite <- (MakeDay_fields t).
    rewrite !MakeDay_in_range by apply MonthFromTime_range. lia. }
  rewrite HD.
  assert (Hday : Day (MakeDate (Day t + k) (MakeTime 0 0 0 0)) = Day (t + k * msPerDay)).
  { unfold Day, MakeDate, MakeTime, msPerDay. lia. }
  by apply toISODate_Day.
Qed.
End Window.

Section Preflight.
Variables LocalTZA now created : Z.
Variable config_eventTypeId : string.
Variable calApi : list ProviderCall -> ProviderCall -> Error + json.
Variable formatAvailabilityForVoice : json -> list Slot.

(** Whatever the repair did, the first request to the provider is the
    availability query for the days around the start time that came in,
    in the requested time zone. *)
Lemma createBooking_preflight_query (params : BookingParams)
    (trace : list ProviderCall) (start : Z) (tz : string) :
  truthyS (name params) = true ->
  truthyS (email params) = true ->
  startTime params = Some (Instant start) ->
  endTime params <> Some NotADate ->
  timeZone params = Some tz -> tz <> "" ->
  exists rest,
    (createBooking LocalTZA now created config_eventTypeId calApi
       formatAvailabilityForVoice params trace).2
    = (trace
       ++ GetAvailability
            (if truthyS (eventTypeId params) then default "" (eventTypeId params)
             else config_eventTypeId)
            (dayAround LocalTZA start (-1)) (dayAround LocalTZA start 1) tz
       :: rest)%list.
Proof.
  intros Hname Hemail Hstart Hend Htz Htz'.
  unfold createBooking. rewrite Hstart, Htz.
  destruct (name params) as [n |] eqn:En; [| done].
  destruct (email params) as [e |] eqn:Ee; [| done].
  simpl in Hname, Hemail.
  apply negb_true_iff in Hname, Hemail. rewrite Hname, Hemail.
  apply String.eqb_neq in Htz'. rewrite Htz'. simpl.
  rewrite repairThrows_false by done.
  destruct (dateRepair_frame LocalTZA now params start (endTime params))
    as (_ & _ & _ & Hevt).
  simpl in Hevt. rewrite Hevt.
  repeat (cbv beta iota zeta delta
            [try_catch attempt onError mbind M_bind bind call throw mret M_ret ret];
          match goal with
          | |- context [calApi ?t ?c] => destruct (calApi t c)
          | |- context [saysAlreadyBooked ?e] =>
              destruct (saysAlreadyBooked e) as [? | []]
          | |- context [if ?b then _ else _] => destruct b
          end);
    cbv beta iota zeta delta [snd];
    eexists; rewrite <- ?app_assoc; simpl; reflexivity.
Qed.
End Preflight.

End LegacyFacts.

(** ** Facts about the dispatcher *)
Module IndexFacts.
Import JS Index.

Local Open Scope string_scope.
Local Open Scope Z_scope.

(** [!params[key]] where [key] names no member of [Object.prototype]:
    only an own property counts. *)
Lemma falsyAt_own (params : gmap string json) (key : string) :
  includesStr objectPrototype key = false ->
  falsyAt params key = negb (truthy (params !! key)).
Proof. intros H. unfold falsyAt. destruct (params !! key); by rewrite ?H. Qed.

(** One step of the copy, seen from one key. *)
Lemma copyQueryParam_lookup (params : gmap string json) (entry : string * string)
    (key : string) :
  copyQueryParam params entry !! key
  = if bool_decide (entry.1 = key) && falsyAt params key
    then Some (JStr entry.2)
    else params !! key.
Proof.
  unfold copyQueryParam. destruct entry as [k v]; simpl.
  case_bool_decide as Hk.
  - subst k. destruct (falsyAt params key); simpl; [| done].
    by rewrite lookup_insert_eq.
  - simpl. destruct (falsyAt params k); simpl; [| done].
    by rewrite lookup_insert_ne.
Qed.

(** The copy over entries with distinct keys, as [Object.keys] lists
    them. *)
Lemma foldl_copyQueryParam_lookup (entries : list (string * string))
    (params : gmap string json) (key : string) :
  NoDup entries.*1 ->
  foldl copyQueryParam params entries !! key
  = if falsyAt params key
    then match (list_to_map entries : gmap string string) !! key with
         | Some v => Some (JStr v)
         | None => params !! key
         end
    else params !! key.
Proof.
  revert params. induction entries as [| [k v] entries IH]; intros params Hnd.
  - simpl. rewrite lookup_empty. by destruct (falsyAt params key).
  - simpl in *. apply NoDup_cons in Hnd as [Hk Hnd].
    rewrite IH by done. rewrite copyQueryParam_lookup. simpl.
    apply not_elem_of_list_to_map_1 in Hk.
    case_bool_decide as E; simpl.
    + subst k. rewrite lookup_insert_eq, Hk.
      destruct (falsyAt params key) eqn:F; simpl;
        by destruct (falsyAt (copyQueryParam params (key, v)) key).
    + rewrite lookup_insert_ne by done.
      replace (falsyAt (copyQueryParam params (k, v)) key)
        with (falsyAt params key); [done |].
      unfold falsyAt. rewrite copyQueryParam_lookup. simpl.
      by rewrite bool_decide_eq_false_2.
Qed.

(** The merge of the query string, key by key: a value is taken from the
    query exactly where [params[key]] is falsy. *)
Lemma mergeQueryParams_lookup (params : gmap string json)
    (queryParams : gmap string string) (key : string) :
  mergeQueryParams params queryParams !! key
  = if falsyAt params key
    then match queryParams !! key with
         | Some v => Some (JStr v)
         | None => params !! key
         end
    else params !! key.
Proof.
  unfold mergeQueryParams.
  rewrite foldl_copyQueryParam_lookup by apply NoDup_fst_map_to_list.
  by rewrite list_to_map_to_list.
Qed.

Lemma includesStr_In (l : list string) (s : string) :
  includesStr l s = true <-> s ∈ l.
Proof.
  unfold includesStr. rewrite existsb_exists. split.
  - intros (x & Hx & E). apply String.eqb_eq in E. subst.
    by apply list_elem_of_In.
  - intros H. exists s. split; [by apply list_elem_of_In | apply String.eqb_refl].
Qed.

Section Handler.
Variable JSON_parse : json -> Error + json.
Variable parseInt : option json -> option Z.
Variable Date_getTime : option json -> Z.
Variable toISOString : Z -> string.
Variable toNumber : option json -> Z.
Variable toString : option json -> string.
Variable LocalTZA now : Z.
Variable provider : World -> ProviderCall -> Error + json.

(** [findAvailability] stores a truthy [params.apiKey] in the shared
    configuration before it asks the provider. *)
Lemma findAvailability_overrides_config (params : gmap string json)
    (key : json) (id : Z) (w : World) :
  truthy (params !! "id") = true ->
  parseInt (params !! "id") = Some id ->
  params !! "apiKey" = Some key -> truthy (Some key) = true ->
  cal_apiKey (config (findAvailability parseInt provider (Some (JObj params)) w).2)
  = key.
Proof.
  intros Hid Hparse Hkey Htruthy.
  unfold findAvailability, try_catch, mbind, M_bind, bind, prop, mret, M_ret, ret.
  simpl. rewrite Hid. simpl. rewrite Hparse. simpl. rewrite Hkey, Htruthy.
  simpl. unfold call. simpl.
  by destruct (provider _ _).
Qed.
End Handler.

End IndexFacts.

(** ** Facts about effects *)
Module EffectFacts.
Import JS Index Effects.

Lemma pure_ret {A} (a : A) : pure (ret a).
Proof. by intros w. Qed.

Lemma pure_throw {A} (e : Error) : pure (@throw World A e).
Proof. by intros w. Qed.

Lemma pure_prop (v : option json) (key : string) : pure (prop v key).
Proof. intros w. unfold prop. by destruct v as [[] |]. Qed.

Lemma pure_destructure (obj : string) (v : option json) (key : string) :
  pure (destructure obj v key).
Proof. intros w. unfold destructure. by destruct v as [[] |]. Qed.

Lemma pure_getConfig : pure getConfig.
Proof. by intros w. Qed.

Lemma pure_bind {A B} (c : M World A) (k : A -> M World B) :
  pure c -> (forall a, pure (k a)) -> pure (bind c k).
Proof.
  intros Hc Hk w. unfold bind. specialize (Hc w).
  destruct (c w) as [[a | e] w1]; simpl in *; subst; [apply Hk | done].
Qed.

Lemma pure_try_catch {A} (c : M World A) (h : Error -> M World A) :
  pure c -> (forall e, pure (h e)) -> pure (try_catch c h).
Proof.
  intros Hc Hh w. unfold try_catch. specialize (Hc w).
  destruct (c w) as [[a | e] w1]; simpl in *; subst; [done | apply Hh].
Qed.

Lemma obj_lookup_absent (fields : list (string * option json)) (key : string) :
  key ∉ fields.*1 -> obj fields !! key = None.
Proof.
  induction fields as [| [k v] fields IH]; simpl; [done |].
  intros [Hk Hin]%not_elem_of_cons. unfold obj in *. simpl.
  destruct v; [rewrite lookup_insert_ne by done |]; by apply IH.
Qed.

(** Reading a property of an object literal whose field names are
    distinct. *)
Lemma obj_lookup (fields : list (string * option json)) (key : string) :
  NoDup fields.*1 -> obj fields !! key = fieldOf key fields.
Proof.
  induction fields as [| [k v] fields IH]; simpl; [done |].
  intros [Hk Hnd]%NoDup_cons. specialize (IH Hnd).
  destruct (String.eqb_spec key k) as [-> | Hne].
  - unfold obj in *. simpl. destruct v; [by rewrite lookup_insert_eq |].
    by apply obj_lookup_absent.
  - unfold obj in *. simpl. destruct v; [rewrite lookup_insert_ne by done |]; done.
Qed.

Ltac distinct_keys := apply (bool_decide_unpack _); by vm_compute.

Section Steps.
Variable R : Config -> Config -> Prop.
Hypothesis R_refl : forall c, R c c.
Hypothesis R_trans : forall a b c, R a b -> R b c -> R a c.

Lemma steps_pure {A} n (c : M World A) : pure c -> steps R n c.
Proof.
  intros Hc w. rewrite (Hc w). split; [done |].
  exists []. rewrite app_nil_r. split; [done | simpl; lia].
Qed.

Lemma steps_weaken {A} n m (c : M World A) :
  (n <= m)%nat -> steps R n c -> steps R m c.
Proof.
  intros Hle Hc w. destruct (Hc w) as (HR & l & Hl & Hn).
  split; [done |]. exists l. split; [done | lia].
Qed.

Lemma steps_bind {A B} n m (c : M World A) (k : A -> M World B) :
  steps R n c -> (forall a, steps R m (k a)) -> steps R (n + m) (bind c k).
Proof.
  intros Hc Hk w. unfold bind. destruct (Hc w) as (HR & l & Hl & Hn).
  destruct (c w) as [[a | e] w1]; simpl in *.
  - destruct (Hk a w1) as (HR' & l' & Hl' & Hm). split; [by eapply R_trans |].
    exists (l ++ l')%list. rewrite Hl', Hl, app_assoc, length_app.
    split; [done | lia].
  - split; [done |]. exists l. split; [done | lia].
Qed.

Lemma steps_bind_pure {A B} n (c : M World A) (k : A -> M World B) :
  pure c -> (forall a, steps R n (k a)) -> steps R n (bind c k).
Proof.
  intros Hc Hk. apply (steps_bind 0 n); [by apply steps_pure | done].
Qed.

Lemma steps_try_catch {A} n m (c : M World A) (h : Error -> M World A) :
  steps R n c -> (forall e, steps R m (h e)) -> steps R (n + m) (try_catch c h).
Proof.
  intros Hc Hh w. unfold try_catch. destruct (Hc w) as (HR & l & Hl & Hn).
  destruct (c w) as [[a | e] w1]; simpl in *.
  - split; [done |]. exists l. split; [done | lia].
  - destruct (Hh e w1) as (HR' & l' & Hl' & Hm). split; [by eapply R_trans |].
    exists (l ++ l')%list. rewrite Hl', Hl, app_assoc, length_app.
    split; [done | lia].
Qed.

Lemma steps_try_catch_pure {A} n (c : M World A) (h : Error -> M World A) :
  steps R n c -> (forall e, pure (h e)) -> steps R n (try_catch c h).
Proof.
  intros Hc Hh. replace n with (n + 0)%nat by lia.
  apply steps_try_catch; [done |]. intros e. by apply steps_pure.
Qed.

Lemma steps_call provider (operation : string) (arguments : list (option json)) :
  steps R 1 (call provider operation arguments).
Proof.
  intros w. unfold call. destruct (provider _ _); simpl;
    (split; [done |]); eexists; (split; [reflexivity | simpl; lia]).
Qed.
End Steps.

Lemma steps_set_cal_apiKey (v : json) : steps anyChange 0 (set_cal_apiKey v).
Proof.
  intros w. split; [done |]. exists []. simpl. by rewrite app_nil_r.
Qed.

(** The provider calls made are those of before, followed by at most
    [n] new ones; with [R := eq] the configuration is the same. *)
Lemma steps_eq_config {A} n (c : M World A) w :
  steps eq n c -> config (c w).2 = config w.
Proof. intros H. by destruct (H w) as [-> _]. Qed.

End EffectFacts.

(** ** The effects of the operations of the dispatcher *)
Module OpEffects.
Import JS Index Effects EffectFacts.

Local Open Scope string_scope.
Local Open Scope Z_scope.

Ltac unfold_monad := unfold mbind, M_bind, mret, M_ret in *.

(** Running a handler on a symbolic request: the monad is unfolded and the
    administrative redexes are reduced, conditions stay as they are. *)
Ltac reduce :=
  cbv beta iota zeta delta [fst snd from_option id spread];
  cbn [negb andb orb].
Ltac exec :=
  unfold prop, destructure, getConfig, call, try_catch, mbind, M_bind, bind,
    mret, M_ret, ret, throw; reduce.

Ltac pure_tac :=
  repeat first
    [ apply pure_ret | apply pure_throw | apply pure_prop
    | apply pure_destructure | apply pure_getConfig
    | apply pure_bind; [| intros ?]
    | apply pure_try_catch; [| intros ?]
    | match goal with |- pure (if ?b then _ else _) => destruct b end
    | match goal with |- pure (match ?x with _ => _ end) => destruct x end ].

Ltac solve_R := solve [intros; first [reflexivity | congruence | exact I]].

Ltac steps_tac :=
  repeat first
    [ apply steps_pure; [solve_R | solve [pure_tac]]
    | apply steps_bind_pure; [solve_R | solve_R | solve [pure_tac] | intros ?]
    | match goal with
      | |- steps _ (S ?p) (bind (call _ _ _) _) =>
          change (S p) with (1 + p)%nat;
          apply steps_bind; [solve_R | apply steps_call; solve_R | intros ?]
      | |- steps _ _ (try_catch _ _) =>
          apply steps_try_catch_pure;
          [solve_R | solve_R | | intros ?; solve [pure_tac]]
      | |- steps _ _ (if ?b then _ else _) => destruct b
      | |- steps _ _ (match ?x with _ => _ end) => destruct x
      end ].

Section Handler.
Variable JSON_parse : json -> Error + json.
Variable parseInt : option json -> option Z.
Variable Date_getTime : option json -> Z.
Variable toISOString : Z -> string.
Variable toNumber : option json -> Z.
Variable toString : option json -> string.
Variable LocalTZA now : Z.
Variable provider : World -> ProviderCall -> Error + json.

Lemma steps_checkAvailability params :
  steps eq 1 (checkAvailability provider params).
Proof. unfold checkAvailability. unfold_monad. steps_tac. Qed.

Lemma steps_createBooking params :
  steps eq 1 (createBooking parseInt Date_getTime toISOString toNumber provider params).
Proof. unfold createBooking. unfold_monad. steps_tac. Qed.

Lemma steps_rescheduleBooking params :
  steps eq 1 (rescheduleBooking Date_getTime toISOString toNumber provider params).
Proof. unfold rescheduleBooking. unfold_monad. steps_tac. Qed.

Lemma steps_cancelBooking params : steps eq 1 (cancelBooking provider params).
Proof. unfold cancelBooking. unfold_monad. steps_tac. Qed.

Lemma steps_getBookingDetails params :
  steps eq 1 (getBookingDetails provider params).
Proof. unfold getBookingDetails. unfold_monad. steps_tac. Qed.

Lemma steps_findAvailability params :
  steps anyChange 1 (findAvailability parseInt provider params).
Proof.
  unfold findAvailability. unfold_monad. steps_tac.
  apply (steps_bind anyChange ltac:(solve_R) 0 1).
  - destruct (truthy _); [apply steps_set_cal_apiKey |].
    apply steps_pure; [solve_R | apply pure_ret].
  - intros _. steps_tac.
Qed.

Lemma steps_getAvailableSlots params :
  steps anyChange 1
    (getAvailableSlots Date_getTime toISOString LocalTZA now provider params).
Proof.
  unfold getAvailableSlots. unfold_monad. steps_tac.
  apply (steps_bind anyChange ltac:(solve_R) 0 1).
  - destruct (_ && _); [apply steps_set_cal_apiKey |].
    apply steps_pure; [solve_R | apply pure_ret].
  - intros _. steps_tac.
Qed.

Lemma steps_initializeAssistant params :
  steps eq 2 (initializeAssistant provider params).
Proof.
  unfold initializeAssistant. unfold_monad. steps_tac.
  apply (steps_bind eq ltac:(solve_R) 2 0).
  - destruct (truthy _); steps_tac.
  - intros ?. steps_tac.
Qed.

Lemma steps_handleTrialStarted body :
  steps eq 2 (handleTrialStarted provider body).
Proof.
  unfold handleTrialStarted. unfold_monad. steps_tac.
  apply (steps_bind eq ltac:(solve_R) 2 0).
  - apply (steps_try_catch eq ltac:(solve_R) 1 1).
    + change 1%nat with (1 + 0)%nat. apply steps_bind; [solve_R | |].
      * apply steps_call. solve_R.
      * intros ?. steps_tac.
    + intros ?. apply steps_try_catch_pure; [solve_R | solve_R | |].
      * change 1%nat with (1 + 0)%nat. apply steps_bind; [solve_R | |].
        -- apply steps_call. solve_R.
        -- intros ?. steps_tac.
      * intros ?. pure_tac.
  - intros [call_ error]. steps_tac.
Qed.

Lemma steps_callFunction functionName parameters :
  steps eq 1
    (callFunction parseInt Date_getTime toISOString toNumber toString provider
       functionName parameters).
Proof.
  unfold callFunction.
  repeat match goal with |- steps _ _ (if ?b then _ else _) => destruct b end;
    first [ apply steps_checkAvailability | apply steps_createBooking
          | apply steps_rescheduleBooking | apply steps_cancelBooking
          | apply steps_getBookingDetails
          | apply steps_pure; [solve_R | apply pure_throw] ].
Qed.

Lemma steps_handleFunctionCall body :
  steps eq 1
    (handleFunctionCall JSON_parse parseInt Date_getTime toISOString toNumber
       toString provider body).
Proof.
  unfold handleFunctionCall. unfold_monad.
  apply steps_try_catch_pure; [solve_R | solve_R | | intros ?; apply pure_ret].
  replace 1%nat with (1 + 0)%nat by done.
  apply steps_bind; [solve_R | apply steps_callFunction |].
  intros ?. apply steps_pure; [solve_R | apply pure_ret].
Qed.

Lemma steps_handleVapiWebhook body :
  steps eq 1
    (handleVapiWebhook JSON_parse parseInt Date_getTime toISOString toNumber
       toString provider body).
Proof.
  unfold handleVapiWebhook. unfold_monad.
  apply steps_bind_pure; [solve_R | solve_R | apply pure_prop |]. intros type.
  apply steps_try_catch_pure; [solve_R | solve_R | | intros ?; apply pure_ret].
  repeat match goal with |- steps _ _ (if ?b then _ else _) => destruct b end;
    first [ apply steps_handleFunctionCall | apply steps_createBooking
          | apply steps_pure; [solve_R | apply pure_ret] ].
Qed.

Lemma pure_resolveAction event body queryParams :
  pure (resolveAction event body queryParams).
Proof. unfold resolveAction. unfold_monad. pure_tac. Qed.

End Handler.
End OpEffects.

(** ** More facts about the date repair *)
Module RepairFacts.
Import JSDate JS CalApi Legacy DateFacts LegacyFacts.

Local Open Scope string_scope.
Local Open Scope Z_scope.

Section Repair.
Variables LocalTZA now : Z.

(** Moving the day of the month by [k] moves the instant by [k] days. *)
Lemma setDate_plus_days d k :
  setDate LocalTZA d (getDate LocalTZA d + k) = d + k * msPerDay.
Proof.
  unfold setDate, getDate, UTC, LocalTime.
  set (t := d + LocalTZA).
  assert (HD : MakeDay (YearFromTime t) (MonthFromTime t) (DateFromTime t + k)
               = Day t + k).
  { rewrite <- (MakeDay_fields t).
    rewrite !MakeDay_in_range by apply MonthFromTime_range. lia. }
  rewrite HD. unfold MakeDate, Day, TimeWithinDay, msPerDay. subst t. lia.
Qed.

Lemma setHours_local d h m :
  LocalTime LocalTZA (setHours LocalTZA d h m 0 0)
  = MakeDate (Day (LocalTime LocalTZA d)) (MakeTime h m 0 0).
Proof. unfold setHours. by rewrite LocalTime_UTC. Qed.

Lemma HourFromTime_range t : 0 <= HourFromTime t <= 23.
Proof. unfold HourFromTime. lia. Qed.

Lemma MinFromTime_range t : 0 <= MinFromTime t <= 59.
Proof. unfold MinFromTime. lia. Qed.

(** The repair of a start that is not from a past year. *)
Lemma adjustedDate_this_year start :
  isPastYear LocalTZA now start = false ->
  let r := adjustedDate LocalTZA now start in
  Day (LocalTime LocalTZA r) = Day (LocalTime LocalTZA now) + 1
  /\ getHours LocalTZA r = getHours LocalTZA start
  /\ getMinutes LocalTZA r = getMinutes LocalTZA start
  /\ SecFromTime (LocalTime LocalTZA r) = 0
  /\ msFromTime (LocalTime LocalTZA r) = 0
  /\ now < r < now + 2 * msPerDay.
Proof.
  intros Hpy r. subst r. unfold adjustedDate. rewrite Hpy.
  rewrite setDate_plus_days.
  unfold getHours, getMinutes. rewrite setHours_local.
  set (h := HourFromTime (LocalTime LocalTZA start)).
  set (m := MinFromTime (LocalTime LocalTZA start)).
  pose proof (HourFromTime_range (LocalTime LocalTZA start)) as Hh.
  pose proof (MinFromTime_range (LocalTime LocalTZA start)) as Hm.
  fold h in Hh. fold m in Hm.
  assert (Hday : Day (LocalTime LocalTZA (now + 1 * msPerDay))
                 = Day (LocalTime LocalTZA now) + 1).
  { unfold Day, LocalTime, msPerDay. lia. }
  rewrite Hday.
  unfold setHours. rewrite Hday.
  unfold SecFromTime, msFromTime, HourFromTime, MinFromTime, MakeDate, MakeTime,
    UTC, LocalTime, Day, msPerDay, msPerHour, msPerMinute, msPerSecond in *.
  repeat split; lia.
Qed.

(** The repair fires exactly for a start that is not after now: a start
    from a past year is before now. *)
Lemma repair_fires start :
  isPastYear LocalTZA now start || isPastDate now start = (start <=? now).
Proof.
  unfold isPastYear, isPastDate.
  destruct (Z.ltb_spec (getFullYear LocalTZA start) (getFullYear LocalTZA now))
    as [Hlt | Hge]; [| done].
  apply later_year_later in Hlt. cbn [orb]. symmetry. apply Z.leb_le. lia.
Qed.

(** Whichever way the repair goes, the repaired start is after now. *)
Lemma adjustedDate_future start : now < adjustedDate LocalTZA now start.
Proof.
  destruct (isPastYear LocalTZA now start) eqn:Hpy.
  - apply adjustedDate_past_year. unfold isPastYear in Hpy. by apply Z.ltb_lt.
  - by apply adjustedDate_this_year.
Qed.

(** The repair block throws exactly on a start that is not after now
    together with an end that is no date. *)
Lemma repairThrows_iff (params : BookingParams) (start : Z) :
  repairThrows LocalTZA now params start (endTime params) = false
  <-> (now < start \/ endTime params <> Some NotADate).
Proof.
  unfold repairThrows. rewrite repair_fires.
  destruct (Z.leb_spec start now) as [Hle | Hgt];
    destruct (endTime params) as [[] |];
    cbn [andb]; split; intros Hx; try done; try (right; done);
    try (left; lia); destruct Hx; [lia | done].
Qed.

Lemma dateRepair_start params (start : Z) e :
  startTime params = Some (Instant start) ->
  startTime (dateRepair LocalTZA now params start e)
  = Some (Instant (if start <=? now then adjustedDate LocalTZA now start
                   else start)).
Proof.
  intros Hs. rewrite <- repair_fires.
  destruct (isPastYear LocalTZA now start || isPastDate now start) eqn:E.
  - by apply dateRepair_startTime.
  - by rewrite dateRepair_untouched.
Qed.
End Repair.

End RepairFacts.

(** ** More facts about the dispatcher *)
Module DispatcherFacts.
Import JS Index Effects EffectFacts OpEffects IndexFacts.

Local Open Scope string_scope.
Local Open Scope Z_scope.

Lemma isStr_true (v : option json) (s : string) :
  isStr v s = true -> v = Some (JStr s).
Proof.
  destruct v as [[] |]; simpl; try done.
  by intros ->%String.eqb_eq.
Qed.

Lemma steps_relax {A} (R R' : Config -> Config -> Prop) n (c : M World A) :
  (forall a b, R a b -> R' a b) -> steps R n c -> steps R' n c.
Proof.
  intros HR Hc w. destruct (Hc w) as (H & l & Hl & Hn).
  split; [by apply HR | by exists l].
Qed.

Section Handler.
Variable JSON_parse : json -> Error + json.
Variable parseInt : option json -> option Z.
Variable Date_getTime : option json -> Z.
Variable toISOString : Z -> string.
Variable toNumber : option json -> Z.
Variable toString : option json -> string.
Variable LocalTZA now : Z.
Variable provider : World -> ProviderCall -> Error + json.

Abbreviation handler_ :=
  (handler JSON_parse parseInt Date_getTime toISOString toNumber toString
     LocalTZA now provider).
Abbreviation route_ :=
  (route JSON_parse parseInt Date_getTime toISOString toNumber toString
     LocalTZA now provider).

Ltac steps_of_operation :=
  lazymatch goal with
  | |- steps _ _ (initializeAssistant _ _) => apply steps_initializeAssistant
  | |- steps _ _ (handleTrialStarted _ _) => apply steps_handleTrialStarted
  | |- steps _ _ (handleVapiWebhook _ _ _ _ _ _ _ _) => apply steps_handleVapiWebhook
  | |- steps _ _ (checkAvailability _ _) => apply steps_checkAvailability
  | |- steps _ _ (findAvailability _ _ _) => apply steps_findAvailability
  | |- steps _ _ (getAvailableSlots _ _ _ _ _ _) => apply steps_getAvailableSlots
  | |- steps _ _ (createBooking _ _ _ _ _ _) => apply steps_createBooking
  | |- steps _ _ (rescheduleBooking _ _ _ _ _) => apply steps_rescheduleBooking
  | |- steps _ _ (cancelBooking _ _) => apply steps_cancelBooking
  | |- steps _ _ (getBookingDetails _ _) => apply steps_getBookingDetails
  end.

Lemma steps_route action params : steps anyChange 2 (route_ action params).
Proof.
  unfold route.
  repeat match goal with |- steps _ _ (if ?b then _ else _) => destruct b end;
    lazymatch goal with
    | |- steps _ _ (throw _) => apply steps_pure; [solve_R | apply pure_throw]
    | |- steps _ _ (findAvailability _ _ _) =>
        apply (steps_weaken _ 1); [lia | steps_of_operation]
    | |- steps _ _ (getAvailableSlots _ _ _ _ _ _) =>
        apply (steps_weaken _ 1); [lia | steps_of_operation]
    | |- steps _ _ (initializeAssistant _ _) =>
        apply (steps_relax eq); [done | steps_of_operation]
    | |- steps _ _ (handleTrialStarted _ _) =>
        apply (steps_relax eq); [done | steps_of_operation]
    | |- _ =>
        apply (steps_weaken _ 1); [lia |];
        apply (steps_relax eq); [done | steps_of_operation]
    end.
Qed.

(** Apart from the two handlers that store the caller's API key, a routed
    operation leaves the configuration as it was. *)
Lemma route_config action params w :
  isStr (Some action) "findAvailability" = false ->
  isStr (Some action) "getAvailableSlots" = false ->
  config (route_ action params w).2 = config w.
Proof.
  intros E1 E2. unfold route. rewrite E1, E2.
  repeat match goal with |- context [if ?b then _ else _] => destruct b end;
    lazymatch goal with
    | |- config (throw _ _).2 = _ => reflexivity
    | |- config (initializeAssistant _ _ _).2 = _ =>
        apply (steps_eq_config 2); steps_of_operation
    | |- config (handleTrialStarted _ _ _).2 = _ =>
        apply (steps_eq_config 2); steps_of_operation
    | |- _ => apply (steps_eq_config 1); steps_of_operation
    end.
Qed.

Lemma steps_handler event : steps anyChange 2 (handler_ event).
Proof.
  unfold handler. unfold_monad.
  apply steps_try_catch_pure; [solve_R | solve_R | | intros ?; apply pure_ret].
  destruct (bool_decide _); [apply steps_pure; [solve_R | apply pure_ret] |].
  apply steps_bind_pure; [solve_R | solve_R | apply pure_resolveAction |].
  intros action. replace 2%nat with (2 + 0)%nat by done.
  apply steps_bind; [solve_R | apply steps_route |].
  intros ?. apply steps_pure; [solve_R | apply pure_ret].
Qed.

Abbreviation handleVapiWebhook_ :=
  (handleVapiWebhook JSON_parse parseInt Date_getTime toISOString toNumber
     toString provider).

(** Webhook events other than function and tool calls (transcripts,
    status updates, anything unrecognised) are acknowledged with 200 and
    [{success: true}]; a tool call for a tool other than [booking] is
    refused with 400.  Neither reaches the provider. *)
Lemma handleVapiWebhook_other_events (body : gmap string json) (w : World) :
  (isStr (body !! "type") "function" = false ->
   isStr (body !! "type") "function-call" = false ->
   isStr (body !! "type") "tool" = false ->
   handleVapiWebhook_ (Some (JObj body)) w = (Return acknowledged, w))
  /\ (isStr (body !! "type") "tool" = true ->
      isStr (optProp (body !! "tool") "name") "booking" = false ->
      handleVapiWebhook_ (Some (JObj body)) w
      = (Return (json_response 400
                   [ ("success", Some (JBool false));
                     ("error",
                      Some (JStr (String.append "Unknown tool: "
                                    (toString (optProp (body !! "tool") "name"))))) ]),
         w)).
Proof.
  split.
  - intros H1 H2 H3. unfold handleVapiWebhook. exec.
    rewrite H1, H2, H3. cbn [orb].
    by repeat destruct (isStr _ _).
  - intros H1 H2. unfold handleVapiWebhook. exec.
    assert (isStr (body !! "type") "function" = false) as ->.
    { apply isStr_true in H1. by rewrite H1. }
    assert (isStr (body !! "type") "function-call" = false) as ->.
    { apply isStr_true in H1. by rewrite H1. }
    cbn [orb]. rewrite H1.
    change (optProp (Some (JObj body)) "tool") with (body !! "tool").
    by rewrite H2.
Qed.

(** With no path segment and no [action]
    query parameter, a truthy [action] of the body is the action, and a body
    without one is taken for a voice-platform webhook.  A body that is the
    JSON value [null] makes the resolution throw. *)
Lemma resolveAction_from_body (event : Event) (body : json)
    (queryParams : gmap string string) (w : World) :
  lastPathPart event = "" ->
  path event <> Some "/createBooking" ->
  truthyS (queryParams !! "action") = false ->
  (forall action, optProp (Some body) "action" = Some action ->
     truthy (Some action) = true ->
     resolveAction event body queryParams w = (Return action, w))
  /\ (body <> JNull -> truthy (optProp (Some body) "action") = false ->
      resolveAction event body queryParams w
      = (Return (JStr "handleVapiWebhook"), w))
  /\ (body = JNull ->
      resolveAction event body queryParams w
      = (Throw (TypeError "Cannot read properties of null (reading 'action')"),
         w)).
Proof.
  intros Hl Hp Hq. unfold resolveAction. rewrite Hl, Hq.
  rewrite bool_decide_eq_false_2 by done.
  cbn [String.eqb orb negb]. repeat split.
  - intros action Ha Ht. destruct body; try done. exec.
    simpl in Ha. rewrite Ha, Ht. reflexivity.
  - intros Hn Ht. destruct body; try done; exec; try reflexivity.
    simpl in Ht. by rewrite Ht.
  - intros ->. reflexivity.
Qed.

End Handler.

End DispatcherFacts.

(** ** What a function call of the voice platform runs *)
Module FunctionCallFacts.
Import JS Index Effects EffectFacts OpEffects IndexFacts DispatcherFacts.

Local Open Scope string_scope.
Local Open Scope Z_scope.

Lemma succeeds_throw (e : Error) : succeeds (throw e).
Proof. intros w r w' H. discriminate H. Qed.

Lemma succeeds_ret (r : Response) : reportsSuccess r -> succeeds (ret r).
Proof. intros Hr w r' w' [= <- _]. exact Hr. Qed.

Lemma succeeds_bind {A} (c : M World A) (k : A -> M World Response) :
  (forall a, succeeds (k a)) -> succeeds (bind c k).
Proof.
  intros Hk w r w' H. unfold bind in H.
  destruct (c w) as [[a | e] w1]; [by apply (Hk a w1 r w') | discriminate H].
Qed.

Lemma succeeds_try_catch (c : M World Response) (h : Error -> M World Response) :
  succeeds c -> (forall e, succeeds (h e)) -> succeeds (try_catch c h).
Proof.
  intros Hc Hh w r w' H. unfold try_catch in H.
  destruct (c w) as [[a | e] w1] eqn:E.
  - injection H as <- <-. by apply (Hc w a w1).
  - by apply (Hh e w1 r w').
Qed.

Lemma reportsSuccess_json (fields : list (string * option json)) :
  NoDup fields.*1 -> fieldOf "success" fields = Some (JBool true) ->
  reportsSuccess (json_response 200 fields).
Proof.
  intros Hnd Hf. split; [done |]. cbn [json_response response_body optProp].
  by rewrite obj_lookup.
Qed.

Ltac succeeds_tac :=
  repeat first
    [ apply succeeds_throw
    | apply succeeds_bind; intros ?
    | apply succeeds_try_catch; [| intros ?]
    | apply succeeds_ret; apply reportsSuccess_json; [distinct_keys | reflexivity]
    | match goal with |- succeeds (if ?b then _ else _) => destruct b end
    | match goal with |- succeeds (match ?x with _ => _ end) => destruct x end ].

(** An operation that hands what it catches to [handleError] returns in
    every case: its own result, or the error result. *)
Lemma caught_outcome (c : M World Response) (w : World) :
  succeeds c ->
  exists result w1,
    try_catch c (fun error => mret (handleError error)) w = (Return result, w1)
    /\ (reportsSuccess result \/ exists e, result = handleError e).
Proof.
  intros Hc. unfold try_catch. destruct (c w) as [[r | e] w1] eqn:E.
  - exists r, w1. split; [done |]. left. by apply (Hc w r w1).
  - exists (handleError e), w1. split; [done |]. right. by exists e.
Qed.

(** The body of an error result. *)
Lemma handleError_body (e : Error) :
  let body := Some (response_body (handleError e)) in
  optProp body "success" = Some (JBool false)
  /\ optProp body "error"
     = Some (JStr (if String.eqb (message e) "" then "An unknown error occurred"
                   else message e))
  /\ optProp body "alternativeSlots" = None.
Proof.
  cbn [handleError response_body optProp].
  rewrite !obj_lookup by distinct_keys. done.
Qed.

Section Handler.
Variable parseInt : option json -> option Z.
Variable Date_getTime : option json -> Z.
Variable toISOString : Z -> string.
Variable toNumber : option json -> Z.
Variable toString : option json -> string.
Variable provider : World -> ProviderCall -> Error + json.

Abbreviation callFunction_ :=
  (callFunction parseInt Date_getTime toISOString toNumber toString provider).

Lemma checkAvailability_outcome params w :
  exists result w1,
    checkAvailability provider params w = (Return result, w1)
    /\ (reportsSuccess result \/ exists e, result = handleError e).
Proof.
  unfold checkAvailability. unfold_monad. apply caught_outcome. succeeds_tac.
Qed.

Lemma createBooking_outcome params w :
  exists result w1,
    createBooking parseInt Date_getTime toISOString toNumber provider params w
    = (Return result, w1)
    /\ (reportsSuccess result \/ exists e, result = handleError e).
Proof.
  unfold createBooking, bookingCreated. unfold_monad. apply caught_outcome.
  succeeds_tac.
Qed.

(** What is reported for such a result is its body. *)
Lemma functionResponse_body (functionName : option json) (result : Response) :
  reportsSuccess result \/ (exists e, result = handleError e) ->
  functionResponse functionName result = Some (response_body result).
Proof.
  unfold functionResponse. intros [[Hs _] | [e ->]].
  - rewrite Hs. cbn [Z.eqb Pos.eqb]. by rewrite andb_false_r.
  - destruct (handleError_body e) as (_ & _ & ->). cbn [truthy].
    by rewrite andb_false_r.
Qed.

(** The [switch] of lines 415-433, case by case. *)
Lemma callFunction_named (functionName parameters : option json) :
  (isStr functionName "checkAvailability" = true ->
   callFunction_ functionName parameters = checkAvailability provider parameters)
  /\ (isStr functionName "createBooking" = true ->
      callFunction_ functionName parameters
      = createBooking parseInt Date_getTime toISOString toNumber provider
          parameters)
  /\ (isStr functionName "rescheduleBooking" = true ->
      callFunction_ functionName parameters
      = rescheduleBooking Date_getTime toISOString toNumber provider parameters)
  /\ (isStr functionName "cancelBooking" = true ->
      callFunction_ functionName parameters = cancelBooking provider parameters)
  /\ (isStr functionName "getBookingDetails" = true ->
      callFunction_ functionName parameters
      = getBookingDetails provider parameters).
Proof.
  repeat split; intros ->%isStr_true; reflexivity.
Qed.

Lemma callFunction_unknown (functionName parameters : option json) (w : World) :
  isStr functionName "checkAvailability" = false ->
  isStr functionName "createBooking" = false ->
  isStr functionName "rescheduleBooking" = false ->
  isStr functionName "cancelBooking" = false ->
  isStr functionName "getBookingDetails" = false ->
  callFunction_ functionName parameters w
  = (Throw (ValidationError ("Unknown function: " +:+ toString functionName)
              "function"), w).
Proof. intros H1 H2 H3 H4 H5. unfold callFunction. by rewrite H1, H2, H3, H4, H5. Qed.

(** [checkAvailability] on a request without a start date. *)
Lemma callFunction_no_start_date (functionName : option json)
    (p : gmap string json) (w : World) :
  isStr functionName "checkAvailability" = true ->
  truthy (p !! "startDate") = false ->
  callFunction_ functionName (Some (JObj p)) w
  = (Return (handleError (ValidationError "Start date is required" "startDate")),
     w).
Proof.
  intros H Hs.
  destruct (callFunction_named functionName (Some (JObj p))) as (Hc & _).
  rewrite (Hc H). unfold checkAvailability. exec. by rewrite Hs.
Qed.

(** The three operations that catch nothing, on a request they reject. *)
Lemma callFunction_rejects (functionName parameters : option json) (w : World) :
  isStr functionName "rescheduleBooking" = true
  \/ isStr functionName "cancelBooking" = true
  \/ isStr functionName "getBookingDetails" = true ->
  (parameters = None ->
   callFunction_ functionName parameters w
   = (Throw (TypeError "Cannot destructure property 'bookingId' of 'params' as it is undefined."),
      w))
  /\ (parameters = Some JNull ->
      callFunction_ functionName parameters w
      = (Throw (TypeError "Cannot destructure property 'bookingId' of 'params' as it is null."),
         w))
  /\ (forall p, parameters = Some (JObj p) -> truthy (p !! "bookingId") = false ->
      callFunction_ functionName parameters w = (Throw missingParameters, w)).
Proof.
  destruct (callFunction_named functionName parameters)
    as (_ & _ & Hr & Hc & Hg).
  intros [H | [H | H]];
    [rewrite (Hr H); unfold rescheduleBooking
    | rewrite (Hc H); unfold cancelBooking
    | rewrite (Hg H); unfold getBookingDetails];
    (repeat split; [intros -> | intros -> | intros p -> Hb]; exec;
     rewrite ?Hb; reflexivity).
Qed.

(** The same operations, with a booking id, when the provider fails. *)
Lemma callFunction_provider_error (functionName : option json)
    (p : gmap string json) (w : World) (error : Error) :
  truthy (p !! "bookingId") = true ->
  let request operation arguments :=
    {| operation := operation; arguments := arguments |} in
  let failed (c : ProviderCall) :=
    provider w c = inl error ->
    callFunction_ functionName (Some (JObj p)) w
    = (Throw error, {| config := config w; calls := calls w ++ [c] |}) in
  (isStr functionName "cancelBooking" = true ->
   failed (request "calApi.cancelBooking"
             [ p !! "bookingId";
               Some (JObj (obj [ ("reason",
                                  or_else (p !! "reason")
                                    (Some (JStr "Cancelled by user"))) ])) ]))
  /\ (isStr functionName "getBookingDetails" = true ->
      failed (request "calApi.getBooking" [p !! "bookingId"]))
  /\ (isStr functionName "rescheduleBooking" = true ->
      truthy (p !! "startTime") = true -> truthy (p !! "endTime") = true ->
      truthy (p !! "timeZone") = true ->
      failed (request "calApi.rescheduleBooking"
                [ p !! "bookingId";
                  Some (JObj (obj [ ("startTime", p !! "startTime");
                                    ("endTime", p !! "endTime");
                                    ("timeZone", p !! "timeZone") ])) ])).
Proof.
  intros Hb request failed. subst request failed.
  destruct (callFunction_named functionName (Some (JObj p)))
    as (_ & _ & Hr & Hc & Hg).
  repeat split.
  - intros H Hfail. rewrite (Hc H). unfold cancelBooking. exec.
    rewrite Hb. reduce. by rewrite Hfail.
  - intros H Hfail. rewrite (Hg H). unfold getBookingDetails. exec.
    rewrite Hb. reduce. by rewrite Hfail.
  - intros H Hs He Htz Hfail. rewrite (Hr H). unfold rescheduleBooking. exec.
    rewrite Hb, Hs, Htz. reduce. rewrite He. by rewrite Hfail.
Qed.
End Handler.

End FunctionCallFacts.

(** * The properties of the specification *)

(** ** Booking orchestrator *)
Module BookingClaims.
Import JSDate JS CalApi Legacy DateFacts SlotFacts LegacyFacts RepairFacts.

Local Open Scope string_scope.
Local Open Scope Z_scope.

(** C1 (defect in the code).  The claim: the pre-flight availability query
    covers the day before to the day after the start date as it stands
    after the date repair.  On a request for 2023-01-01T10:00Z received on
    2025-06-01 the repair moves [params.startTime] to 2026-01-01T10:00Z,
    yet [createBooking] asks the provider for 2022-12-31 to 2023-01-02:
    the window is computed from the [startTime] constant destructured
    before the repair.  A window around the repaired date would be
    2025-12-31 to 2026-01-02. *)
Theorem preflight_window_uses_unrepaired_start :
  let run :=
    createBooking 0 Sample.now Sample.created "2077162" Sample.nothingFree Sample.formatNone
      (Sample.legacyRequest Sample.pastStart None) [] in
  startTime run.1.2 = Some (Instant Sample.repairedStart)
  /\ run.2
     = [ GetAvailability "2077162"
           {| iso_year := 2022; iso_month := 12; iso_day := 31 |}
           {| iso_year := 2023; iso_month := 1; iso_day := 2 |} "UTC" ]
  /\ dayAround 0 Sample.repairedStart (-1)
     = {| iso_year := 2025; iso_month := 12; iso_day := 31 |}
  /\ dayAround 0 Sample.repairedStart 1
     = {| iso_year := 2026; iso_month := 1; iso_day := 2 |}.
Proof. vm_compute. repeat split; reflexivity. Qed.

(** C2 (defect in the code).  The claim: a supplied end time is shifted
    by the offset applied to the start time.  On the same request with an
    end time of 10:30 the start moves forward by three years while
    [params.endTime] is left at 2023-01-01T10:30Z: [timeDiff] is taken
    against [bookingDate] after it has been overwritten with the adjusted
    date. *)
Theorem repaired_end_time_not_shifted :
  let params := Sample.legacyRequest Sample.pastStart (Some Sample.pastEnd) in
  let run :=
    createBooking 0 Sample.now Sample.created "2077162" Sample.nothingFree Sample.formatNone
      params [] in
  startTime run.1.2 = Some (Instant Sample.repairedStart)
  /\ endTime run.1.2 = Some (Instant Sample.pastEnd)
  /\ Sample.repairedStart - Sample.pastStart = 94694400000
  /\ Sample.pastEnd - Sample.pastEnd = 0.
Proof. vm_compute. repeat split; reflexivity. Qed.

(** C4 as stated fails: when the provider reports no free slot around
    the requested date, the conflict response carries an empty
    [alternativeSlots] array. *)
Lemma conflict_with_no_alternatives :
  let run :=
    createBooking 0 Sample.now Sample.created "2077162" Sample.nothingFree Sample.formatNone
      (Sample.legacyRequest Sample.futureStart None) [] in
  isTimeSlotAvailable (Sample.formatNone (JArr [])) Sample.futureStart = false
  /\ run.1.1
     = Return {| statusCode := 409;
                 body := Conflict false "Requested time slot is not available" []
                           "The requested time slot is not available. Please choose from the alternative slots provided." |}.
Proof. vm_compute. split; reflexivity. Qed.

(** C4, amended.  When the request passes validation and the pre-flight
    check finds the requested start time unavailable, [createBooking]
    answers 409 with [success: false] and, as [alternativeSlots], the
    ranked alternatives among the slots returned by that same query: at
    most five, and none exactly when the query returned no slot.  No
    booking is attempted. *)
Theorem conflict_on_unavailable (LocalTZA now created : Z)
    (config_eventTypeId : string)
    (calApi : list ProviderCall -> ProviderCall -> Error + json)
    (formatAvailabilityForVoice : json -> list Slot)
    (params : BookingParams) (trace : list ProviderCall)
    (start : Z) (tz : string) (availability : json) :
  truthyS (name params) = true ->
  truthyS (email params) = true ->
  startTime params = Some (Instant start) ->
  (now < start \/ endTime params <> Some NotADate) ->
  timeZone params = Some tz -> tz <> "" ->
  let query :=
    GetAvailability
      (if truthyS (eventTypeId params) then default "" (eventTypeId params)
       else config_eventTypeId)
      (dayAround LocalTZA start (-1)) (dayAround LocalTZA start 1) tz in
  calApi trace query = inr availability ->
  isTimeSlotAvailable (formatAvailabilityForVoice availability) start = false ->
  let alternatives :=
    findAlternativeTimeSlots (formatAvailabilityForVoice availability) start 5 in
  exists response params',
    createBooking LocalTZA now created config_eventTypeId calApi
      formatAvailabilityForVoice params trace
    = (Return response, params', (trace ++ [query])%list)
    /\ statusCode response = 409
    /\ success_of (body response) = false
    /\ alternativeSlots_of (body response) = Some alternatives
    /\ (length alternatives <= 5)%nat
    /\ (alternatives = [] <-> formatAvailabilityForVoice availability = []).
Proof.
  intros Hname Hemail Hstart Hend Htz Htz' query Hreply Hbusy alternatives.
  unfold createBooking. rewrite Hstart, Htz.
  destruct (name params) as [n |] eqn:En; [| done].
  destruct (email params) as [e |] eqn:Ee; [| done].
  simpl in Hname, Hemail.
  apply negb_true_iff in Hname, Hemail. rewrite Hname, Hemail.
  apply String.eqb_neq in Htz'. rewrite Htz'. simpl.
  apply (repairThrows_iff LocalTZA now) in Hend. rewrite Hend.
  destruct (dateRepair_frame LocalTZA now params start (endTime params))
    as (_ & _ & _ & Hevt).
  simpl in Hevt. rewrite Hevt.
  unfold try_catch, attempt, mbind, M_bind, bind, call. fold query.
  rewrite Hreply. simpl. rewrite Hbusy. simpl.
  eexists _, _. split; [reflexivity |]. simpl.
  repeat split; try done.
  - apply findAlternativeTimeSlots_length.
  - apply findAlternativeTimeSlots_nil.
  - apply findAlternativeTimeSlots_nil.
Qed.

Lemma conflict_on_unavailable_witness :
  exists response params',
    createBooking 0 Sample.now Sample.created "2077162" Sample.nothingFree Sample.formatThree
      (Sample.legacyRequest Sample.futureStart None) []
    = (Return response, params',
       ([] ++ [ GetAvailability "2077162" (dayAround 0 Sample.futureStart (-1))
                  (dayAround 0 Sample.futureStart 1) "UTC" ])%list)
    /\ statusCode response = 409
    /\ success_of (body response) = false
    /\ alternativeSlots_of (body response)
       = Some (findAlternativeTimeSlots (Sample.formatThree (JArr []))
                 Sample.futureStart 5)
    /\ (length (findAlternativeTimeSlots (Sample.formatThree (JArr []))
                  Sample.futureStart 5) <= 5)%nat
    /\ (findAlternativeTimeSlots (Sample.formatThree (JArr [])) Sample.futureStart 5
        = [] <-> Sample.formatThree (JArr []) = []).
Proof.
  apply (conflict_on_unavailable 0 Sample.now Sample.created "2077162"
           Sample.nothingFree Sample.formatThree
           (Sample.legacyRequest Sample.futureStart None) []
           Sample.futureStart "UTC" (JArr []));
    try reflexivity; try discriminate.
  right. discriminate.
Defined.

(** C5 as stated fails: a start on 29 February 2024, repaired on
    2025-06-01, lands on 1 March 2026; month and day are not kept. *)
Lemma leap_day_repair_changes_month_and_day :
  let repaired := adjustedDate 0 Sample.now Sample.leapDayStart in
  getFullYear 0 Sample.leapDayStart < getFullYear 0 Sample.now
  /\ startTime (dateRepair 0 Sample.now
                  (Sample.legacyRequest Sample.leapDayStart None)
                  Sample.leapDayStart None) = Some (Instant repaired)
  /\ (getMonth 0 Sample.leapDayStart, getDate 0 Sample.leapDayStart) = (1, 29)
  /\ (getFullYear 0 repaired, getMonth 0 repaired, getDate 0 repaired)
     = (2026, 2, 1).
Proof. vm_compute. repeat split; reflexivity. Qed.

(** C5, amended.  Dates are read in a local time at a constant offset
    from UTC.  For a requested start time whose year is before the current
    year, the repaired start date is in the current year, or in the next
    one exactly when the date carried into the current year is not after
    now; it is after now; hour and minute are those requested; month and
    day are those requested unless the request is for 29 February.  A
    start on 29 February stays on 29 February exactly when the current
    year is a leap year and its 29 February, at the requested time of
    day, is still after now; in every other case it is moved to
    1 March. *)
Theorem past_year_repair (LocalTZA now : Z) (params : BookingParams)
    (start : Z) (e : option DateText) :
  getFullYear LocalTZA start < getFullYear LocalTZA now ->
  exists repaired,
    startTime (dateRepair LocalTZA now params start e) = Some (Instant repaired)
    /\ getFullYear LocalTZA now <= getFullYear LocalTZA repaired
       <= getFullYear LocalTZA now + 1
    /\ (getFullYear LocalTZA repaired = getFullYear LocalTZA now + 1
        <-> setFullYear LocalTZA start (getFullYear LocalTZA now) <= now)
    /\ now < repaired
    /\ getHours LocalTZA repaired = getHours LocalTZA start
    /\ getMinutes LocalTZA repaired = getMinutes LocalTZA start
    /\ (~ (getMonth LocalTZA start = 1 /\ getDate LocalTZA start = 29) ->
        getMonth LocalTZA repaired = getMonth LocalTZA start
        /\ getDate LocalTZA repaired = getDate LocalTZA start)
    /\ (getMonth LocalTZA start = 1 /\ getDate LocalTZA start = 29 ->
        (getMonth LocalTZA repaired, getDate LocalTZA repaired)
        = if isLeap (getFullYear LocalTZA now)
             && (now <? setFullYear LocalTZA start (getFullYear LocalTZA now))
          then (1, 29) else (2, 1)).
Proof.
  intros Hpast. exists (adjustedDate LocalTZA now start). split.
  - apply dateRepair_startTime. unfold isPastYear.
    apply Z.ltb_lt in Hpast. by rewrite Hpast.
  - pose proof (adjustedDate_past_year LocalTZA now start Hpast) as H.
    cbv zeta in H. destruct H as (H1 & H2 & H3 & H4 & H5 & H6).
    repeat (split; [assumption |]).
    intros [Hm Hd]. by apply adjustedDate_leap_day.
Qed.

Lemma past_year_repair_witness :
  exists repaired,
    startTime (dateRepair 0 Sample.now
                 (Sample.legacyRequest Sample.leapDayStart None)
                 Sample.leapDayStart None) = Some (Instant repaired)
    /\ getFullYear 0 Sample.now <= getFullYear 0 repaired
       <= getFullYear 0 Sample.now + 1
    /\ (getFullYear 0 repaired = getFullYear 0 Sample.now + 1
        <-> setFullYear 0 Sample.leapDayStart (getFullYear 0 Sample.now)
            <= Sample.now)
    /\ Sample.now < repaired
    /\ getHours 0 repaired = getHours 0 Sample.leapDayStart
    /\ getMinutes 0 repaired = getMinutes 0 Sample.leapDayStart
    /\ (~ (getMonth 0 Sample.leapDayStart = 1 /\ getDate 0 Sample.leapDayStart = 29) ->
        getMonth 0 repaired = getMonth 0 Sample.leapDayStart
        /\ getDate 0 repaired = getDate 0 Sample.leapDayStart)
    /\ (getMonth 0 Sample.leapDayStart = 1 /\ getDate 0 Sample.leapDayStart = 29 ->
        (getMonth 0 repaired, getDate 0 repaired)
        = if isLeap (getFullYear 0 Sample.now)
             && (Sample.now <? setFullYear 0 Sample.leapDayStart
                                 (getFullYear 0 Sample.now))
          then (1, 29) else (2, 1)).
Proof.
  apply (past_year_repair 0 Sample.now
           (Sample.legacyRequest Sample.leapDayStart None)
           Sample.leapDayStart None).
  vm_compute. reflexivity.
Defined.

(** A start on 29 February 2020 repaired on 2024-01-15 stays on
    29 February, of 2024; repaired on 2023-06-01 it is moved to
    1 March 2024, although 2024 is a leap year. *)
Example leap_day_repair_in_a_leap_year :
  let kept := adjustedDate 0 Sample.januaryNow Sample.leapDay2020 in
  let moved := adjustedDate 0 Sample.june2023 Sample.leapDay2020 in
  (getFullYear 0 kept, getMonth 0 kept, getDate 0 kept) = (2024, 1, 29)
  /\ (getFullYear 0 moved, getMonth 0 moved, getDate 0 moved) = (2024, 2, 1).
Proof. vm_compute. split; reflexivity. Qed.

End BookingClaims.

(** ** Dispatcher *)
Module DispatcherClaims.
Import JS Index IndexFacts Effects FunctionCallFacts.

Local Open Scope string_scope.
Local Open Scope Z_scope.

(** C6 as stated fails: a key that the body carries with an empty string
    is overwritten by the query parameter of the same name. *)
Lemma falsy_body_value_overwritten :
  let body : gmap string json := <["startDate" := JStr ""]> ∅ in
  let queryParams : gmap string string := <["startDate" := "2024-01-08"]> ∅ in
  body !! "startDate" = Some (JStr "")
  /\ buildParams (JObj body) (JStr "checkAvailability") queryParams !! "startDate"
     = Some (JStr "2024-01-08").
Proof. vm_compute. split; reflexivity. Qed.

(** C6, amended.  For a body that is an object, [params] starts as a copy
    of it, receives the resolved action when the body has no truthy
    [action], and then takes a query-string key exactly when
    [params[key]] is falsy.  A key that the body carries with a truthy
    value is never overwritten.  A key that the body carries with a falsy
    value (empty string, 0, false, null) takes the query parameter's
    value when there is one.  A key that is absent from the body takes
    the query parameter's value, unless it names a member of
    [Object.prototype] ([toString], [constructor], [__proto__] and the
    like): that member is what [params[key]] reads, it is truthy, and the
    query parameter is not copied. *)
Theorem query_fills_falsy_keys (body : gmap string json) (action : json)
    (queryParams : gmap string string) (key : string) :
  let params := buildParams (JObj body) action queryParams in
  (truthy (body !! key) = true -> params !! key = body !! key)
  /\ (forall v, key <> "action" ->
        body !! key = Some v -> truthy (Some v) = false ->
        params !! key = match queryParams !! key with
                        | Some q => Some (JStr q)
                        | None => Some v
                        end)
  /\ (key <> "action" -> body !! key = None -> key ∉ objectPrototype ->
      params !! key = JStr <$> queryParams !! key)
  /\ (body !! key = None -> key ∈ objectPrototype -> params !! key = None)
  /\ (truthy (body !! "action") = false -> truthy (Some action) = true ->
      params !! "action" = Some action).
Proof.
  intros params. subst params. unfold buildParams.
  cbv beta iota zeta delta [spread].
  repeat split.
  - intros T. rewrite mergeQueryParams_lookup.
    assert (Hk : forall m : gmap string json,
               m !! key = body !! key -> falsyAt m key = false).
    { intros m Hm. unfold falsyAt. rewrite Hm.
      destruct (body !! key); [by rewrite T | done]. }
    destruct (truthy (body !! "action")) eqn:A; cbn [negb].
    + by rewrite Hk.
    + destruct (decide (key = "action")) as [-> | Hne]; [congruence |].
      rewrite Hk; by rewrite lookup_insert_ne.
  - intros v Hne Hv F. rewrite mergeQueryParams_lookup.
    assert (Hk : forall m : gmap string json,
               m !! key = body !! key -> falsyAt m key = true).
    { intros m Hm. unfold falsyAt. by rewrite Hm, Hv, F. }
    destruct (truthy (body !! "action")); cbn [negb];
      rewrite Hk by (by rewrite ?lookup_insert_ne);
      rewrite ?lookup_insert_ne by done; by rewrite Hv.
  - intros Hne Hv Hproto. rewrite mergeQueryParams_lookup.
    assert (Hk : forall m : gmap string json,
               m !! key = body !! key -> falsyAt m key = true).
    { intros m Hm. unfold falsyAt. rewrite Hm, Hv.
      apply negb_true_iff, not_true_is_false.
      by rewrite includesStr_In. }
    destruct (truthy (body !! "action")); cbn [negb];
      rewrite Hk by (by rewrite ?lookup_insert_ne);
      rewrite ?lookup_insert_ne by done; rewrite Hv;
      by destruct (queryParams !! key).
  - intros Hv Hproto. rewrite mergeQueryParams_lookup.
    assert (Hne : key <> "action").
    { intros ->. apply includesStr_In in Hproto. discriminate Hproto. }
    assert (Hk : forall m : gmap string json,
               m !! key = body !! key -> falsyAt m key = false).
    { intros m Hm. unfold falsyAt. rewrite Hm, Hv.
      apply negb_false_iff. by rewrite includesStr_In. }
    destruct (truthy (body !! "action")); cbn [negb];
      rewrite Hk by (by rewrite ?lookup_insert_ne);
      rewrite ?lookup_insert_ne by done; done.
  - intros F T. rewrite mergeQueryParams_lookup. rewrite F. cbn [negb].
    unfold falsyAt. rewrite lookup_insert_eq. by rewrite T.
Qed.

Lemma query_fills_falsy_keys_witness :
  let body : gmap string json :=
    <["startDate" := JStr "2024-01-01"]> (<["timeZone" := JStr ""]> ∅) in
  let queryParams : gmap string string :=
    <["startDate" := "2024-02-02"]>
      (<["timeZone" := "UTC"]>
      (<["endDate" := "2024-01-08"]> (<["toString" := "x"]> ∅))) in
  let params := buildParams (JObj body) (JStr "checkAvailability") queryParams in
  params !! "startDate" = Some (JStr "2024-01-01")
  /\ params !! "timeZone" = Some (JStr "UTC")
  /\ params !! "endDate" = Some (JStr "2024-01-08")
  /\ params !! "toString" = None
  /\ params !! "action" = Some (JStr "checkAvailability").
Proof.
  intros body queryParams params.
  pose proof (query_fills_falsy_keys body (JStr "checkAvailability") queryParams)
    as H.
  split; [| split; [| split; [| split]]].
  - apply (proj1 (H "startDate")). reflexivity.
  - apply (proj1 (proj2 (H "timeZone")) (JStr ""));
      [discriminate | reflexivity | reflexivity].
  - apply (proj1 (proj2 (proj2 (H "endDate")))); [discriminate | reflexivity |].
    apply (bool_decide_unpack _). vm_compute. exact I.
  - apply (proj1 (proj2 (proj2 (proj2 (H "toString"))))); [reflexivity |].
    apply (bool_decide_unpack _). vm_compute. exact I.
  - apply (proj2 (proj2 (proj2 (proj2 (H "action"))))); reflexivity.
Defined.

(** The round trip of the specification's section 8. *)
Example merge_round_trip :
  let body := JObj (<["startDate" := JStr "2024-01-01"]>
                    (<["action" := JStr "checkAvailability"]> ∅)) in
  let params :=
    buildParams body (JStr "checkAvailability") (<["endDate" := "2024-01-08"]> ∅) in
  params !! "endDate" = Some (JStr "2024-01-08")
  /\ params !! "startDate" = Some (JStr "2024-01-01").
Proof. vm_compute. split; reflexivity. Qed.

(** C7 as stated fails when the known actions are read as the
    enumeration [VALID_ACTIONS]: [findAvailability] is a member, yet a
    request to [/findAvailability] resolves to [handleVapiWebhook]. *)
Lemma findAvailability_path_resolves_to_webhook :
  let event := Sample.request "POST" (Some "/findAvailability") [] None in
  lastPathPart event = "findAvailability"
  /\ "findAvailability" ∈ VALID_ACTIONS
  /\ default ∅ (queryStringParameters event) !! "action" = None
  /\ resolveAction event (JObj ∅) (default ∅ (queryStringParameters event))
       Sample.world
     = (Return (JStr "handleVapiWebhook"), Sample.world).
Proof.
  vm_compute. repeat split; try reflexivity.
  apply includesStr_In. reflexivity.
Qed.

(** C7, amended.  For a request whose last non-empty path segment is not
    [createBooking] and that has no non-empty [action] query parameter: if
    the segment is one of the six names of the handler's [knownActions]
    list (createBooking, getAvailableSlots, rescheduleBooking,
    cancelBooking, getBookingDetails, checkAvailability) the resolved
    action is that segment; any other non-empty segment resolves to
    [handleVapiWebhook].  The body is not consulted and nothing is
    changed. *)
Theorem path_action_resolution (event : Event) (body : json)
    (queryParams : gmap string string) (w : World) :
  lastPathPart event <> "createBooking" ->
  truthyS (queryParams !! "action") = false ->
  lastPathPart event <> "" ->
  (lastPathPart event ∈ knownActions ->
   resolveAction event body queryParams w = (Return (JStr (lastPathPart event)), w))
  /\ (lastPathPart event ∉ knownActions ->
      resolveAction event body queryParams w
      = (Return (JStr "handleVapiWebhook"), w)).
Proof.
  intros Hcb Hq Hne. unfold resolveAction.
  assert (Hpath : path event <> Some "/createBooking").
  { intros E. apply Hcb. unfold lastPathPart, pathParts. by rewrite E. }
  apply String.eqb_neq in Hcb, Hne. rewrite Hcb, Hne, Hq.
  rewrite bool_decide_eq_false_2 by done. cbn [orb negb].
  split; intros Hin.
  - apply includesStr_In in Hin. by rewrite Hin.
  - destruct (includesStr knownActions (lastPathPart event)) eqn:E; [| done].
    apply includesStr_In in E. contradiction.
Qed.

Lemma path_action_resolution_witness :
  let body := JObj (<["action" := JStr "cancelBooking"]> ∅) in
  resolveAction (Sample.request "POST" (Some "/prod/checkAvailability") [] None)
    body ∅ Sample.world
  = (Return (JStr "checkAvailability"), Sample.world)
  /\ resolveAction (Sample.request "POST" (Some "/prod/trialStarted") [] None)
       body ∅ Sample.world
     = (Return (JStr "handleVapiWebhook"), Sample.world).
Proof.
  intros body. split.
  - apply (path_action_resolution
             (Sample.request "POST" (Some "/prod/checkAvailability") [] None)
             body ∅ Sample.world);
      [vm_compute; congruence | reflexivity | vm_compute; congruence |].
    apply includesStr_In. reflexivity.
  - apply (path_action_resolution
             (Sample.request "POST" (Some "/prod/trialStarted") [] None)
             body ∅ Sample.world);
      [vm_compute; congruence | reflexivity | vm_compute; congruence |].
    intros Hin. apply includesStr_In in Hin. vm_compute in Hin. discriminate.
Defined.

(** C8 as stated fails in its last clause: a [checkAvailability] call
    without [startDate] fails with a 400 result of the operation, and the
    envelope carries that result under [function_response.response]; there
    is no [function_response.error]. *)
Lemma failed_operation_reported_as_response :
  let body : gmap string json :=
    <["function" := JStr "checkAvailability"]> (<["parameters" := JObj ∅]> ∅) in
  let function_response (r : Response) :=
    optProp (optProp (Some (response_body r)) "response") "function_response" in
  (exists result,
     (Sample.callFunction (Some (JStr "checkAvailability")) (Some (JObj ∅))
        Sample.world).1 = Return result
     /\ statusCode result = 400)
  /\ exists r,
       (Sample.handleFunctionCall body Sample.world).1 = Return r
       /\ statusCode r = 200
       /\ optProp (function_response r) "error" = None
       /\ optProp (optProp (function_response r) "response") "error"
          = Some (JStr "Start date is required").
Proof.
  split.
  - eexists. split; [vm_compute; reflexivity | reflexivity].
  - eexists. split; [vm_compute; reflexivity |]. vm_compute. done.
Qed.

Section Handler.
Variable JSON_parse : json -> Error + json.
Variable parseInt : option json -> option Z.
Variable Date_getTime : option json -> Z.
Variable toISOString : Z -> string.
Variable toNumber : option json -> Z.
Variable toString : option json -> string.
Variable LocalTZA now : Z.
Variable provider : World -> ProviderCall -> Error + json.

(** C8, amended.  [handleFunctionCall] always returns, with status 200
    and the body [{response: {type: 'function_response',
    function_response: {name, ...}}}].  When the operation returns a
    result, successful or not, [function_response.response] is what is
    reported for that result; when the operation throws,
    [function_response.error] is the error's message.  [checkAvailability]
    and [createBooking] catch what goes wrong in them, so a call of either
    is always answered under [response]: with the body of a success, or
    with the error result [{success: false, error, ...}] that
    [handleError] builds.  A function of any other name than the five of
    the [switch] is answered under [error] with [Unknown function: ...].
    [rescheduleBooking], [cancelBooking] and [getBookingDetails] catch
    nothing: called without parameters they are answered under [error]
    with the message of the [TypeError], called without a truthy
    [bookingId] with [Missing required parameters], and when the provider
    fails (for [rescheduleBooking]: on a request with [startTime],
    [endTime] and [timeZone]) with the message of the provider's error. *)
Theorem function_call_envelope (body : gmap string json) (w : World) :
  let functionName :=
    or_else (body !! "function") (optProp (body !! "functionCall") "name") in
  let parameters := extractParameters JSON_parse (Some (JObj body)) in
  let named (s : string) := isStr functionName s = true in
  let fails (operation : string) (arguments : list (option json))
      (error : Error) :=
    provider w {| operation := operation; arguments := arguments |}
    = inl error in
  exists (key : string) (value : json) (w' : World),
    let r := functionResponseEnvelope functionName key (Some value) in
    handleFunctionCall JSON_parse parseInt Date_getTime toISOString toNumber
      toString provider body w = (Return r, w')
    /\ statusCode r = 200
    /\ response_body r
       = JObj (<["response" :=
                  JObj (<["type" := JStr "function_response"]>
                       (<["function_response" :=
                           JObj (match functionName with
                                 | Some n => <["name" := n]> (<[key := value]> ∅)
                                 | None => <[key := value]> ∅
                                 end)]> ∅))]> ∅)
    /\ match callFunction parseInt Date_getTime toISOString toNumber toString
               provider functionName parameters w with
       | (Return result, w1) =>
           key = "response" /\ Some value = functionResponse functionName result
           /\ w' = w1
       | (Throw error, w1) =>
           key = "error" /\ value = JStr (message error) /\ w' = w1
       end
    /\ (named "checkAvailability" \/ named "createBooking" ->
        key = "response"
        /\ (optProp (Some value) "success" = Some (JBool true)
            \/ exists error,
                 value = response_body (handleError error)
                 /\ optProp (Some value) "success" = Some (JBool false)
                 /\ optProp (Some value) "error"
                    = Some (JStr (if String.eqb (message error) ""
                                  then "An unknown error occurred"
                                  else message error))))
    /\ (named "checkAvailability" ->
        forall p,
          parameters = Some (JObj p) -> truthy (p !! "startDate") = false ->
          key = "response"
          /\ value
             = response_body
                 (handleError
                    (ValidationError "Start date is required" "startDate")))
    /\ (~ named "checkAvailability" -> ~ named "createBooking" ->
        ~ named "rescheduleBooking" -> ~ named "cancelBooking" ->
        ~ named "getBookingDetails" ->
        key = "error"
        /\ value = JStr ("Unknown function: " +:+ toString functionName)
        /\ w' = w)
    /\ (named "rescheduleBooking" \/ named "cancelBooking"
        \/ named "getBookingDetails" ->
        (parameters = None ->
         key = "error"
         /\ value = JStr "Cannot destructure property 'bookingId' of 'params' as it is undefined."
         /\ w' = w)
        /\ (forall p,
              parameters = Some (JObj p) -> truthy (p !! "bookingId") = false ->
              key = "error" /\ value = JStr "Missing required parameters"
              /\ w' = w))
    /\ (forall p error,
          parameters = Some (JObj p) -> truthy (p !! "bookingId") = true ->
          (named "cancelBooking" ->
           fails "calApi.cancelBooking"
             [ p !! "bookingId";
               Some (JObj (obj [ ("reason",
                                  or_else (p !! "reason")
                                    (Some (JStr "Cancelled by user"))) ])) ]
             error ->
           key = "error" /\ value = JStr (message error))
          /\ (named "getBookingDetails" ->
              fails "calApi.getBooking" [p !! "bookingId"] error ->
              key = "error" /\ value = JStr (message error))
          /\ (named "rescheduleBooking" ->
              truthy (p !! "startTime") = true ->
              truthy (p !! "endTime") = true ->
              truthy (p !! "timeZone") = true ->
              fails "calApi.rescheduleBooking"
                [ p !! "bookingId";
                  Some (JObj (obj [ ("startTime", p !! "startTime");
                                    ("endTime", p !! "endTime");
                                    ("timeZone", p !! "timeZone") ])) ]
                error ->
              key = "error" /\ value = JStr (message error))).
Proof.
  clear LocalTZA now.
  intros functionName parameters named fails. subst named fails.
  unfold handleFunctionCall, try_catch, mbind, M_bind, bind.
  change (optProp (Some (JObj body)) "function") with (body !! "function").
  change (optProp (Some (JObj body)) "functionCall") with (body !! "functionCall").
  fold functionName. fold parameters.
  pose proof (callFunction_named parseInt Date_getTime toISOString toNumber
                toString provider functionName parameters)
    as (Hcheck & Hcreate & _).
  pose proof (callFunction_unknown parseInt Date_getTime toISOString toNumber
                toString provider functionName parameters w) as Hunknown.
  pose proof (callFunction_rejects parseInt Date_getTime toISOString toNumber
                toString provider functionName parameters w) as Hrejects.
  pose proof (fun p => callFunction_provider_error parseInt Date_getTime
                toISOString toNumber toString provider functionName p w)
    as Hprovider.
  pose proof (fun p => callFunction_no_start_date parseInt Date_getTime
                toISOString toNumber toString provider functionName p w)
    as Hnostart.
  assert (Hcatching :
            isStr functionName "checkAvailability" = true
            \/ isStr functionName "createBooking" = true ->
            exists result w1,
              callFunction parseInt Date_getTime toISOString toNumber toString
                provider functionName parameters w = (Return result, w1)
              /\ (reportsSuccess result \/ exists e, result = handleError e)).
  { intros [H | H]; [rewrite (Hcheck H) | rewrite (Hcreate H)];
      [apply checkAvailability_outcome | apply createBooking_outcome]. }
  assert (Hnot : forall s, ~ isStr functionName s = true
                           -> isStr functionName s = false).
  { intros s. by destruct (isStr functionName s). }
  destruct (callFunction _ _ _ _ _ _ functionName parameters w)
    as [[result | error] w1] eqn:Hcall.
  - assert (exists v, functionResponse functionName result = Some v) as [v Hv].
    { unfold functionResponse. destruct (_ && _); eauto. }
    exists "response", v, w1. rewrite Hv.
    split; [done |]. split; [done |]. split; [done |]. split; [done |].
    split; [| split; [| split; [| split]]].
    + intros Hn. split; [done |].
      destruct (Hcatching Hn) as (result' & w1' & [= <- <-] & Hres).
      rewrite functionResponse_body in Hv by done. injection Hv as <-.
      destruct Hres as [[_ Hs] | [e ->]]; [by left | right].
      exists e. split; [done |].
      destruct (handleError_body e) as (? & ? & _). done.
    + intros Hn p Hp Hs. split; [done |]. rewrite Hp in Hcall.
      rewrite (Hnostart p Hn Hs) in Hcall. injection Hcall as <- _.
      rewrite functionResponse_body in Hv by (right; eauto).
      by injection Hv as <-.
    + intros H1 H2 H3 H4 H5.
      specialize (Hunknown (Hnot _ H1) (Hnot _ H2) (Hnot _ H3) (Hnot _ H4)
                    (Hnot _ H5)).
      discriminate Hunknown.
    + intros Hn. destruct (Hrejects Hn) as (Hu & _ & Hm). split.
      * intros Hp. discriminate (Hu Hp).
      * intros p Hp Hb. discriminate (Hm p Hp Hb).
    + intros p e Hp Hb. rewrite Hp in Hcall.
      destruct (Hprovider p e Hb) as (Hc & Hg & Hr).
      split; [| split].
      * intros Hn Hf. rewrite (Hc Hn Hf) in Hcall. discriminate Hcall.
      * intros Hn Hf. rewrite (Hg Hn Hf) in Hcall. discriminate Hcall.
      * intros Hn Hs He Htz Hf. rewrite (Hr Hn Hs He Htz Hf) in Hcall.
        discriminate Hcall.
  - exists "error", (JStr (message error)), w1.
    split; [done |]. split; [done |]. split; [done |]. split; [done |].
    split; [| split; [| split; [| split]]].
    + intros Hn. destruct (Hcatching Hn) as (? & ? & Hc' & _). discriminate Hc'.
    + intros Hn p Hp Hs. rewrite Hp in Hcall.
      rewrite (Hnostart p Hn Hs) in Hcall. discriminate Hcall.
    + intros H1 H2 H3 H4 H5.
      specialize (Hunknown (Hnot _ H1) (Hnot _ H2) (Hnot _ H3) (Hnot _ H4)
                    (Hnot _ H5)).
      by injection Hunknown as -> ->.
    + intros Hn. destruct (Hrejects Hn) as (Hu & _ & Hm). split.
      * intros Hp. specialize (Hu Hp). by injection Hu as -> ->.
      * intros p Hp Hb. specialize (Hm p Hp Hb). by injection Hm as -> ->.
    + intros p e Hp Hb. rewrite Hp in Hcall.
      destruct (Hprovider p e Hb) as (Hc & Hg & Hr).
      split; [| split].
      * intros Hn Hf. rewrite (Hc Hn Hf) in Hcall. by injection Hcall as <- _.
      * intros Hn Hf. rewrite (Hg Hn Hf) in Hcall. by injection Hcall as <- _.
      * intros Hn Hs He Htz Hf. rewrite (Hr Hn Hs He Htz Hf) in Hcall.
        by injection Hcall as <- _.
Qed.

(** C10.  A request with method OPTIONS is answered at once with status
    200, the body [{success: true}] and the CORS headers, whatever its
    body, path and query string; the shared state is untouched and no
    provider method is called. *)
Theorem options_preflight (event : Event) (w : World) :
  httpMethod event = Some "OPTIONS" ->
  exists r,
    handler JSON_parse parseInt Date_getTime toISOString toNumber toString
      LocalTZA now provider event w = (Return r, w)
    /\ statusCode r = 200
    /\ response_body r = JObj (<["success" := JBool true]> ∅)
    /\ (exists h, headers r = Some h
        /\ h !! "Access-Control-Allow-Origin" = Some "*"
        /\ h !! "Access-Control-Allow-Methods" = Some "GET, POST, OPTIONS"
        /\ h !! "Access-Control-Allow-Headers" = Some "Content-Type"
        /\ h !! "Content-Type" = Some "application/json").
Proof.
  intros Hm. exists preflightResponse. unfold handler, try_catch.
  rewrite bool_decide_eq_true_2 by done. simpl.
  repeat split. eexists. split; [reflexivity |].
  repeat split; by vm_compute.
Qed.
End Handler.

Lemma options_preflight_witness :
  exists r,
    Sample.handler
      (Sample.request "OPTIONS" (Some "/createBooking")
         [("action", "createBooking")] (Some (JStr "{ not json")))
      Sample.world = (Return r, Sample.world)
    /\ statusCode r = 200
    /\ response_body r = JObj (<["success" := JBool true]> ∅)
    /\ (exists h, headers r = Some h
        /\ h !! "Access-Control-Allow-Origin" = Some "*"
        /\ h !! "Access-Control-Allow-Methods" = Some "GET, POST, OPTIONS"
        /\ h !! "Access-Control-Allow-Headers" = Some "Content-Type"
        /\ h !! "Content-Type" = Some "application/json").
Proof.
  apply (options_preflight Sample.JSON_parse Sample.parseInt Sample.Date_getTime
           Sample.toISOString Sample.toNumber Sample.toString 0 Sample.now
           Sample.provider).
  reflexivity.
Defined.

(** C9 (defect in the code).  The claim: a request's own API key never
    reaches the shared configuration.  A [findAvailability] request with
    [apiKey=cal_live_other], and likewise a [getAvailableSlots] request,
    leaves [config.cal.apiKey] set to the caller's key after the response
    has been produced; the next request, which brings no key of its own,
    is sent to the provider under that key. *)
Theorem request_api_key_written_to_shared_config :
  let findRequest :=
    Sample.request "GET" None
      [("action", "findAvailability"); ("id", "42"); ("apiKey", "cal_live_other")]
      None in
  let slotsRequest :=
    Sample.request "GET" None
      [("action", "getAvailableSlots"); ("apiKey", "cal_live_other")] None in
  let nextRequest :=
    Sample.request "GET" None
      [("action", "checkAvailability"); ("startDate", "2025-07-01");
       ("endDate", "2025-07-08")] None in
  let after := (Sample.handler findRequest Sample.world).2 in
  cal_apiKey (config Sample.world) = JStr "cal_live_default"
  /\ (exists r, (Sample.handler findRequest Sample.world).1 = Return r
                /\ statusCode r = 200)
  /\ cal_apiKey (config after) = JStr "cal_live_other"
  /\ (exists r, (Sample.handler slotsRequest Sample.world).1 = Return r
                /\ statusCode r = 200)
  /\ cal_apiKey (config (Sample.handler slotsRequest Sample.world).2)
     = JStr "cal_live_other"
  /\ (exists apiParams,
        last (calls (Sample.handler nextRequest after).2)
        = Some {| operation := "calApi.getEventTypeAvailabilityV1";
                  arguments := [Some (JObj apiParams)] |}
        /\ apiParams !! "apiKey" = Some (JStr "cal_live_other")).
Proof.
  repeat split; try (vm_compute; reflexivity);
    eexists; (split; [vm_compute; reflexivity | reflexivity]).
Qed.

End DispatcherClaims.

(** * Further properties of the dispatcher *)
Module DispatcherProperties.
Import JS Index Effects EffectFacts OpEffects IndexFacts DispatcherFacts.

Local Open Scope string_scope.
Local Open Scope Z_scope.

Section Handler.
Variable JSON_parse : json -> Error + json.
Variable parseInt : option json -> option Z.
Variable Date_getTime : option json -> Z.
Variable toISOString : Z -> string.
Variable toNumber : option json -> Z.
Variable toString : option json -> string.
Variable LocalTZA now : Z.
Variable provider : World -> ProviderCall -> Error + json.

Abbreviation handler_ :=
  (handler JSON_parse parseInt Date_getTime toISOString toNumber toString
     LocalTZA now provider).

(** X1.  A request makes at most two calls to methods of [calApi] and
    [vapiService], whatever it asks for and however they answer; nothing
    is retried. *)
Theorem at_most_two_provider_calls (event : Event) (w : World) :
  exists made,
    calls (handler_ event w).2 = (calls w ++ made)%list
    /\ (length made <= 2)%nat.
Proof. by destruct (steps_handler JSON_parse parseInt Date_getTime toISOString toNumber
              toString LocalTZA now provider event w) as [_ H]. Qed.

(** X2.  The handler never lets an exception out, and every response it
    produces, the error responses included, carries
    [Access-Control-Allow-Origin: *]. *)
Theorem handler_always_answers_with_cors_origin (event : Event) (w : World) :
  exists r h,
    (handler_ event w).1 = Return r
    /\ headers r = Some h
    /\ h !! "Access-Control-Allow-Origin" = Some "*".
Proof.
  unfold handler, try_catch.
  match goal with |- context [let (_, _) := ?c w in _] => destruct (c w) as [[r | e] w1] eqn:E end.
  - case_bool_decide as Hm.
    + inversion E; subst. eexists _, _. split; [done |]. split; [reflexivity |].
      by vm_compute.
    + unfold mbind, M_bind, bind in E.
      destruct (resolveAction _ _ _ w) as [[action | e] w2]; [| done].
      destruct (route _ _ _ _ _ _ _ _ _ _ _ w2) as [[result | e] w3]; [| done].
      inversion E; subst. eexists _, _. split; [done |]. split; [reflexivity |].
      rewrite lookup_insert_ne by done. rewrite lookup_insert_ne by done.
      by rewrite lookup_insert_eq.
  - eexists _, _. split; [done |]. split; [reflexivity |].
    by rewrite lookup_insert_eq.
Qed.

(** X3.  Only [findAvailability] and [getAvailableSlots] write the shared
    configuration: when a request leaves it different from what it
    found, the action resolved for that request is one of these two. *)
Theorem config_written_only_by_two_actions (event : Event) (w : World) :
  config (handler_ event w).2 <> config w ->
  exists action,
    (resolveAction event (parseBody JSON_parse event)
       (default ∅ (queryStringParameters event)) w).1 = Return (JStr action)
    /\ (action = "findAvailability" \/ action = "getAvailableSlots").
Proof.
  intros Hne.
  unfold handler, try_catch in Hne.
  case_bool_decide as Hm; [done |].
  unfold mbind, M_bind, bind in Hne.
  pose proof (pure_resolveAction event (parseBody JSON_parse event)
                (default ∅ (queryStringParameters event)) w) as Hp.
  destruct (resolveAction _ _ _ w) as [[action | e] w1]; simpl in Hp; subst w1;
    [| done].
  destruct (isStr (Some action) "findAvailability") eqn:E1.
  { apply isStr_true in E1. injection E1 as ->. eauto. }
  destruct (isStr (Some action) "getAvailableSlots") eqn:E2.
  { apply isStr_true in E2. injection E2 as ->. eauto. }
  exfalso. apply Hne.
  pose proof (route_config JSON_parse parseInt Date_getTime toISOString toNumber
                toString LocalTZA now provider action
                (Some (JObj (buildParams (parseBody JSON_parse event) action
                               (default ∅ (queryStringParameters event)))))
                w E1 E2) as Hc.
  destruct (route _ _ _ _ _ _ _ _ _ _ _ w) as [[result | e] w3]; by simpl in *.
Qed.
End Handler.

Lemma config_written_only_by_two_actions_witness :
  exists action,
    (resolveAction Scenario.findRequest
       (parseBody Sample.JSON_parse Scenario.findRequest)
       (default ∅ (queryStringParameters Scenario.findRequest)) Sample.world).1
    = Return (JStr action)
    /\ (action = "findAvailability" \/ action = "getAvailableSlots").
Proof.
  apply (config_written_only_by_two_actions Sample.JSON_parse Sample.parseInt
           Sample.Date_getTime Sample.toISOString Sample.toNumber
           Sample.toString 0 Sample.now Sample.provider Scenario.findRequest
           Sample.world).
  vm_compute. intros H. discriminate H.
Defined.

End DispatcherProperties.

(** * Properties of the operations of the dispatcher *)
Module OperationProperties.
Import JS Index Effects EffectFacts OpEffects IndexFacts DispatcherFacts.

Local Open Scope string_scope.
Local Open Scope Z_scope.

Section Handler.
Variable JSON_parse : json -> Error + json.
Variable parseInt : option json -> option Z.
Variable Date_getTime : option json -> Z.
Variable toISOString : Z -> string.
Variable toNumber : option json -> Z.
Variable toString : option json -> string.
Variable LocalTZA now : Z.
Variable provider : World -> ProviderCall -> Error + json.

Abbreviation handler_ :=
  (handler JSON_parse parseInt Date_getTime toISOString toNumber toString
     LocalTZA now provider).
Abbreviation createBooking_ :=
  (createBooking parseInt Date_getTime toISOString toNumber provider).

(** X4.  [checkAvailability] rejects a request without a start date, and then
    one without an end date, with a 400 that names the field, before any
    call to the provider. *)
Theorem checkAvailability_requires_dates (params : gmap string json) (w : World) :
  (truthy (params !! "startDate") = false ->
   checkAvailability provider (Some (JObj params)) w
   = (Return (handleError (ValidationError "Start date is required" "startDate")), w))
  /\ (truthy (params !! "startDate") = true ->
      truthy (params !! "endDate") = false ->
      checkAvailability provider (Some (JObj params)) w
      = (Return (handleError (ValidationError "End date is required" "endDate")), w)).
Proof.
  split.
  - intros H. unfold checkAvailability. exec. by rewrite H.
  - intros H1 H2. unfold checkAvailability. exec. rewrite H1. reduce.
    by rewrite H2.
Qed.

(** X5.  With both dates, [checkAvailability] makes one provider call, under
    the caller's API key when the request carries one and under the
    configured key otherwise; the configuration is not written. *)
Theorem checkAvailability_uses_request_key (params : gmap string json) (w : World) :
  truthy (params !! "startDate") = true ->
  truthy (params !! "endDate") = true ->
  exists apiParams,
    (checkAvailability provider (Some (JObj params)) w).2
    = {| config := config w;
         calls := (calls w
                   ++ [ {| operation := "calApi.getEventTypeAvailabilityV1";
                           arguments := [Some (JObj apiParams)] |} ])%list |}
    /\ apiParams !! "apiKey"
       = (if truthy (params !! "apiKey") then params !! "apiKey"
          else Some (cal_apiKey (config w)))
    /\ apiParams !! "startTime" = params !! "startDate"
    /\ apiParams !! "endTime" = params !! "endDate".
Proof.
  intros H1 H2.
  exists (obj [ ("startTime", params !! "startDate");
                ("endTime", params !! "endDate");
                ("username",
                 or_else (params !! "username") (Some (cal_username (config w))));
                ("eventTypeId",
                 or_else (params !! "eventTypeId")
                   (Some (cal_eventTypeId (config w))));
                ("apiKey",
                 or_else (params !! "apiKey") (Some (cal_apiKey (config w)))) ]).
  split.
  - unfold checkAvailability. exec. rewrite H1. reduce. rewrite H2. reduce.
    destruct (provider _ _); reflexivity.
  - rewrite !obj_lookup by distinct_keys. simpl. by unfold or_else.
Qed.

(** X6.  [findAvailability] rejects a missing or non-numeric id with a 400
    that names [id]; a request rejected this way changes nothing, not
    even when it carries an API key. *)
Theorem findAvailability_rejects_bad_id (params : gmap string json) (w : World) :
  (truthy (params !! "id") = false ->
   findAvailability parseInt provider (Some (JObj params)) w
   = (Return (handleError (ValidationError "Availability ID is required" "id")), w))
  /\ (truthy (params !! "id") = true -> parseInt (params !! "id") = None ->
      findAvailability parseInt provider (Some (JObj params)) w
      = (Return (handleError (ValidationError "Invalid availability ID" "id")), w)).
Proof.
  split.
  - intros H. unfold findAvailability. exec. by rewrite H.
  - intros H1 H2. unfold findAvailability. exec. rewrite H1. reduce.
    by rewrite H2.
Qed.

(** X7.  A booking request that is not in the provider's own shape is checked
    for [name], [email], [startTime], [eventTypeId] and [timeZone], in this
    order; the first one missing is named in a 400, and the provider is
    not called. *)
Theorem createBooking_names_first_missing_field (params : gmap string json)
    (w : World) (key msg : string) :
  let required :=
    [ ("name", "Name is required"); ("email", "Email is required");
      ("startTime", "Start time is required");
      ("eventTypeId", "Event type ID is required");
      ("timeZone", "Time zone is required") ] in
  truthy (params !! "eventTypeId") && truthy (params !! "start")
    && truthy (params !! "responses") && truthy (params !! "timeZone") = false ->
  List.find (fun kv => negb (truthy (params !! kv.1))) required = Some (key, msg) ->
  createBooking_ (Some (JObj params)) w
  = (Return (handleError (ValidationError msg key)), w).
Proof.
  intros required Hshape Hfind. unfold createBooking. exec. rewrite Hshape.
  subst required. cbn [List.find fst] in Hfind.
  destruct (truthy (params !! "name")); reduce; cbn [negb] in Hfind;
    [| injection Hfind as <- <-; reflexivity].
  destruct (truthy (params !! "email")); reduce; cbn [negb] in Hfind;
    [| injection Hfind as <- <-; reflexivity].
  destruct (truthy (params !! "startTime")); reduce; cbn [negb] in Hfind;
    [| injection Hfind as <- <-; reflexivity].
  destruct (truthy (params !! "eventTypeId")); reduce; cbn [negb] in Hfind;
    [| injection Hfind as <- <-; reflexivity].
  destruct (truthy (params !! "timeZone")); reduce; cbn [negb] in Hfind;
    [discriminate | injection Hfind as <- <-; reflexivity].
Qed.

(** X8.  For a request in the legacy shape that names its end, whatever
    error the provider answers the booking with (a conflict included), the
    response is a 500 of type [ReferenceError]: the handler's own test of
    the error refers to [ApiError], which the file does not define. *)
Theorem createBooking_legacy_provider_error_is_500 (params : gmap string json)
    (w : World) (e : Error) :
  truthy (params !! "start") && truthy (params !! "responses") = false ->
  truthy (params !! "name") = true -> truthy (params !! "email") = true ->
  truthy (params !! "startTime") = true ->
  truthy (params !! "endTime") = true ->
  truthy (params !! "eventTypeId") = true ->
  truthy (params !! "timeZone") = true ->
  (forall arguments,
     provider w {| operation := "calApi.createBooking"; arguments := arguments |}
     = inl e) ->
  exists r,
    (createBooking_ (Some (JObj params)) w).1 = Return r
    /\ r = handleError (mkError "ReferenceError" "ApiError is not defined")
    /\ statusCode r = 500
    /\ optProp (Some (response_body r)) "type" = Some (JStr "ReferenceError")
    /\ config (createBooking_ (Some (JObj params)) w).2 = config w
    /\ length (calls (createBooking_ (Some (JObj params)) w).2)
       = S (length (calls w)).
Proof.
  clear LocalTZA now. intros Hshape Hn He Hs Hend Hev Htz Hfail.
  assert (Hrun : exists c,
            createBooking_ (Some (JObj params)) w
            = (Return (handleError (mkError "ReferenceError" "ApiError is not defined")),
               {| config := config w; calls := (calls w ++ [c])%list |})).
  { unfold createBooking. exec.
    replace (truthy (params !! "eventTypeId") && truthy (params !! "start")
             && truthy (params !! "responses") && truthy (params !! "timeZone"))
      with false
      by (rewrite Hev; destruct (truthy (params !! "start"));
          [cbn [andb] in *; by rewrite Hshape | done]).
    rewrite Hn, He, Hs, Hev, Htz. reduce. rewrite ?Hend. reduce.
    rewrite Hfail. eexists. reflexivity. }
  destruct Hrun as [c ->]. eexists. split; [reflexivity |].
  repeat split. simpl. rewrite length_app. simpl. lia.
Qed.

(** X9.  A request already in the provider's shape ([eventTypeId], [start],
    [responses] and [timeZone] present) is passed on as it is, with the
    caller's API key or else the configured one, without the checks of the
    legacy shape; the provider's answer decides the response, and an error
    keeps the status the provider gave it. *)
Theorem createBooking_native_shape_passed_through (params : gmap string json)
    (w : World) :
  truthy (params !! "eventTypeId") && truthy (params !! "start")
    && truthy (params !! "responses") && truthy (params !! "timeZone") = true ->
  let key :=
    default JNull (if truthy (params !! "apiKey") then params !! "apiKey"
                   else Some (cal_apiKey (config w))) in
  let sent :=
    {| operation := "calApi.createBooking";
       arguments := [Some (JObj (<["apiKey" := key]> params))] |} in
  createBooking_ (Some (JObj params)) w
  = (match provider w sent with
     | inr booking => Return (bookingCreated booking)
     | inl e => Return (handleError e)
     end,
     {| config := config w; calls := (calls w ++ [sent])%list |}).
Proof.
  intros Hshape key sent. unfold createBooking. exec. rewrite Hshape.
  subst key sent. unfold or_else. reduce. by destruct (provider _ _).
Qed.

(** X10.  [rescheduleBooking], [cancelBooking] and [getBookingDetails] throw
    on a request without a booking id, before any call to the provider.
    Reached through a voice-platform function call this is an HTTP 200 whose
    envelope carries the message as [error]. *)
Theorem missing_booking_id (params : gmap string json) (w : World)
    (functionName : string) :
  truthy (params !! "bookingId") = false ->
  functionName ∈ ["rescheduleBooking"; "cancelBooking"; "getBookingDetails"] ->
  callFunction parseInt Date_getTime toISOString toNumber toString provider
    (Some (JStr functionName)) (Some (JObj params)) w
  = (Throw missingParameters, w)
  /\ handleFunctionCall JSON_parse parseInt Date_getTime toISOString toNumber
       toString provider
       (<["function" := JStr functionName]> (<["parameters" := JObj params]> ∅)) w
     = (Return (functionResponseEnvelope (Some (JStr functionName)) "error"
                  (Some (JStr "Missing required parameters"))), w).
Proof.
  clear LocalTZA now. intros Hid Hin.
  assert (Hname : functionName = "rescheduleBooking"
                  \/ functionName = "cancelBooking"
                  \/ functionName = "getBookingDetails").
  { repeat (apply elem_of_cons in Hin as [Hin | Hin]; [tauto |]).
    by apply elem_of_nil in Hin. }
  clear Hin.
  assert (Hcall : callFunction parseInt Date_getTime toISOString toNumber
                    toString provider (Some (JStr functionName))
                    (Some (JObj params)) w = (Throw missingParameters, w)).
  { destruct Hname as [-> | [-> | ->]]; unfold callFunction; cbn [isStr String.eqb Ascii.eqb Bool.eqb];
      [unfold rescheduleBooking | unfold cancelBooking | unfold getBookingDetails];
      exec; by rewrite Hid. }
  split; [done |].
  unfold handleFunctionCall, extractParameters, optProp, try_catch, mbind,
    M_bind, bind.
  rewrite lookup_insert_eq.
  rewrite (lookup_insert_ne _ "function" "parameters") by done.
  rewrite lookup_insert_eq.
  assert (Htruthy : truthy (Some (JStr functionName)) = true)
    by (by destruct Hname as [-> | [-> | ->]]).
  unfold or_else. rewrite Htruthy. cbn [truthy]. by rewrite Hcall.
Qed.

End Handler.

Lemma checkAvailability_requires_dates_witness :
  checkAvailability Sample.provider (Some (JObj ∅)) Sample.world
  = (Return (handleError (ValidationError "Start date is required" "startDate")),
     Sample.world)
  /\ checkAvailability Sample.provider
       (Some (JObj (<["startDate" := JStr "2025-07-01"]> ∅))) Sample.world
     = (Return (handleError (ValidationError "End date is required" "endDate")),
        Sample.world).
Proof.
  split.
  - apply (checkAvailability_requires_dates Sample.provider ∅ Sample.world).
    reflexivity.
  - apply (checkAvailability_requires_dates Sample.provider
             (<["startDate" := JStr "2025-07-01"]> ∅) Sample.world);
      reflexivity.
Defined.

Lemma checkAvailability_uses_request_key_witness :
  exists apiParams,
    last (calls (checkAvailability Sample.provider (Some (JObj Scenario.dates))
                   Sample.world).2)
    = Some {| operation := "calApi.getEventTypeAvailabilityV1";
              arguments := [Some (JObj apiParams)] |}
    /\ apiParams !! "apiKey" = Some (JStr "cal_live_default")
    /\ apiParams !! "startTime" = Some (JStr "2025-07-01").
Proof.
  destruct (checkAvailability_uses_request_key Sample.provider Scenario.dates
              Sample.world) as (apiParams & Hrun & Hkey & Hstart & _);
    [reflexivity | reflexivity |].
  exists apiParams. rewrite Hrun. split; [reflexivity |].
  split; [exact Hkey | exact Hstart].
Defined.

Lemma findAvailability_rejects_bad_id_witness :
  findAvailability Sample.parseInt Sample.provider
    (Some (JObj (<["apiKey" := JStr "cal_live_other"]> ∅))) Sample.world
  = (Return (handleError (ValidationError "Availability ID is required" "id")),
     Sample.world)
  /\ findAvailability Sample.parseInt Sample.provider
       (Some (JObj (<["id" := JStr "next week"]>
                      (<["apiKey" := JStr "cal_live_other"]> ∅)))) Sample.world
     = (Return (handleError (ValidationError "Invalid availability ID" "id")),
        Sample.world).
Proof.
  split.
  - apply (findAvailability_rejects_bad_id Sample.parseInt Sample.provider
             (<["apiKey" := JStr "cal_live_other"]> ∅) Sample.world).
    reflexivity.
  - apply (findAvailability_rejects_bad_id Sample.parseInt Sample.provider
             (<["id" := JStr "next week"]>
                (<["apiKey" := JStr "cal_live_other"]> ∅)) Sample.world);
      reflexivity.
Defined.

Lemma createBooking_names_first_missing_field_witness :
  createBooking Sample.parseInt Sample.Date_getTime Sample.toISOString
    Sample.toNumber Sample.provider
    (Some (JObj (<["name" := JStr "Ada"]>
                   (<["timeZone" := JStr "UTC"]> ∅)))) Sample.world
  = (Return (handleError (ValidationError "Email is required" "email")),
     Sample.world).
Proof.
  apply (createBooking_names_first_missing_field Sample.parseInt
           Sample.Date_getTime Sample.toISOString Sample.toNumber
           Sample.provider
           (<["name" := JStr "Ada"]> (<["timeZone" := JStr "UTC"]> ∅))
           Sample.world "email" "Email is required"); reflexivity.
Defined.

Lemma createBooking_legacy_provider_error_is_500_witness :
  exists r,
    (createBooking Sample.parseInt Sample.Date_getTime Sample.toISOString
       Sample.toNumber Scenario.refusing (Some (JObj Scenario.legacyBooking))
       Sample.world).1 = Return r
    /\ statusCode r = 500
    /\ optProp (Some (response_body r)) "type" = Some (JStr "ReferenceError").
Proof.
  destruct (createBooking_legacy_provider_error_is_500 Sample.parseInt
              Sample.Date_getTime Sample.toISOString Sample.toNumber
              Scenario.refusing Scenario.legacyBooking Sample.world
              Scenario.unavailable)
    as (r & Hrun & _ & Hstatus & Htype & _);
    try reflexivity.
  exists r. split; [exact Hrun |]. split; [exact Hstatus | exact Htype].
Defined.

Lemma createBooking_native_shape_passed_through_witness :
  exists sent,
    createBooking Sample.parseInt Sample.Date_getTime Sample.toISOString
      Sample.toNumber Scenario.refusing (Some (JObj Scenario.nativeBooking))
      Sample.world
    = (Return (handleError Scenario.unavailable),
       {| config := config Sample.world;
          calls := [ {| operation := "calApi.createBooking";
                        arguments := [Some (JObj sent)] |} ] |})
    /\ sent !! "apiKey" = Some (JStr "cal_live_default")
    /\ sent !! "start" = Some (JStr "2025-07-01T10:00:00Z").
Proof.
  eexists. split.
  - apply (createBooking_native_shape_passed_through Sample.parseInt
             Sample.Date_getTime Sample.toISOString Sample.toNumber
             Scenario.refusing Scenario.nativeBooking Sample.world).
    reflexivity.
  - split; reflexivity.
Defined.

Lemma missing_booking_id_witness :
  Sample.callFunction (Some (JStr "cancelBooking")) (Some (JObj ∅)) Sample.world
  = (Throw missingParameters, Sample.world)
  /\ Sample.handleFunctionCall
       (<["function" := JStr "cancelBooking"]> (<["parameters" := JObj ∅]> ∅))
       Sample.world
     = (Return (functionResponseEnvelope (Some (JStr "cancelBooking")) "error"
                  (Some (JStr "Missing required parameters"))), Sample.world).
Proof.
  apply (missing_booking_id Sample.JSON_parse Sample.parseInt Sample.Date_getTime
           Sample.toISOString Sample.toNumber Sample.toString Sample.provider
           ∅ Sample.world "cancelBooking").
  - reflexivity.
  - apply (bool_decide_unpack _). vm_compute. exact I.
Defined.

End OperationProperties.

(** * Properties of routing and of the remaining handlers *)
Module RoutingProperties.
Import JSDate JS Index Effects EffectFacts OpEffects IndexFacts DateFacts
  RepairFacts DispatcherFacts.

Local Open Scope string_scope.
Local Open Scope Z_scope.

Section Handler.
Variable JSON_parse : json -> Error + json.
Variable parseInt : option json -> option Z.
Variable Date_getTime : option json -> Z.
Variable toISOString : Z -> string.
Variable toNumber : option json -> Z.
Variable toString : option json -> string.
Variable LocalTZA now : Z.
Variable provider : World -> ProviderCall -> Error + json.

Abbreviation handler_ :=
  (handler JSON_parse parseInt Date_getTime toISOString toNumber toString
     LocalTZA now provider).

(** X11.  [handleTrialStarted] answers 400 when [name], [email] or
    [phoneNumber] is missing, and 500 when no assistant is configured; in
    both cases no call is placed. *)
Theorem trial_started_preconditions (body : gmap string json) (w : World) :
  (truthy (body !! "name") && truthy (body !! "email")
     && truthy (body !! "phoneNumber") = false ->
   handleTrialStarted provider (Some (JObj body)) w
   = (Return (json_response 400
                [ ("success", Some (JBool false));
                  ("error", Some (JStr "Missing required parameters")) ]), w))
  /\ (truthy (body !! "name") && truthy (body !! "email")
        && truthy (body !! "phoneNumber") = true ->
      truthy (Some (vapi_assistantId (config w))) = false ->
      handleTrialStarted provider (Some (JObj body)) w
      = (Return (json_response 500
                   [ ("success", Some (JBool false));
                     ("error", Some (JStr "No VAPI assistant ID configured")) ]), w)).
Proof.
  split.
  - intros H. unfold handleTrialStarted. exec.
    destruct (truthy (body !! "name")), (truthy (body !! "email")),
      (truthy (body !! "phoneNumber")); done.
  - intros H Ha. unfold handleTrialStarted. exec.
    apply andb_true_iff in H as [[-> ->]%andb_true_iff ->].
    cbn [negb orb]. by rewrite Ha.
Qed.

(** X12.  The outbound call is tried over SIP first and as a plain call only
    when SIP fails, each at most once.  When SIP succeeds the plain call is
    not placed; when both fail the response reports the error of the plain
    call, under its status code or 500. *)
Theorem trial_started_sip_then_plain (body : gmap string json) (w : World) :
  truthy (body !! "name") && truthy (body !! "email")
    && truthy (body !! "phoneNumber") = true ->
  truthy (Some (vapi_assistantId (config w))) = true ->
  let callConfig :=
    JObj (obj [ ("phoneNumber", body !! "phoneNumber");
                ("metadata",
                 Some (JObj (obj [ ("userId", body !! "email");
                                   ("userName", body !! "name");
                                   ("userEmail", body !! "email");
                                   ("userPhone", body !! "phoneNumber") ]))) ]) in
  let arguments := [Some (vapi_assistantId (config w)); Some callConfig] in
  let sip := {| operation := "vapiService.createSipCall"; arguments := arguments |} in
  let plain := {| operation := "vapiService.createCall"; arguments := arguments |} in
  let w1 := {| config := config w; calls := (calls w ++ [sip])%list |} in
  let w2 := {| config := config w; calls := (calls w ++ [sip; plain])%list |} in
  let run := handleTrialStarted provider (Some (JObj body)) w in
  (forall call_, provider w sip = inr call_ -> truthy (Some call_) = true ->
     run = (Return (json_response 200
                      [ ("success", Some (JBool true));
                        ("callId", optProp (Some call_) "id");
                        ("message", Some (JStr "Call initiated successfully")) ]),
            w1))
  /\ (forall sipError call_,
        provider w sip = inl sipError -> provider w1 plain = inr call_ ->
        truthy (Some call_) = true ->
        run = (Return (json_response 200
                         [ ("success", Some (JBool true));
                           ("callId", optProp (Some call_) "id");
                           ("message", Some (JStr "Call initiated successfully")) ]),
               w2))
  /\ (forall sipError plainError,
        provider w sip = inl sipError -> provider w1 plain = inl plainError ->
        message plainError <> "" ->
        run = (Return (json_response
                         (match err_statusCode plainError with
                          | Some c => if c =? 0 then 500 else c
                          | None => 500
                          end)
                         [ ("success", Some (JBool false));
                           ("error", Some (JStr (message plainError))) ]),
               w2)).
Proof.
  intros H Ha callConfig arguments sip plain w1 w2 run.
  apply andb_true_iff in H as [[Hn He]%andb_true_iff Hp].
  subst run. unfold handleTrialStarted. exec. rewrite Hn, He, Hp. cbn [negb orb].
  rewrite Ha. cbn [negb].
  fold callConfig. fold arguments. fold sip. fold plain. fold w1.
  repeat split.
  - intros call_ Hs Ht. rewrite Hs. reduce. rewrite Ht. reduce.
    destruct call_; try done; reflexivity.
  - intros sipError call_ Hs Hpl Ht. rewrite Hs. reduce. rewrite Hpl. reduce.
    rewrite Ht. reduce. subst w1 w2. cbn [calls config].
    rewrite <- (app_assoc (calls w) [sip] [plain]).
    destruct call_; try done; reflexivity.
  - intros sipError plainError Hs Hpl Hm. rewrite Hs. reduce. rewrite Hpl. reduce.
    cbn [truthy]. subst w1 w2. cbn [calls config].
    rewrite <- (app_assoc (calls w) [sip] [plain]).
    reduce. apply String.eqb_neq in Hm. by rewrite Hm.
Qed.

(** X13.  An action name that is none of the ten the dispatcher knows is
    refused with a 400 that names the field [action]; no operation runs. *)
Theorem unknown_action_rejected (event : Event) (w : World) (action : string) :
  httpMethod event <> Some "OPTIONS" ->
  lastPathPart event <> "createBooking" ->
  default ∅ (queryStringParameters event) !! "action" = Some action ->
  action <> "" ->
  action ∉ VALID_ACTIONS ->
  handler_ event w
  = (Return (handleError (ValidationError "Invalid action specified" "action")), w)
  /\ statusCode (handleError (ValidationError "Invalid action specified" "action"))
     = 400.
Proof.
  intros Hm Hcb Hq Hne Hin. split; [| reflexivity].
  assert (Hpath : path event <> Some "/createBooking").
  { intros E. apply Hcb. unfold lastPathPart, pathParts. by rewrite E. }
  assert (Hnot : forall s, s ∈ VALID_ACTIONS -> isStr (Some (JStr action)) s = false).
  { intros s Hs. simpl. apply String.eqb_neq. intros ->. contradiction. }
  unfold handler, try_catch. rewrite bool_decide_eq_false_2 by done.
  unfold mbind, M_bind, bind, resolveAction.
  apply String.eqb_neq in Hcb as ->. rewrite bool_decide_eq_false_2 by done.
  cbn [orb]. rewrite Hq. cbn [truthyS default from_option id].
  apply String.eqb_neq in Hne as ->. cbn [negb]. unfold mret, M_ret, ret.
  unfold route.
  rewrite !Hnot by (apply includesStr_In; reflexivity).
  reflexivity.
Qed.

(** X14.  The order in which the action is resolved.  A path that ends in
    [createBooking] decides, whatever the query string and the body say;
    otherwise a non-empty [action] query parameter decides, whatever the
    path and the body say; with neither, and no path segment at all, a
    truthy [action] of the body is the action, and a body without one is
    taken for a voice-platform webhook.  Resolution changes nothing. *)
Theorem action_resolution_order (event : Event) (body : json)
    (queryParams : gmap string string) (w : World) :
  (lastPathPart event = "createBooking" ->
   resolveAction event body queryParams w = (Return (JStr "createBooking"), w))
  /\ (lastPathPart event <> "createBooking" ->
      forall action, queryParams !! "action" = Some action -> action <> "" ->
      resolveAction event body queryParams w = (Return (JStr action), w))
  /\ (lastPathPart event = "" -> path event <> Some "/createBooking" ->
      truthyS (queryParams !! "action") = false ->
      (forall action, optProp (Some body) "action" = Some action ->
         truthy (Some action) = true ->
         resolveAction event body queryParams w = (Return action, w))
      /\ (body <> JNull -> truthy (optProp (Some body) "action") = false ->
          resolveAction event body queryParams w
          = (Return (JStr "handleVapiWebhook"), w))).
Proof.
  split; [| split].
  - intros H. unfold resolveAction. by rewrite H.
  - intros Hcb action Hq Hne. unfold resolveAction.
    assert (Hpath : path event <> Some "/createBooking").
    { intros E. apply Hcb. unfold lastPathPart, pathParts. by rewrite E. }
    apply String.eqb_neq in Hcb as ->. rewrite bool_decide_eq_false_2 by done.
    cbn [orb]. rewrite Hq. cbn [truthyS default from_option id].
    by apply String.eqb_neq in Hne as ->.
  - intros Hl Hp Hq.
    destruct (resolveAction_from_body event body queryParams w Hl Hp Hq)
      as (Haction & Hdefault & _).
    by split.
Qed.

(** X15.  A request whose body is the JSON text [null], with no action in path
    or query string, is answered with status 500 and type [TypeError]. *)
Theorem null_body_is_500 (event : Event) (w : World) (text : string) :
  httpMethod event <> Some "OPTIONS" ->
  lastPathPart event = "" ->
  path event <> Some "/createBooking" ->
  truthyS (default ∅ (queryStringParameters event) !! "action") = false ->
  body event = Some (JStr text) -> text <> "" ->
  JSON_parse (JStr text) = inr JNull ->
  exists r,
    handler_ event w = (Return r, w)
    /\ statusCode r = 500
    /\ optProp (Some (response_body r)) "type" = Some (JStr "TypeError")
    /\ optProp (Some (response_body r)) "success" = Some (JBool false).
Proof.
  intros Hm Hl Hp Hq Hb Ht Hparse.
  assert (Hbody : parseBody JSON_parse event = JNull).
  { unfold parseBody. rewrite Hb. cbn [truthy].
    apply String.eqb_neq in Ht as ->. cbn [negb]. by rewrite Hparse. }
  destruct (resolveAction_from_body event JNull
              (default ∅ (queryStringParameters event)) w Hl Hp Hq)
    as (_ & _ & Hnull).
  eexists. split.
  - unfold handler, try_catch. rewrite bool_decide_eq_false_2 by done.
    unfold mbind, M_bind, bind. rewrite Hbody, Hnull by done. reflexivity.
  - repeat split.
Qed.

(** X16.  A body that does not parse is treated as an empty object: a request
    with nothing else to go by is taken for a webhook event and
    acknowledged with 200, with the three CORS headers, without reaching
    the provider. *)
Theorem unparsable_body_is_acknowledged (event : Event) (w : World)
    (text : string) (e : Error) :
  httpMethod event <> Some "OPTIONS" ->
  lastPathPart event = "" ->
  path event <> Some "/createBooking" ->
  default ∅ (queryStringParameters event) = ∅ ->
  body event = Some (JStr text) ->
  JSON_parse (JStr text) = inl e ->
  handler_ event w = (Return (withCors acknowledged), w)
  /\ statusCode (withCors acknowledged) = 200.
Proof.
  intros Hm Hl Hp Hq Hb Hparse. split; [| reflexivity].
  assert (Hbody : parseBody JSON_parse event = JObj ∅).
  { unfold parseBody. rewrite Hb. cbn [truthy].
    destruct (negb _); [by rewrite Hparse | done]. }
  unfold handler, try_catch. rewrite bool_decide_eq_false_2 by done.
  unfold mbind, M_bind, bind. rewrite Hbody, Hq.
  destruct (resolveAction_from_body event (JObj ∅) ∅ w Hl Hp)
    as (_ & Hdefault & _); [done |].
  rewrite Hdefault by done.
  assert (Hparams : buildParams (JObj ∅) (JStr "handleVapiWebhook") ∅
                    = <["action" := JStr "handleVapiWebhook"]> ∅).
  { unfold buildParams, mergeQueryParams. by rewrite map_to_list_empty. }
  rewrite Hparams. unfold route. cbn [isStr String.eqb Ascii.eqb Bool.eqb].
  destruct (handleVapiWebhook_other_events JSON_parse parseInt Date_getTime
              toISOString toNumber toString provider
              (<["action" := JStr "handleVapiWebhook"]> ∅) w) as [Hack _].
  rewrite Hack by done. reflexivity.
Qed.

(** X17.  [getAvailableSlots] on a request that names no dates and no API
    key asks the provider once, under the configured key, for the slots of
    the two weeks from now: the end sent is the instant fourteen days after
    the start, which is the clock's reading.  The configuration stays as it
    was. *)
Theorem getAvailableSlots_defaults_to_two_weeks (params : gmap string json)
    (w : World) (key : string) :
  truthy (params !! "startTime") = false ->
  truthy (params !! "startDate") = false ->
  truthy (params !! "start") = false ->
  truthy (params !! "endTime") = false ->
  truthy (params !! "endDate") = false ->
  truthy (params !! "end") = false ->
  truthy (params !! "apiKey") = false -> truthy (params !! "api_key") = false ->
  cal_apiKey (config w) = JStr key ->
  Date_getTime (Some (JStr (toISOString now))) = now ->
  let eventTypeId :=
    or_else (or_else (params !! "eventTypeId") (params !! "event_type_id"))
      (Some (cal_eventTypeId (config w))) in
  truthy eventTypeId = true ->
  (getAvailableSlots Date_getTime toISOString LocalTZA now provider
     (Some (JObj params)) w).2
  = {| config := config w;
       calls :=
         (calls w
          ++ [ {| operation := "calApi.getSlots";
                  arguments :=
                    [ Some (JObj (obj
                        [ ("startTime", Some (JStr (toISOString now)));
                          ("endTime",
                           Some (JStr (toISOString (now + 14 * msPerDay))));
                          ("eventTypeId", eventTypeId);
                          ("apiKey", Some (JStr key)) ])) ] |} ])%list |}.
Proof.
  intros Hs1 Hs2 Hs3 He1 He2 He3 Hk1 Hk2 Hcfg Hround eventTypeId Hevt.
  unfold getAvailableSlots. exec.
  assert (Hstart : or_else (or_else (params !! "startTime") (params !! "startDate"))
                     (params !! "start") = params !! "start").
  { unfold or_else. by rewrite Hs1, Hs2. }
  assert (Hend : or_else (or_else (params !! "endTime") (params !! "endDate"))
                   (params !! "end") = params !! "end").
  { unfold or_else. by rewrite He1, He2. }
  rewrite Hstart, Hs3, Hend, He3. reduce.
  assert (Hkey : or_else (or_else (params !! "apiKey") (params !! "api_key"))
                   (Some (cal_apiKey (config w))) = Some (JStr key)).
  { unfold or_else. by rewrite Hk1, Hk2, Hcfg. }
  rewrite Hkey. reduce.
  assert (Hsame : strictEq (JStr key) (cal_apiKey (config w)) = true).
  { rewrite Hcfg. simpl. apply String.eqb_refl. }
  rewrite Hsame. cbn [negb]. rewrite andb_false_r. reduce.
  fold eventTypeId. rewrite Hevt. reduce.
  cbn [sliceable negb]. rewrite andb_false_r. reduce.
  rewrite setDate_plus_days, Hround, Hcfg. by destruct (provider _ _).
Qed.
End Handler.

Lemma trial_started_preconditions_witness :
  handleTrialStarted Sample.provider
    (Some (JObj (<["name" := JStr "Ada"]> ∅))) Sample.world
  = (Return (json_response 400
               [ ("success", Some (JBool false));
                 ("error", Some (JStr "Missing required parameters")) ]),
     Sample.world)
  /\ handleTrialStarted Sample.provider (Some (JObj Scenario.trialBody))
       Scenario.noAssistant
     = (Return (json_response 500
                  [ ("success", Some (JBool false));
                    ("error", Some (JStr "No VAPI assistant ID configured")) ]),
        Scenario.noAssistant).
Proof.
  split.
  - apply (trial_started_preconditions Sample.provider
             (<["name" := JStr "Ada"]> ∅) Sample.world).
    reflexivity.
  - apply (trial_started_preconditions Sample.provider Scenario.trialBody
             Scenario.noAssistant); reflexivity.
Defined.

Lemma trial_started_sip_then_plain_witness :
  exists w',
    handleTrialStarted Scenario.sipDown (Some (JObj Scenario.trialBody))
      Sample.world
    = (Return (json_response 200
                 [ ("success", Some (JBool true));
                   ("callId", Some (JStr "call-1"));
                   ("message", Some (JStr "Call initiated successfully")) ]), w')
    /\ operation <$> calls w'
       = ["vapiService.createSipCall"; "vapiService.createCall"].
Proof.
  destruct (trial_started_sip_then_plain Scenario.sipDown Scenario.trialBody
              Sample.world) as (_ & Hplain & _); [reflexivity | reflexivity |].
  pose proof (Hplain (mkError "Error" "SIP trunk unavailable")
                (JObj (<["id" := JStr "call-1"]> ∅)) eq_refl eq_refl eq_refl)
    as Hrun.
  eexists. split; [exact Hrun | reflexivity].
Defined.

Lemma unknown_action_rejected_witness :
  Sample.handler (Sample.request "GET" None [("action", "deleteEverything")] None)
    Sample.world
  = (Return (handleError (ValidationError "Invalid action specified" "action")),
     Sample.world)
  /\ statusCode (handleError (ValidationError "Invalid action specified" "action"))
     = 400.
Proof.
  apply (unknown_action_rejected Sample.JSON_parse Sample.parseInt
           Sample.Date_getTime Sample.toISOString Sample.toNumber
           Sample.toString 0 Sample.now Sample.provider
           (Sample.request "GET" None [("action", "deleteEverything")] None)
           Sample.world "deleteEverything").
  - discriminate.
  - vm_compute. discriminate.
  - reflexivity.
  - discriminate.
  - apply (bool_decide_unpack _). vm_compute. exact I.
Defined.

Lemma action_resolution_order_witness :
  resolveAction
    (Sample.request "POST" (Some "/prod/createBooking")
       [("action", "cancelBooking")] None)
    (JObj (<["action" := JStr "checkAvailability"]> ∅))
    (<["action" := "cancelBooking"]> ∅) Sample.world
  = (Return (JStr "createBooking"), Sample.world)
  /\ resolveAction
       (Sample.request "POST" (Some "/prod/checkAvailability")
          [("action", "cancelBooking")] None)
       (JObj (<["action" := JStr "getBookingDetails"]> ∅))
       (<["action" := "cancelBooking"]> ∅) Sample.world
     = (Return (JStr "cancelBooking"), Sample.world)
  /\ resolveAction (Sample.request "POST" None [] None)
       (JObj (<["action" := JStr "getBookingDetails"]> ∅)) ∅ Sample.world
     = (Return (JStr "getBookingDetails"), Sample.world)
  /\ resolveAction (Sample.request "POST" None [] None)
       (JObj (<["type" := JStr "transcript"]> ∅)) ∅ Sample.world
     = (Return (JStr "handleVapiWebhook"), Sample.world).
Proof.
  split; [| split; [| split]].
  - apply (proj1 (action_resolution_order
                    (Sample.request "POST" (Some "/prod/createBooking")
                       [("action", "cancelBooking")] None)
                    (JObj (<["action" := JStr "checkAvailability"]> ∅))
                    (<["action" := "cancelBooking"]> ∅) Sample.world)).
    reflexivity.
  - apply (proj1 (proj2 (action_resolution_order
                           (Sample.request "POST" (Some "/prod/checkAvailability")
                              [("action", "cancelBooking")] None)
                           (JObj (<["action" := JStr "getBookingDetails"]> ∅))
                           (<["action" := "cancelBooking"]> ∅) Sample.world)));
      [vm_compute; discriminate | reflexivity | discriminate].
  - apply (proj2 (proj2 (action_resolution_order
                           (Sample.request "POST" None [] None)
                           (JObj (<["action" := JStr "getBookingDetails"]> ∅))
                           ∅ Sample.world)));
      [reflexivity | discriminate | reflexivity | reflexivity | reflexivity].
  - apply (proj2 (proj2 (action_resolution_order
                           (Sample.request "POST" None [] None)
                           (JObj (<["type" := JStr "transcript"]> ∅))
                           ∅ Sample.world)));
      [reflexivity | discriminate | reflexivity | discriminate | reflexivity].
Defined.

Lemma null_body_is_500_witness :
  exists r,
    handler Scenario.JSON_parse Sample.parseInt Sample.Date_getTime
      Sample.toISOString Sample.toNumber Sample.toString 0 Sample.now
      Sample.provider
      (Sample.request "POST" None [] (Some (JStr "null"))) Sample.world
    = (Return r, Sample.world)
    /\ statusCode r = 500
    /\ optProp (Some (response_body r)) "type" = Some (JStr "TypeError")
    /\ optProp (Some (response_body r)) "success" = Some (JBool false).
Proof.
  apply (null_body_is_500 Scenario.JSON_parse Sample.parseInt Sample.Date_getTime
           Sample.toISOString Sample.toNumber Sample.toString 0 Sample.now
           Sample.provider
           (Sample.request "POST" None [] (Some (JStr "null"))) Sample.world
           "null");
    try reflexivity; discriminate.
Defined.

Lemma unparsable_body_is_acknowledged_witness :
  Sample.handler (Sample.request "POST" None [] (Some (JStr "{ not json")))
    Sample.world
  = (Return (withCors acknowledged), Sample.world)
  /\ statusCode (withCors acknowledged) = 200.
Proof.
  apply (unparsable_body_is_acknowledged Sample.JSON_parse Sample.parseInt
           Sample.Date_getTime Sample.toISOString Sample.toNumber
           Sample.toString 0 Sample.now Sample.provider
           (Sample.request "POST" None [] (Some (JStr "{ not json")))
           Sample.world "{ not json" (mkError "SyntaxError" "Unexpected token"));
    try reflexivity; discriminate.
Defined.

Lemma getAvailableSlots_defaults_to_two_weeks_witness :
  (getAvailableSlots Scenario.Date_getTime Scenario.toISOString 0 Sample.now
     Sample.provider (Some (JObj ∅)) Sample.world).2
  = {| config := config Sample.world;
       calls :=
         [ {| operation := "calApi.getSlots";
              arguments :=
                [ Some (JObj (obj
                    [ ("startTime", Some (JStr "2025-06-01T00:00:00.000Z"));
                      ("endTime", Some (JStr "2025-06-15T00:00:00.000Z"));
                      ("eventTypeId", Some (JStr "2077162"));
                      ("apiKey", Some (JStr "cal_live_default")) ])) ] |} ] |}.
Proof.
  exact (getAvailableSlots_defaults_to_two_weeks Scenario.Date_getTime
           Scenario.toISOString 0 Sample.now Sample.provider ∅ Sample.world
           "cal_live_default" eq_refl eq_refl eq_refl eq_refl eq_refl eq_refl
           eq_refl eq_refl eq_refl eq_refl eq_refl).
Defined.

End RoutingProperties.

(** * Further properties of the date repair *)
Module RepairProperties.
Import JSDate JS CalApi Legacy DateFacts LegacyFacts RepairFacts.

Local Open Scope string_scope.
Local Open Scope Z_scope.

Section Repair.
Variables LocalTZA now : Z.

(** X18.  A start in the current year that is not after now is moved to
    tomorrow's local calendar day, at the hour and minute of the requested
    start with seconds and milliseconds zero; the new start is after now
    and less than two days away. *)
Theorem past_date_this_year_moves_to_tomorrow (params : BookingParams)
    (start : Z) (e : option DateText) :
  getFullYear LocalTZA start = getFullYear LocalTZA now -> start <= now ->
  exists r,
    startTime (dateRepair LocalTZA now params start e) = Some (Instant r)
    /\ Day (LocalTime LocalTZA r) = Day (LocalTime LocalTZA now) + 1
    /\ getHours LocalTZA r = getHours LocalTZA start
    /\ getMinutes LocalTZA r = getMinutes LocalTZA start
    /\ SecFromTime (LocalTime LocalTZA r) = 0
    /\ msFromTime (LocalTime LocalTZA r) = 0
    /\ now < r < now + 2 * msPerDay.
Proof.
  intros Hy Hle.
  assert (Hpy : isPastYear LocalTZA now start = false).
  { unfold isPastYear. apply Z.ltb_ge. lia. }
  assert (Hpd : isPastDate now start = true) by (by apply Z.leb_le).
  exists (adjustedDate LocalTZA now start). split.
  - apply dateRepair_startTime. by rewrite Hpy, Hpd.
  - by apply adjustedDate_this_year.
Qed.

(** X19.  The repair block leaves [params.startTime] after now in every case:
    a start in the future is left as it is, and any other start is replaced
    by one after now. *)
Theorem repaired_start_is_in_the_future (params : BookingParams) (start : Z)
    (e : option DateText) :
  startTime params = Some (Instant start) ->
  exists r,
    startTime (dateRepair LocalTZA now params start e) = Some (Instant r)
    /\ now < r
    /\ (now < start -> r = start
        /\ dateRepair LocalTZA now params start e = params).
Proof.
  intros Hs. eexists. split; [by apply dateRepair_start |].
  destruct (Z.leb_spec start now) as [Hle | Hgt].
  - split; [apply adjustedDate_future | lia].
  - split; [done |]. intros _. split; [done |].
    apply dateRepair_untouched. rewrite repair_fires. by apply Z.leb_gt.
Qed.
End Repair.

Lemma past_date_this_year_moves_to_tomorrow_witness :
  exists r,
    startTime (dateRepair 0 Sample.now
                 (Sample.legacyRequest Scenario.marchStart None)
                 Scenario.marchStart None) = Some (Instant r)
    /\ Day (LocalTime 0 r) = Day (LocalTime 0 Sample.now) + 1
    /\ getHours 0 r = getHours 0 Scenario.marchStart
    /\ getMinutes 0 r = getMinutes 0 Scenario.marchStart
    /\ SecFromTime (LocalTime 0 r) = 0
    /\ msFromTime (LocalTime 0 r) = 0
    /\ Sample.now < r < Sample.now + 2 * msPerDay.
Proof.
  apply (past_date_this_year_moves_to_tomorrow 0 Sample.now
           (Sample.legacyRequest Scenario.marchStart None) Scenario.marchStart
           None).
  - vm_compute. reflexivity.
  - unfold Scenario.marchStart, Sample.now. lia.
Defined.

Lemma repaired_start_is_in_the_future_witness :
  exists r,
    startTime (dateRepair 0 Sample.now
                 (Sample.legacyRequest Sample.pastStart (Some Sample.pastEnd))
                 Sample.pastStart (Some (Instant Sample.pastEnd)))
    = Some (Instant r)
    /\ Sample.now < r
    /\ (Sample.now < Sample.pastStart ->
        r = Sample.pastStart
        /\ dateRepair 0 Sample.now
             (Sample.legacyRequest Sample.pastStart (Some Sample.pastEnd))
             Sample.pastStart (Some (Instant Sample.pastEnd))
           = Sample.legacyRequest Sample.pastStart (Some Sample.pastEnd)).
Proof.
  apply (repaired_start_is_in_the_future 0 Sample.now
           (Sample.legacyRequest Sample.pastStart (Some Sample.pastEnd))
           Sample.pastStart (Some (Instant Sample.pastEnd))).
  reflexivity.
Defined.

End RepairProperties.

(** * Further properties of the booking orchestrator *)
Module OrchestratorProperties.
Import JSDate JS CalApi Legacy LegacyCalls DateFacts LegacyFacts RepairFacts.

Local Open Scope string_scope.
Local Open Scope list_scope.
Local Open Scope Z_scope.

Section Orchestrator.
Variable LocalTZA : Z.
Variable created : Z.
Variable config_eventTypeId : string.
Variable calApi : list ProviderCall -> ProviderCall -> Error + json.
Variable formatAvailabilityForVoice : json -> list Slot.

Abbreviation createBooking_ now :=
  (createBooking LocalTZA now created config_eventTypeId calApi
     formatAvailabilityForVoice).
Abbreviation preflight_ := (preflight LocalTZA config_eventTypeId).
Abbreviation widened_ := (widened LocalTZA config_eventTypeId).
Abbreviation booking_ := (booking created config_eventTypeId).
Abbreviation onError_ :=
  (onError LocalTZA calApi formatAvailabilityForVoice).

Ltac run_orchestrator :=
  repeat (cbv beta iota zeta delta
            [try_catch attempt mbind M_bind bind call throw mret M_ret ret];
          match goal with
          | |- context [calApi ?t ?c] => destruct (calApi t c) eqn:?
          | |- context [if negb ?b then _ else _] => destruct b eqn:?; cbn [negb]
          | |- context [onError_ ?a ?b ?c ?d ?s] =>
              destruct (onError_ a b c d s) as [[? | ?] ?]
          end).

(** The four ways the [catch] of lines 735-769 can go. *)
Lemma onError_cases (start : Z) (tz evt : string) (error : Error)
    (asked : list ProviderCall) :
  let wide :=
    GetAvailability evt (dayAround LocalTZA start (-3))
      (dayAround LocalTZA start 7) tz in
  let caught := onError_ start tz evt error asked in
  (exists typeError,
     testThrows error = Some typeError /\ caught = (Throw typeError, asked))
  \/ (testThrows error = None /\ slotTaken error = false
      /\ caught = (Throw error, asked))
  \/ (slotTaken error = true
      /\ exists lookupError,
           calApi asked wide = inl lookupError
           /\ caught = (Throw error, asked ++ [wide]))
  \/ (slotTaken error = true
      /\ exists availability,
           calApi asked wide = inr availability
           /\ caught
              = (Return (conflictResponse
                           (findAlternativeTimeSlots
                              (formatAvailabilityForVoice availability) start 5)),
                 asked ++ [wide])).
Proof.
  intros wide caught. subst caught.
  unfold onError, testThrows, slotTaken, refusedByProvider.
  destruct (bool_decide (source error = Some "cal")
            && bool_decide (err_statusCode error = Some 400));
    cbn [andb]; [| right; left; done].
  destruct (saysAlreadyBooked error) as [typeError | []].
  - left. by exists typeError.
  - right. right.
    cbv beta iota zeta delta
      [try_catch mbind M_bind bind call throw mret M_ret ret].
    fold wide.
    destruct (calApi asked wide) as [lookupError | availability] eqn:Hw;
      [left | right]; (split; [done |]); eexists; (split; [reflexivity |]);
      done.
  - right. left. done.
Qed.

(** The run of [createBooking] on a request that passes validation and
    the repair block, with the repaired [params] object and the three
    requests named. *)
Lemma createBooking_valid now (params : BookingParams) (trace : list ProviderCall)
    (n e tz : string) (start : Z) :
  name params = Some n -> n <> "" -> email params = Some e -> e <> "" ->
  startTime params = Some (Instant start) ->
  (now < start \/ endTime params <> Some NotADate) ->
  timeZone params = Some tz -> tz <> "" ->
  let params' := dateRepair LocalTZA now params start (endTime params) in
  let pre := preflight_ params start tz in
  let book := booking_ params n e start tz in
  createBooking_ now params trace
  = (let '(result, trace') :=
       try_catch
         (availability ← call calApi pre;
          if negb (isTimeSlotAvailable (formatAvailabilityForVoice availability)
                     start)
          then mret (conflictResponse
                       (findAlternativeTimeSlots
                          (formatAvailabilityForVoice availability) start 5))
          else
            booked ← call calApi book;
            let dateAdjusted :=
              negb (bool_decide (Some (Instant start) = startTime params')) in
            mret {| statusCode := 200;
                    body := Booked true booked
                              (if dateAdjusted
                               then AdjustedNote start (startTime params')
                               else Text "Booking created successfully")
                              dateAdjusted (Some start) (startTime params') |})
         (onError_ start tz (eventTypeIdOf config_eventTypeId params)) trace in
     (result, params', trace')).
Proof.
  intros Hn Hn' He He' Hs Hend Htz Htz' params' pre book.
  unfold createBooking. rewrite Hn, He, Hs, Htz.
  apply String.eqb_neq in Hn', He', Htz'. rewrite Hn', He', Htz'.
  cbn [orb]. apply (repairThrows_iff LocalTZA now) in Hend. rewrite Hend.
  destruct (dateRepair_frame LocalTZA now params start (endTime params))
    as (_ & _ & _ & Hevt).
  fold params' in Hevt |- *. rewrite Hevt. reflexivity.
Qed.

(** A request that passes validation and carries a date that cannot be
    read: nothing is sent. *)
Lemma createBooking_unreadable now (params : BookingParams)
    (trace : list ProviderCall) (n e tz : string) :
  name params = Some n -> n <> "" -> email params = Some e -> e <> "" ->
  timeZone params = Some tz -> tz <> "" ->
  (startTime params = Some NotADate ->
   createBooking_ now params trace = (Throw invalidTime, params, trace))
  /\ (forall start,
        startTime params = Some (Instant start) -> start <= now ->
        endTime params = Some NotADate ->
        createBooking_ now params trace
        = (Throw invalidTime,
           set_startTime params (Instant (adjustedDate LocalTZA now start)),
           trace)).
Proof.
  intros Hn Hn' He He' Htz Htz'.
  apply String.eqb_neq in Hn', He', Htz'.
  split.
  - intros Hs. unfold createBooking.
    by rewrite Hn, He, Hs, Htz, Hn', He', Htz'.
  - intros start Hs Hle Hend. unfold createBooking.
    rewrite Hn, He, Hs, Htz, Hn', He', Htz'. cbn [orb].
    rewrite repairThrows_true by (by rewrite ?repair_fires; try apply Z.leb_le).
    unfold dateRepair. rewrite repair_fires.
    destruct (Z.leb_spec start now); [| lia].
    cbn [set_startTime endTime]. by rewrite Hend.
Qed.

(** The ten ways a call that passed validation and the repair block can
    go. *)
Lemma createBooking_cases now (params : BookingParams) (trace : list ProviderCall)
    (n e tz : string) (start : Z) :
  name params = Some n -> n <> "" -> email params = Some e -> e <> "" ->
  startTime params = Some (Instant start) ->
  (now < start \/ endTime params <> Some NotADate) ->
  timeZone params = Some tz -> tz <> "" ->
  let params' := dateRepair LocalTZA now params start (endTime params) in
  let pre := preflight_ params start tz in
  let book := booking_ params n e start tz in
  let wide := widened_ params start tz in
  let alternatives availability :=
    findAlternativeTimeSlots (formatAvailabilityForVoice availability) start 5 in
  let run := createBooking_ now params trace in
  let refused (asked : list ProviderCall) (error : Error) :=
    (exists typeError,
       testThrows error = Some typeError
       /\ run = (Throw typeError, params', trace ++ asked))
    \/ (testThrows error = None /\ slotTaken error = false
        /\ run = (Throw error, params', trace ++ asked))
    \/ (slotTaken error = true
        /\ exists lookupError,
             calApi (trace ++ asked) wide = inl lookupError
             /\ run = (Throw error, params', trace ++ asked ++ [wide]))
    \/ (slotTaken error = true
        /\ exists availability,
             calApi (trace ++ asked) wide = inr availability
             /\ run = (Return (conflictResponse (alternatives availability)),
                       params', trace ++ asked ++ [wide]))%list in
  (exists error, calApi trace pre = inl error /\ refused [pre] error)
  \/ (exists availability,
        calApi trace pre = inr availability
        /\ isTimeSlotAvailable (formatAvailabilityForVoice availability) start
           = false
        /\ run = (Return (conflictResponse (alternatives availability)),
                  params', trace ++ [pre])%list)
  \/ (exists availability error,
        calApi trace pre = inr availability
        /\ isTimeSlotAvailable (formatAvailabilityForVoice availability) start
           = true
        /\ calApi (trace ++ [pre]) book = inl error
        /\ refused [pre; book] error)
  \/ (exists availability booked,
        calApi trace pre = inr availability
        /\ isTimeSlotAvailable (formatAvailabilityForVoice availability) start
           = true
        /\ calApi (trace ++ [pre]) book = inr booked
        /\ let dateAdjusted :=
             negb (bool_decide (Some (Instant start) = startTime params')) in
           run = (Return {| statusCode := 200;
                            body := Booked true booked
                                      (if dateAdjusted
                                       then AdjustedNote start (startTime params')
                                       else Text "Booking created successfully")
                                      dateAdjusted (Some start)
                                      (startTime params') |},
                  params', trace ++ [pre; book])%list).
Proof.
  intros Hn Hn' He He' Hs Hend Htz Htz' params' pre book wide alternatives run
    refused.
  subst run refused.
  rewrite (createBooking_valid now params trace n e tz start) by done.
  fold params' pre book.
  assert (Hcaught : forall error asked,
    let caught :=
      onError_ start tz (eventTypeIdOf config_eventTypeId params) error
        (trace ++ asked) in
    (exists typeError,
       testThrows error = Some typeError
       /\ (let '(result, trace') := caught in (result, params', trace'))
          = (Throw typeError, params', trace ++ asked))
    \/ (testThrows error = None /\ slotTaken error = false
        /\ (let '(result, trace') := caught in (result, params', trace'))
           = (Throw error, params', trace ++ asked))
    \/ (slotTaken error = true
        /\ exists lookupError,
             calApi (trace ++ asked) wide = inl lookupError
             /\ (let '(result, trace') := caught in (result, params', trace'))
                = (Throw error, params', trace ++ asked ++ [wide]))
    \/ (slotTaken error = true
        /\ exists availability,
             calApi (trace ++ asked) wide = inr availability
             /\ (let '(result, trace') := caught in (result, params', trace'))
                = (Return (conflictResponse (alternatives availability)),
                   params', trace ++ asked ++ [wide]))).
  { intros error asked caught. subst caught.
    destruct (onError_cases start tz (eventTypeIdOf config_eventTypeId params)
                error (trace ++ asked))
      as [(t & Ht & ->) | [(Ht & Hst & ->) | [(Hst & le & Hw & ->)
                                             | (Hst & av & Hw & ->)]]].
    - left. by exists t.
    - right. left. done.
    - right. right. left. split; [done |]. exists le.
      split; [exact Hw | by rewrite <- app_assoc].
    - right. right. right. split; [done |]. exists av.
      split; [exact Hw | by rewrite <- app_assoc]. }
  cbv beta iota zeta delta
    [try_catch mbind M_bind bind call throw mret M_ret ret].
  destruct (calApi trace pre) as [error | availability] eqn:Hpre.
  - left. exists error. split; [done |]. apply (Hcaught error [pre]).
  - right.
    destruct (isTimeSlotAvailable (formatAvailabilityForVoice availability) start)
      eqn:Ha; cbn [negb]; [| left; by exists availability].
    right.
    destruct (calApi (trace ++ [pre]) book) as [error | booked] eqn:Hb.
    + left. exists availability, error. split; [done |]. split; [done |].
      split; [done |].
      replace ((trace ++ [pre]) ++ [book]) with (trace ++ [pre; book])
        by (by rewrite <- app_assoc).
      apply (Hcaught error [pre; book]).
    + right. exists availability, booked. split; [done |]. split; [done |].
      split; [done |]. by rewrite <- ?app_assoc.
Qed.

(** X20.  A call that passes validation sends the provider nothing when a
    date cannot be read: a start that is no date throws a [RangeError] at
    line 554, and so does, at line 620, an end that is no date once the
    repair has replaced [params.startTime].  Every other call sends one of
    four sequences of requests: the availability query alone; the query
    and the booking; or either of these followed by the widened query.
    The booking is requested at most once, never before the query, and
    always for the start and end that came in. *)
Theorem createBooking_request_sequences now (params : BookingParams)
    (trace : list ProviderCall) (n e tz : string) :
  name params = Some n -> n <> "" -> email params = Some e -> e <> "" ->
  timeZone params = Some tz -> tz <> "" ->
  let run := createBooking_ now params trace in
  (startTime params = Some NotADate ->
   run = (Throw invalidTime, params, trace))
  /\ (forall start,
        startTime params = Some (Instant start) -> start <= now ->
        endTime params = Some NotADate ->
        run = (Throw invalidTime,
               set_startTime params (Instant (adjustedDate LocalTZA now start)),
               trace))
  /\ (forall start,
        startTime params = Some (Instant start) ->
        (now < start \/ endTime params <> Some NotADate) ->
        let pre := preflight_ params start tz in
        let book := booking_ params n e start tz in
        let wide := widened_ params start tz in
        exists made,
          run.2 = (trace ++ made)%list
          /\ (made = [pre] \/ made = [pre; wide] \/ made = [pre; book]
              \/ made = [pre; book; wide])).
Proof.
  intros Hn Hn' He He' Htz Htz' run. subst run.
  destruct (createBooking_unreadable now params trace n e tz) as [H1 H2];
    try done.
  split; [exact H1 |]. split; [exact H2 |].
  intros start Hs Hend pre book wide.
  destruct (createBooking_cases now params trace n e tz start)
    as [(? & _ & [(? & _ & ->) | [(_ & _ & ->)
                 | [(_ & ? & _ & ->) | (_ & ? & _ & ->)]]])
       | [(? & _ & _ & ->)
         | [(? & ? & _ & _ & _ & [(? & _ & ->) | [(_ & _ & ->)
                 | [(_ & ? & _ & ->) | (_ & ? & _ & ->)]]])
           | (? & ? & _ & _ & _ & ->)]]]; try done;
    eexists; (split; [reflexivity |]); cbn [app]; tauto.
Qed.

(** X21.  The reading of the clock on entry (line 552) has no part in what
    the provider is asked, for a request whose end time is absent or a
    date: for any two such readings and one reading of the clock when the
    booking request is built (line 680, sent as [metadata.created]), the
    requests sent are the same, and so are the status, the [success] flag
    and the alternatives of the response, or the error thrown. *)
Theorem provider_requests_independent_of_clock (now now' : Z)
    (params : BookingParams) (trace : list ProviderCall) :
  endTime params <> Some NotADate ->
  (createBooking_ now params trace).2 = (createBooking_ now' params trace).2
  /\ match (createBooking_ now params trace).1.1,
           (createBooking_ now' params trace).1.1 with
     | Return r, Return r' =>
         statusCode r = statusCode r'
         /\ success_of (body r) = success_of (body r')
         /\ alternativeSlots_of (body r) = alternativeSlots_of (body r')
     | Throw error, Throw error' => error = error'
     | _, _ => False
     end.
Proof.
  intros Hend.
  destruct (name params) as [n |] eqn:Hn;
    [| unfold createBooking; rewrite Hn; done].
  destruct (email params) as [e |] eqn:He;
    [| unfold createBooking; rewrite Hn, He; done].
  destruct (startTime params) as [start |] eqn:Hs;
    [| unfold createBooking; rewrite Hn, He, Hs; done].
  destruct (timeZone params) as [tz |] eqn:Htz;
    [| unfold createBooking; rewrite Hn, He, Hs, Htz; done].
  destruct (String.eqb n "" || String.eqb e "" || String.eqb tz "") eqn:Hv;
    [unfold createBooking; rewrite Hn, He, Hs, Htz, Hv; done |].
  destruct start as [start |];
    [| unfold createBooking; rewrite Hn, He, Hs, Htz, Hv; done].
  apply orb_false_iff in Hv as [[Hn' He']%orb_false_iff Htz'].
  apply String.eqb_neq in Hn', He', Htz'.
  rewrite (createBooking_valid now params trace n e tz start) by auto.
  rewrite (createBooking_valid now' params trace n e tz start) by auto.
  run_orchestrator; cbv beta iota zeta delta [fst snd]; done.
Qed.

(** X22.  An error thrown for a request that passed validation and the
    repair block is the provider's answer to the availability query or to
    the booking request, unchanged, unless the test of lines 739-740 throws
    on it: a 400 of source [cal] whose [details.error.message] is a number,
    a boolean or an object has no function [includes], and the [TypeError]
    of that call is thrown in its place, with nothing more asked.  The
    error of the widened query is never the one thrown: when the provider's
    refusal is of the taken-slot kind the widened query was sent and
    failed, and otherwise no request followed the refusal. *)
Theorem createBooking_throws_first_provider_error now (params : BookingParams)
    (trace : list ProviderCall) (n e tz : string) (start : Z) (error : Error) :
  name params = Some n -> n <> "" -> email params = Some e -> e <> "" ->
  startTime params = Some (Instant start) ->
  (now < start \/ endTime params <> Some NotADate) ->
  timeZone params = Some tz -> tz <> "" ->
  (createBooking_ now params trace).1.1 = Throw error ->
  let pre := preflight_ params start tz in
  let book := booking_ params n e start tz in
  let wide := widened_ params start tz in
  exists asked refusal,
    ((asked = [pre] /\ calApi trace pre = inl refusal)
     \/ (asked = [pre; book]
         /\ calApi (trace ++ [pre]) book = inl refusal))
    /\ error = match testThrows refusal with
               | Some _ => includesNotAFunction
               | None => refusal
               end
    /\ (createBooking_ now params trace).2
       = (trace ++ asked ++ (if slotTaken refusal then [wide] else []))%list
    /\ (slotTaken refusal = true ->
        exists lookupError, calApi (trace ++ asked) wide = inl lookupError).
Proof.
  intros Hn Hn' He He' Hs Hend Htz Htz' Hthrow pre book wide.
  assert (Htest : forall refusal t,
            testThrows refusal = Some t
            -> t = includesNotAFunction /\ slotTaken refusal = false).
  { intros refusal t. unfold testThrows, slotTaken, saysAlreadyBooked.
    destruct (refusedByProvider refusal); [| done].
    destruct (detailsMessage refusal) as [[] |]; try done; by intros [= <-]. }
  assert (Htaken : forall refusal,
            slotTaken refusal = true -> testThrows refusal = None).
  { intros refusal. unfold testThrows, slotTaken.
    destruct (refusedByProvider refusal); [| done].
    by destruct (saysAlreadyBooked refusal) as [? | []]. }
  destruct (createBooking_cases now params trace n e tz start)
    as [(err & Hpre & Href)
       | [(? & _ & _ & Hrun)
         | [(? & err & _ & _ & Hbook & Href)
           | (? & ? & _ & _ & _ & Hrun)]]]; try done.
  2, 4: rewrite Hrun in Hthrow; discriminate.
  - exists [pre], err.
    destruct Href as [(t & Ht & Hrun) | [(Ht & Hst & Hrun)
                     | [(Hst & le & Hw & Hrun) | (Hst & av & Hw & Hrun)]]];
      rewrite Hrun in Hthrow |- *; try discriminate;
      injection Hthrow as <-; cbn [snd].
    + destruct (Htest err t Ht) as [-> Hst]. rewrite Ht, Hst.
      split; [by left |]. split; [done |].
      split; [by rewrite app_nil_r | discriminate].
    + rewrite Ht, Hst. split; [by left |]. split; [done |].
      split; [by rewrite app_nil_r | discriminate].
    + rewrite (Htaken err Hst), Hst. split; [by left |]. split; [done |].
      split; [done | eauto].
  - exists [pre; book], err.
    destruct Href as [(t & Ht & Hrun) | [(Ht & Hst & Hrun)
                     | [(Hst & le & Hw & Hrun) | (Hst & av & Hw & Hrun)]]];
      rewrite Hrun in Hthrow |- *; try discriminate;
      injection Hthrow as <-; cbn [snd].
    + destruct (Htest err t Ht) as [-> Hst]. rewrite Ht, Hst.
      split; [by right |]. split; [done |].
      split; [by rewrite app_nil_r | discriminate].
    + rewrite Ht, Hst. split; [by right |]. split; [done |].
      split; [by rewrite app_nil_r | discriminate].
    + rewrite (Htaken err Hst), Hst. split; [by right |]. split; [done |].
      split; [done | eauto].
Qed.

(** X23.  A booking the provider accepted is answered with status 200, the
    start that came in as [originalDate] and [params.startTime] as
    [adjustedDate]; [dateAdjusted] is set exactly when the start was not
    after now, and [adjustedDate] is after now in every case.  The provider
    was asked for the start that came in. *)
Theorem dateAdjusted_iff_start_not_after_now now (params : BookingParams)
    (trace : list ProviderCall) (n e tz : string) (start : Z) (r : Response) :
  name params = Some n -> n <> "" -> email params = Some e -> e <> "" ->
  startTime params = Some (Instant start) ->
  timeZone params = Some tz -> tz <> "" ->
  (createBooking_ now params trace).1.1 = Return r ->
  statusCode r = 200 ->
  dateAdjusted_of (body r) = Some (start <=? now)
  /\ originalDate_of (body r) = Some start
  /\ adjustedDate_of (body r)
     = startTime (createBooking_ now params trace).1.2
  /\ (exists adjusted,
        adjustedDate_of (body r) = Some (Instant adjusted) /\ now < adjusted)
  /\ (createBooking_ now params trace).2
     = (trace ++ [preflight_ params start tz; booking_ params n e start tz])%list.
Proof.
  intros Hn Hn' He He' Hs Htz Htz' Hret Hstatus.
  pose proof (dateRepair_start LocalTZA now params start (endTime params) Hs) as Hr.
  pose proof (adjustedDate_future LocalTZA now start) as Hfut.
  assert (Hend : now < start \/ endTime params <> Some NotADate).
  { destruct (Z.leb_spec start now) as [Hle |]; [| by left].
    destruct (decide (endTime params = Some NotADate)) as [Hbad |]; [| by right].
    destruct (createBooking_unreadable now params trace n e tz) as [_ H];
      try done.
    rewrite (H start) in Hret by done. discriminate Hret. }
  destruct (createBooking_cases now params trace n e tz start)
    as [(err & Hpre & Href)
       | [(? & _ & _ & Hrun)
         | [(? & err & _ & _ & Hbook & Href)
           | (? & ? & _ & _ & _ & Hrun)]]]; try done.
  1, 3: destruct Href as [(t & Ht & Hrun) | [(Ht & Hst & Hrun)
                         | [(Hst & le & Hw & Hrun) | (Hst & av & Hw & Hrun)]]];
    rewrite Hrun in Hret; try discriminate; injection Hret as <-;
    discriminate Hstatus.
  - rewrite Hrun in Hret. injection Hret as <-. discriminate Hstatus.
  - cbv zeta in Hrun. rewrite Hrun in Hret |- *. injection Hret as <-.
    cbn [body dateAdjusted_of originalDate_of adjustedDate_of fst snd].
    rewrite Hr.
    destruct (Z.leb_spec start now).
    + rewrite bool_decide_eq_false_2 by (intros [= E]; lia).
      repeat split; eauto.
    + rewrite bool_decide_eq_true_2 by done. repeat split; eauto.
Qed.

End Orchestrator.

Lemma createBooking_request_sequences_witness :
  let params := Sample.legacyRequest Sample.futureStart None in
  let pre := preflight 0 "2077162" params Sample.futureStart "UTC" in
  let book :=
    booking Sample.created "2077162" params "Ada" "ada@example.com"
      Sample.futureStart "UTC" in
  let wide := widened 0 "2077162" params Sample.futureStart "UTC" in
  exists made,
    (createBooking 0 Sample.now Sample.created "2077162" Scenario.refusesBooking
       (Scenario.formatRequested Sample.futureStart) params []).2
    = [] ++ made
    /\ (made = [pre] \/ made = [pre; wide] \/ made = [pre; book]
        \/ made = [pre; book; wide]).
Proof.
  intros params pre book wide.
  refine (proj2 (proj2
    (createBooking_request_sequences 0 Sample.created "2077162"
       Scenario.refusesBooking (Scenario.formatRequested Sample.futureStart)
       Sample.now params [] "Ada" "ada@example.com" "UTC"
       eq_refl _ eq_refl _ eq_refl _)) Sample.futureStart eq_refl _);
    try discriminate.
  left. unfold Sample.now, Sample.futureStart. lia.
Defined.

Lemma provider_requests_independent_of_clock_witness :
  let params := Sample.legacyRequest Sample.pastStart (Some Sample.pastEnd) in
  (createBooking 0 Sample.now Sample.created "2077162" Scenario.accepting
     (Scenario.formatRequested Sample.pastStart) params []).2
  = (createBooking 0 Sample.januaryNow Sample.created "2077162"
       Scenario.accepting (Scenario.formatRequested Sample.pastStart) params
       []).2.
Proof.
  intros params.
  refine (proj1
    (provider_requests_independent_of_clock 0 Sample.created "2077162"
       Scenario.accepting (Scenario.formatRequested Sample.pastStart)
       Sample.now Sample.januaryNow params [] _)).
  discriminate.
Defined.

Lemma createBooking_throws_first_provider_error_witness :
  let params := Sample.legacyRequest Sample.futureStart None in
  let pre := preflight 0 "2077162" params Sample.futureStart "UTC" in
  let book :=
    booking Sample.created "2077162" params "Ada" "ada@example.com"
      Sample.futureStart "UTC" in
  let wide := widened 0 "2077162" params Sample.futureStart "UTC" in
  let run :=
    createBooking 0 Sample.now Sample.created "2077162" Scenario.garbles
      (Scenario.formatRequested Sample.futureStart) params [] in
  exists asked refusal,
    ((asked = [pre] /\ Scenario.garbles [] pre = inl refusal)
     \/ (asked = [pre; book]
         /\ Scenario.garbles ([] ++ [pre]) book = inl refusal))
    /\ includesNotAFunction
       = match testThrows refusal with
         | Some _ => includesNotAFunction
         | None => refusal
         end
    /\ run.2 = [] ++ asked ++ (if slotTaken refusal then [wide] else [])
    /\ (slotTaken refusal = true ->
        exists lookupError, Scenario.garbles ([] ++ asked) wide = inl lookupError).
Proof.
  intros params pre book wide run.
  refine (createBooking_throws_first_provider_error 0 Sample.created "2077162"
            Scenario.garbles (Scenario.formatRequested Sample.futureStart)
            Sample.now params [] "Ada" "ada@example.com" "UTC"
            Sample.futureStart includesNotAFunction
            eq_refl _ eq_refl _ eq_refl _ eq_refl _ _);
    try discriminate.
  - left. unfold Sample.now, Sample.futureStart. lia.
  - vm_compute. reflexivity.
Defined.

Lemma dateAdjusted_iff_start_not_after_now_witness :
  dateAdjusted_of (body Scenario.movedResponse) = Some true
  /\ originalDate_of (body Scenario.movedResponse) = Some Sample.pastStart
  /\ adjustedDate_of (body Scenario.movedResponse)
     = Some (Instant Sample.repairedStart).
Proof.
  assert (Hrun : (createBooking 0 Sample.now Sample.created "2077162" Scenario.accepting
                    (Scenario.formatRequested Sample.pastStart)
                    (Sample.legacyRequest Sample.pastStart (Some Sample.pastEnd))
                    []).1.1 = Return Scenario.movedResponse)
    by (vm_compute; reflexivity).
  assert (Hstatus : statusCode Scenario.movedResponse = 200)
    by (vm_compute; reflexivity).
  destruct (dateAdjusted_iff_start_not_after_now 0 Sample.created "2077162"
              Scenario.accepting
              (Scenario.formatRequested Sample.pastStart) Sample.now
              (Sample.legacyRequest Sample.pastStart (Some Sample.pastEnd)) []
              "Ada" "ada@example.com" "UTC" Sample.pastStart
              Scenario.movedResponse eq_refl ltac:(discriminate) eq_refl
              ltac:(discriminate) eq_refl eq_refl ltac:(discriminate) Hrun
              Hstatus)
    as (Hflag & Horiginal & Hadjusted & _).
  split; [exact Hflag |]. split; [exact Horiginal |].
  rewrite Hadjusted. vm_compute. reflexivity.
Defined.

End OrchestratorProperties.

(** * Properties of the provider client *)
Module ServiceProperties.
Import JS CalApiService Effects EffectFacts.

Local Open Scope string_scope.
Local Open Scope list_scope.
Local Open Scope Z_scope.

Section Service.
Variable config_cal_apiKey : json.
Variable config_cal_apiUrl : string.
Variable config_cal_apiVersion : string.
Variable config_cal_eventTypeId : json.
Variable config_cal_username : json.
Variable fetch : list Request -> Request -> Error + FetchResponse.
Variable JSON_stringify : json -> string.
Variable toString : json -> string.
Variable encodeURIComponent : string -> string.
Variable parseInt : string -> option Z.
Variable Date_getTime : json -> option Z.
Variable toISOString : Z -> string.

Abbreviation requestFor_ :=
  (requestFor config_cal_apiKey config_cal_apiUrl config_cal_apiVersion
     JSON_stringify toString).
Abbreviation callCalApi_ :=
  (callCalApi config_cal_apiKey config_cal_apiUrl config_cal_apiVersion fetch
     JSON_stringify toString).
Abbreviation getSlots_ :=
  (getSlots config_cal_apiKey config_cal_apiUrl config_cal_apiVersion
     config_cal_eventTypeId fetch JSON_stringify toString encodeURIComponent).
Abbreviation createBooking_ :=
  (createBooking config_cal_apiKey config_cal_apiUrl config_cal_username fetch
     JSON_stringify toString parseInt Date_getTime toISOString).
Abbreviation templ_ := (templ toString).

(** X24.  [callCalApi] sends one request and returns a value in one case
    only: the response has a content type that mentions [application/json],
    its body parses, and its status is in 200-299; the value is the parsed
    body.  A response of any status with another content type, or none, is
    an error. *)
Theorem callCalApi_returns_only_ok_json (endpoint : string) (options : Options)
    (trace : list Request) :
  (callCalApi_ endpoint options trace).2 = trace ++ [requestFor_ endpoint options]
  /\ forall data,
       (callCalApi_ endpoint options trace).1 = Return data
       <-> exists response mediaType,
             fetch trace (requestFor_ endpoint options) = inr response
             /\ contentType response = Some mediaType
             /\ includes mediaType "application/json" = true
             /\ json_ response = inr data
             /\ 200 <= status response <= 299.
Proof.
  split; [reflexivity |]. intros data. unfold callCalApi. cbn [fst].
  destruct (fetch trace _) as [e | response]; [split; [done | by intros (? & ? & ? & _)] |].
  unfold readResponse, ok.
  split.
  - intros H. exists response.
    destruct (contentType response) as [mediaType |] eqn:Hct; [| by destruct (text response)].
    exists mediaType. cbn [default from_option id truthyS] in H.
    destruct (includes mediaType "application/json") eqn:Hin;
      [| rewrite andb_false_r in H; by destruct (text response)].
    destruct (negb (String.eqb mediaType "")); [| by destruct (text response)].
    cbn [andb] in H.
    destruct (json_ response) as [e | data'] eqn:Hjson; [done |].
    destruct ((200 <=? status response) && (status response <=? 299)) eqn:Hok.
    + apply andb_true_iff in Hok as [?%Z.leb_le ?%Z.leb_le].
      cbn [negb] in H. injection H as <-. repeat split; try done; lia.
    + cbn [negb] in H.
      repeat match type of H with
             | context [if ?b then _ else _] => destruct b
             | context [member ?d ?k] => destruct (member d k)
             end; done.
  - intros (response' & mediaType & [= <-] & Hct & Hin & Hjson & Hlo & Hhi).
    rewrite Hct, Hjson. cbn [default from_option id truthyS]. rewrite Hin.
    assert (mediaType <> "") as ->%String.eqb_neq by (intros ->; done).
    cbn [negb andb].
    assert ((200 <=? status response) && (status response <=? 299) = true) as ->
      by (apply andb_true_iff; split; by apply Z.leb_le).
    reflexivity.
Qed.

(** X25.  How [callCalApi] classifies a JSON error response whose body is an
    object: 401 is an [AuthError], 404 a [NotFoundError] that names the
    endpoint, 400 a [ValidationError] with the body's field.  Any other
    status gives a plain error that carries no status code and whose
    message has been prefixed twice, the second time by the function's own
    [catch]. *)
Theorem callCalApi_error_classes (endpoint : string) (options : Options)
    (trace : list Request) (response : FetchResponse) (mediaType : string)
    (data : gmap string json) :
  fetch trace (requestFor_ endpoint options) = inr response ->
  contentType response = Some mediaType ->
  includes mediaType "application/json" = true ->
  json_ response = inr (JObj data) ->
  ~ 200 <= status response <= 299 ->
  (callCalApi_ endpoint options trace).1
  = Throw
      (if status response =? 401 then
         AuthError ("Authentication failed: "
                    +:+ templ_ (or_else (data !! "message")
                                  (Some (JStr "Invalid API key"))))
       else if status response =? 404 then
         NotFoundError ("Resource not found: " +:+ endpoint) "Cal.com API"
       else if status response =? 400 then
         ValidationError ("Invalid request: " +:+ templ_ (data !! "message"))
           (templ_ (or_else (data !! "field") (Some (JStr "unknown"))))
       else
         mkError "Error"
           ("Error calling Cal.com API: Cal.com API error ("
            +:+ pretty (status response) +:+ "): "
            +:+ templ_ (or_else (data !! "message")
                          (Some (JStr "Unknown error"))))).
Proof.
  clear config_cal_eventTypeId config_cal_username encodeURIComponent parseInt
    Date_getTime toISOString.
  intros Hfetch Hct Hin Hjson Hstatus.
  unfold callCalApi. cbn [fst]. rewrite Hfetch.
  unfold readResponse, ok. rewrite Hct, Hjson.
  cbn [default from_option id truthyS]. rewrite Hin.
  assert (mediaType <> "") as ->%String.eqb_neq by (intros ->; done).
  cbn [negb andb member].
  assert ((200 <=? status response) && (status response <=? 299) = false) as ->.
  { apply andb_false_iff.
    destruct (Z.leb_spec 200 (status response)); [| by left].
    right. apply Z.leb_gt. lia. }
  cbn [negb].
  by repeat destruct (_ =? _).
Qed.

(** X26.  [getSlots] sends the API key in the query string and in no header:
    the one request it makes is a GET of [/v1/slots] whose only header is
    the content type.  The key and the event type are the request's own
    when it has them and the configured ones otherwise. *)
Theorem getSlots_key_travels_in_query (params : gmap string json)
    (trace : list Request) (key : string) :
  truthy (params !! "startTime") = true ->
  truthy (params !! "endTime") = true ->
  let eventTypeId :=
    if truthy (params !! "eventTypeId") then params !! "eventTypeId"
    else Some config_cal_eventTypeId in
  truthy eventTypeId = true ->
  (if truthy (params !! "apiKey") then params !! "apiKey"
   else Some config_cal_apiKey) = Some (JStr key) ->
  key <> "" ->
  (getSlots_ params trace).2
  = trace
    ++ [ {| url :=
              config_cal_apiUrl +:+ "/v1/slots?"
              +:+ String.concat "&"
                    [ encodeURIComponent "apiKey" +:+ "="
                      +:+ encodeURIComponent key;
                      encodeURIComponent "eventTypeId" +:+ "="
                      +:+ encodeURIComponent (templ_ eventTypeId);
                      encodeURIComponent "startTime" +:+ "="
                      +:+ encodeURIComponent (templ_ (params !! "startTime"));
                      encodeURIComponent "endTime" +:+ "="
                      +:+ encodeURIComponent (templ_ (params !! "endTime")) ];
            method := "GET";
            headers := {[ "Content-Type" := "application/json" ]};
            body := None |} ].
Proof.
  intros Hs He eventTypeId Hevt Hkey Hne.
  unfold getSlots. rewrite Hs, He. cbn [negb].
  unfold or_else. fold eventTypeId. rewrite Hevt, Hkey. cbn [negb truthy hasSlice].
  apply String.eqb_neq in Hne as ->. cbn [negb].
  unfold try_catch, callCalApi, throw.
  match goal with
  | |- context [fetch trace ?r] =>
      destruct (fetch trace r) as [e | response];
        [| destruct (readResponse toString _ response)]
  end; cbn [snd]; reflexivity.
Qed.

(** X27.  The statuses of the errors of [createBooking], given that a failed
    [fetch] carries no status code.  An error thrown before the request is
    sent has no [source].  After the request, an error without [source] is
    an [AuthError] (401), a [NotFoundError] (404) or a [ValidationError]
    (400); an error with source [cal] has a status that is none of 400, 401
    and 404, is not a success status and is not 0. *)
Theorem createBooking_error_sources (params : gmap string json)
    (trace : list Request) (error : Error) :
  (forall t r e, fetch t r = inl e -> err_statusCode e = None) ->
  (createBooking_ params trace).1 = Throw error ->
  ((createBooking_ params trace).2 = trace /\ source error = None)
  \/ ((exists request, (createBooking_ params trace).2 = trace ++ [request])
      /\ ((source error = None
           /\ (err_name error, err_statusCode error)
              ∈ [ ("AuthError", Some 401); ("NotFoundError", Some 404);
                  ("ValidationError", Some 400) ])
          \/ (source error = Some "cal"
              /\ exists c, err_statusCode error = Some c
                           /\ c <> 400 /\ c <> 401 /\ c <> 404 /\ c <> 0
                           /\ ~ 200 <= c <= 299))).
Proof.
  clear config_cal_apiVersion config_cal_eventTypeId encodeURIComponent.
  intros Hfetch. unfold createBooking, throw.
  repeat match goal with
         | |- context [if negb ?b then _ else _] => destruct b; cbn [negb]
         end;
    try (intros [= <-]; left; by split).
  destruct (bookingData _ _ _ _ _ _) as [data |];
    [| intros [= <-]; left; by split].
  destruct (or_else _ _) as [[| | | key | |] |];
    try (intros [= <-]; left; by split).
  cbn [fst snd]. intros H. right. split; [by eexists |].
  match type of H with
  | context [fetch trace ?r] =>
      destruct (fetch trace r) as [e | response] eqn:Hf
  end.
  { injection H as <-. right. split; [done |]. cbn [wrap err_statusCode].
    rewrite (Hfetch _ _ _ Hf). exists 500. repeat split; lia. }
  unfold readBookingResponse, ok in H.
  destruct (json_ response) as [e | data'].
  { injection H as <-. right. split; [done |]. exists 500. repeat split; lia. }
  destruct ((200 <=? status response) && (status response <=? 299)) eqn:Hok;
    cbn [negb] in H; [done |].
  assert (Hnok : ~ 200 <= status response <= 299).
  { intros [?%Z.leb_le ?%Z.leb_le]. apply andb_false_iff in Hok as [? | ?]; congruence. }
  assert (H500 : source (wrap (TypeError "Cannot read properties of null"))
                 = Some "cal"
                 /\ exists c, err_statusCode
                                (wrap (TypeError "Cannot read properties of null"))
                              = Some c
                              /\ c <> 400 /\ c <> 401 /\ c <> 404 /\ c <> 0
                              /\ ~ 200 <= c <= 299).
  { split; [done |]. exists 500. repeat split; lia. }
  destruct (Z.eqb_spec (status response) 401) as [E401 | N401];
    [| destruct (Z.eqb_spec (status response) 404) as [E404 | N404];
       [| destruct (Z.eqb_spec (status response) 400) as [E400 | N400]]];
    destruct data'; cbn [member] in H; injection H as <-;
    try (by right);
    try (left; split; [done |];
         unfold AuthError, NotFoundError, ValidationError;
         cbn [err_name err_statusCode];
         solve [repeat (apply elem_of_cons; first [by left | right])]).
  all: right; split; [done |]; cbn [wrap err_statusCode];
    destruct (Z.eqb_spec (status response) 0);
    [exists 500 | exists (status response)]; repeat split; lia.
Qed.

Lemma normalizeLocation_other (responses : gmap string json) (key : string) :
  key <> "location" -> normalizeLocation responses !! key = responses !! key.
Proof.
  intros Hne. unfold normalizeLocation.
  destruct (negb (truthy (responses !! "location")));
    [by rewrite lookup_insert_ne |].
  destruct (responses !! "location") as [[| | | | | l] |];
    try done; [by rewrite lookup_insert_ne |].
  destruct (negb (truthy (l !! "optionValue"))); [by rewrite lookup_insert_ne | done].
Qed.

(** X28.  A request that passes the checks of [createBooking] and names no
    end is sent once, as a POST of [/v1/bookings] with the API key in the
    query string and the content type as only header.  The booking ends
    fifteen minutes after its start, the other answers are passed on as
    they came, and the location is in the provider's shape: the video
    default when the request has none, and the request's string as [value]
    otherwise. *)
Theorem createBooking_request (params responses : gmap string json)
    (trace : list Request) (key : string) (t : Z) :
  truthy (params !! "start") = true ->
  params !! "responses" = Some (JObj responses) ->
  truthy (responses !! "name") = true ->
  truthy (responses !! "email") = true ->
  truthy (params !! "timeZone") = true ->
  truthy (params !! "eventTypeId") = true ->
  (if truthy (params !! "apiKey") then params !! "apiKey"
   else Some config_cal_apiKey) = Some (JStr key) ->
  key <> "" ->
  truthy (params !! "end") = false ->
  Date_getTime (default JNull (params !! "start")) = Some t ->
  exists data sent,
    (createBooking_ params trace).2
    = trace
      ++ [ {| url := config_cal_apiUrl +:+ "/v1/bookings?apiKey=" +:+ key;
              method := "POST";
              headers := {[ "Content-Type" := "application/json" ]};
              body := Some (JSON_stringify (JObj data)) |} ]
    /\ data !! "start" = params !! "start"
    /\ data !! "end" = Some (JStr (toISOString (t + 15 * 60000)))
    /\ data !! "timeZone" = params !! "timeZone"
    /\ data !! "responses" = Some (JObj sent)
    /\ (forall k, k <> "location" -> sent !! k = responses !! k)
    /\ (truthy (responses !! "location") = false ->
        sent !! "location"
        = Some (JObj (<["value" := JStr "integrations:daily"]>
                        (<["optionValue" := JStr ""]> ∅))))
    /\ (forall place, responses !! "location" = Some (JStr place) ->
        place <> "" ->
        sent !! "location"
        = Some (JObj (<["value" := JStr place]>
                        (<["optionValue" := JStr ""]> ∅)))).
Proof.
  intros Hs Hr Hn He Htz Hevt Hkey Hne Hend Ht.
  assert (Hdata : exists data,
            bookingData config_cal_username parseInt Date_getTime toISOString
              params (normalizeLocation responses) = Some data
            /\ data !! "start" = params !! "start"
            /\ data !! "end" = Some (JStr (toISOString (t + 15 * 60000)))
            /\ data !! "timeZone" = params !! "timeZone"
            /\ data !! "responses" = Some (JObj (normalizeLocation responses))).
  { unfold bookingData. rewrite Hend, Ht. cbn [fmap option_fmap option_map mbind option_bind].
    eexists. split; [reflexivity |].
    rewrite !obj_lookup by distinct_keys.
    cbn [fieldOf String.eqb Ascii.eqb Bool.eqb]. done. }
  destruct Hdata as (data & Hdata & H1 & H2 & H3 & H4).
  exists data, (normalizeLocation responses).
  split; [| repeat split; try done].
  - unfold createBooking. rewrite Hs, Hr, Htz, Hevt. cbn [negb truthy optMember].
    rewrite Hn, He. cbn [negb]. unfold or_else. rewrite Hkey.
    cbn [truthy]. apply String.eqb_neq in Hne as ->. cbn [negb].
    rewrite Hdata.
    match goal with
    | |- context [fetch trace ?r] =>
        destruct (fetch trace r) as [e | response];
          [| destruct (readBookingResponse toString response) as [[] |]]
    end; reflexivity.
  - apply normalizeLocation_other.
  - intros Hloc. unfold normalizeLocation. rewrite Hloc. cbn [negb].
    by rewrite lookup_insert_eq.
  - intros place Hloc Hplace. unfold normalizeLocation. rewrite Hloc.
    cbn [truthy]. apply String.eqb_neq in Hplace as ->. cbn [negb].
    by rewrite lookup_insert_eq.
Qed.

End Service.

Lemma callCalApi_error_classes_witness :
  (callCalApi (JStr "cal_live_default") "https://api.cal.com" "2023-12-25"
     (Scenario.answering Scenario.rateLimited) Scenario.JSON_stringify
     Scenario.objectToString "/v2/bookings/17"
     {| opt_method := None; opt_headers := None; opt_body := None |} []).1
  = Throw (mkError "Error"
             "Error calling Cal.com API: Cal.com API error (429): Too many requests").
Proof.
  exact (callCalApi_error_classes (JStr "cal_live_default") "https://api.cal.com"
           "2023-12-25" (Scenario.answering Scenario.rateLimited)
           Scenario.JSON_stringify Scenario.objectToString "/v2/bookings/17"
           {| opt_method := None; opt_headers := None; opt_body := None |} []
           Scenario.rateLimited "application/json; charset=utf-8"
           (<["message" := JStr "Too many requests"]> ∅)
           eq_refl eq_refl eq_refl eq_refl
           ltac:(unfold Scenario.rateLimited, Scenario.jsonResponse; simpl; lia)).
Defined.

Lemma getSlots_key_travels_in_query_witness :
  (getSlots (JStr "cal_live_default") "https://api.cal.com" "2023-12-25"
     (JStr "2077162") (Scenario.answering Scenario.rateLimited)
     Scenario.JSON_stringify Scenario.objectToString Scenario.encodeURIComponent
     Scenario.slotsQuery []).2
  = [ {| url := "https://api.cal.com/v1/slots?apiKey=cal_live_default&eventTypeId=2077162&startTime=2025-07-01&endTime=2025-07-08";
         method := "GET";
         headers := {[ "Content-Type" := "application/json" ]};
         body := None |} ].
Proof.
  exact (getSlots_key_travels_in_query (JStr "cal_live_default")
           "https://api.cal.com" "2023-12-25" (JStr "2077162")
           (Scenario.answering Scenario.rateLimited) Scenario.JSON_stringify
           Scenario.objectToString Scenario.encodeURIComponent
           Scenario.slotsQuery [] "cal_live_default" eq_refl eq_refl eq_refl
           eq_refl ltac:(discriminate)).
Defined.

Lemma createBooking_error_sources_witness :
  let run :=
    createBooking (JStr "cal_live_default") "https://api.cal.com" (JStr "ashir")
      Scenario.unreachable Scenario.JSON_stringify Scenario.objectToString
      Scenario.parseDecimal Scenario.startOf Sample.toISOString
      Scenario.nativeBooking [] in
  let error := wrap (TypeError "fetch failed") in
  (run.2 = [] /\ source error = None)
  \/ ((exists request, run.2 = [] ++ [request])
      /\ ((source error = None
           /\ (err_name error, err_statusCode error)
              ∈ [ ("AuthError", Some 401); ("NotFoundError", Some 404);
                  ("ValidationError", Some 400) ])
          \/ (source error = Some "cal"
              /\ exists c, err_statusCode error = Some c
                           /\ c <> 400 /\ c <> 401 /\ c <> 404 /\ c <> 0
                           /\ ~ 200 <= c <= 299))).
Proof.
  apply (createBooking_error_sources (JStr "cal_live_default")
           "https://api.cal.com" (JStr "ashir") Scenario.unreachable
           Scenario.JSON_stringify Scenario.objectToString Scenario.parseDecimal
           Scenario.startOf Sample.toISOString Scenario.nativeBooking []
           (wrap (TypeError "fetch failed"))).
  - intros t r e H. injection H as <-. reflexivity.
  - vm_compute. reflexivity.
Defined.

Lemma createBooking_request_witness :
  exists data sent,
    (createBooking (JStr "cal_live_default") "https://api.cal.com" (JStr "ashir")
       (Scenario.answering Scenario.rateLimited) Scenario.JSON_stringify
       Scenario.objectToString Scenario.parseDecimal Scenario.startOf
       Sample.toISOString Scenario.nativeBooking []).2
    = [ {| url := "https://api.cal.com/v1/bookings?apiKey=cal_live_default";
           method := "POST";
           headers := {[ "Content-Type" := "application/json" ]};
           body := Some (Scenario.JSON_stringify (JObj data)) |} ]
    /\ data !! "start" = Some (JStr "2025-07-01T10:00:00Z")
    /\ data !! "end" = Some (JStr (Sample.toISOString (1751364000000 + 15 * 60000)))
    /\ data !! "responses" = Some (JObj sent)
    /\ sent !! "name" = Some (JStr "Ada")
    /\ sent !! "location"
       = Some (JObj (<["value" := JStr "integrations:daily"]>
                       (<["optionValue" := JStr ""]> ∅))).
Proof.
  destruct (createBooking_request (JStr "cal_live_default") "https://api.cal.com"
              (JStr "ashir") (Scenario.answering Scenario.rateLimited)
              Scenario.JSON_stringify Scenario.objectToString
              Scenario.parseDecimal Scenario.startOf Sample.toISOString
              Scenario.nativeBooking Scenario.answers [] "cal_live_default"
              1751364000000 eq_refl eq_refl eq_refl eq_refl eq_refl eq_refl
              eq_refl ltac:(discriminate) eq_refl eq_refl)
    as (data & sent & Hrun & Hstart & Hend & _ & Hresponses & Hother & Hdefault & _).
  exists data, sent. split; [exact Hrun |]. split; [exact Hstart |].
  split; [exact Hend |]. split; [exact Hresponses |]. split.
  - rewrite Hother by discriminate. reflexivity.
  - apply Hdefault. reflexivity.
Defined.

End ServiceProperties.

(** * Properties of the configuration module *)
Module ConfigProperties.
Import ConfigJs.

Local Open Scope string_scope.

Lemma getEnv_empty (env : Env) (key defaultValue : string) :
  String.eqb (getEnv env key defaultValue) ""
  = negb (JS.truthyS (env !! key)) && String.eqb defaultValue "".
Proof.
  unfold getEnv. destruct (env !! key) as [v |]; simpl; [| done].
  by destruct (String.eqb v "") eqn:E; simpl; [| rewrite E].
Qed.

(** X29.  For the configuration as loaded from the environment, [validate]
    reports exactly those of [CAL_API_KEY], [VAPI_API_KEY] and
    [VAPI_PHONE_NUMBER_ID] that are unset or empty, in this order.  The
    event type and the user name always have a value, so the two checks on
    them never report anything, whatever the environment holds. *)
Theorem validate_checks_three_variables (env : Env) :
  missingVars (config env)
  = filter (fun key => JS.truthyS (env !! key) = false)
      [ "CAL_API_KEY"; "VAPI_API_KEY"; "VAPI_PHONE_NUMBER_ID" ]
  /\ (validate (config env) = true
      <-> JS.truthyS (env !! "CAL_API_KEY") = true
          /\ JS.truthyS (env !! "VAPI_API_KEY") = true
          /\ JS.truthyS (env !! "VAPI_PHONE_NUMBER_ID") = true).
Proof.
  assert (H : missingVars (config env)
              = filter (fun key => JS.truthyS (env !! key) = false)
                  [ "CAL_API_KEY"; "VAPI_API_KEY"; "VAPI_PHONE_NUMBER_ID" ]).
  { unfold missingVars, config. cbn [cal vapi cal_apiKey cal_eventTypeId
      cal_username cal_userId vapi_apiKey vapi_phoneNumberId].
    rewrite !getEnv_empty. cbn [String.eqb Ascii.eqb Bool.eqb andb].
    rewrite !andb_true_r, !andb_false_r. cbn [andb app].
    rewrite !filter_cons, filter_nil.
    destruct (JS.truthyS (env !! "CAL_API_KEY")),
      (JS.truthyS (env !! "VAPI_API_KEY")),
      (JS.truthyS (env !! "VAPI_PHONE_NUMBER_ID")); reflexivity. }
  split; [done |]. unfold validate. rewrite H.
  rewrite !filter_cons, filter_nil.
  destruct (JS.truthyS (env !! "CAL_API_KEY")),
    (JS.truthyS (env !! "VAPI_API_KEY")),
    (JS.truthyS (env !! "VAPI_PHONE_NUMBER_ID")); cbn; intuition congruence.
Qed.

Lemma validate_checks_three_variables_witness :
  missingVars (config Scenario.environment) = ["VAPI_PHONE_NUMBER_ID"]
  /\ validate (config Scenario.environment) = false.
Proof.
  destruct (validate_checks_three_variables Scenario.environment) as [Hmissing _].
  unfold validate. rewrite Hmissing. split; reflexivity.
Defined.

End ConfigProperties.
